(** * Plant chat client: durable cache, request hooks and conversation handlers

    A shallow embedding of
      - [frontend/src/cacheService.js]  (module [CacheService]),
      - the hooks [useClassification] / [useQA] of the hooks file
        (module [Hooks]),
      - the event handlers of [frontend/src/PlantChatbot.js]
        (module [Chatbot]),
    together with the properties the specification states about them.

    Conventions.
      - JavaScript strings are modelled as [string] (byte strings holding the
        UTF-8 encoding); epoch milliseconds and other integers as [Z].
      - [Date.now()] is an input of every operation that reads the clock.
      - Asynchronous functions are programs of a small free monad ([prog]):
        synchronous effects are performed on the spot, an [await] suspends the
        program until the environment resumes it with the awaited answer. *)

From Stdlib Require Import ZArith String Ascii List Bool Lia.
From Stdlib Require DecimalString HexadecimalString.
From stdpp Require Import gmap strings list fin_maps.

Open Scope string_scope.
Open Scope list_scope.
Open Scope Z_scope.

Infix "+++" := String.append (at level 60, right associativity).

(* ===================================================================== *)
(** ** JavaScript values and string helpers                               *)
(* ===================================================================== *)

Module Js.

(** JSON-like values, plus [undefined].  A number is carried as its
    canonical rendering ([Number.prototype.toString]); no arithmetic is
    done on the numbers of a payload. *)
#[local] Unset Elimination Schemes.
Inductive jsval : Type :=
| JUndefined
| JNull
| JBool (b : bool)
| JNum (repr : string)
| JStr (s : string)
| JArr (xs : list jsval)
| JObj (fields : list (string * jsval)).
#[local] Set Elimination Schemes.

(** ToBoolean. *)
Definition truthy (v : jsval) : bool :=
  match v with
  | JUndefined | JNull => false
  | JBool b => b
  | JNum repr => negb (String.eqb repr "0" || String.eqb repr "NaN")
  | JStr s => negb (String.eqb s "")
  | JArr _ | JObj _ => true
  end.

(** [a || b]. *)
Definition or_else (a b : jsval) : jsval := if truthy a then a else b.

(** [Array.isArray]. *)
Definition isArray (v : jsval) : bool :=
  match v with JArr _ => true | _ => false end.

(** Own-property lookup in a parsed JSON object ([obj.name]). *)
Fixpoint prop (name : string) (fields : list (string * jsval)) : jsval :=
  match fields with
  | [] => JUndefined
  | (k, v) :: rest => if String.eqb k name then v else prop name rest
  end.

(** ToString, as the [Error] constructor and template literals apply it. *)
Fixpoint toString (v : jsval) : string :=
  match v with
  | JUndefined => "undefined"
  | JNull => "null"
  | JBool true => "true"
  | JBool false => "false"
  | JNum repr => repr
  | JStr s => s
  | JArr xs =>
      (fix join (l : list jsval) : string :=
         match l with
         | [] => ""
         | x :: rest =>
             (match x with JUndefined | JNull => "" | _ => toString x end)
             +++ (match rest with [] => "" | _ => "," +++ join rest end)
         end) xs
  | JObj _ => "[object Object]"
  end.

(** Truthiness of a nullable string ([null], or a string). *)
Definition truthy_str (o : option string) : bool :=
  match o with
  | None => false
  | Some s => negb (String.eqb s "")
  end.

(** Decimal rendering of an integer, as in a template literal. *)
Definition decimal (z : Z) : string :=
  DecimalString.NilZero.string_of_int (Z.to_int z).

(** [n.toString(16)] for an integer. *)
Definition hex (z : Z) : string :=
  HexadecimalString.NilZero.string_of_int (Z.to_hex_int z).

(** ToInt32: wrap to the signed 32-bit range. *)
Definition to_int32 (z : Z) : Z :=
  let m := z mod 2 ^ 32 in
  if m <? 2 ^ 31 then m else m - 2 ^ 32.

Definition map_ascii (f : ascii -> ascii) : string -> string :=
  fix go (s : string) : string :=
    match s with
    | EmptyString => EmptyString
    | String c rest => String (f c) (go rest)
    end.

Definition upper_ascii (c : ascii) : ascii :=
  let n := N_of_ascii c in
  if ((97 <=? n) && (n <=? 122))%N then ascii_of_N (n - 32) else c.

Definition lower_ascii (c : ascii) : ascii :=
  let n := N_of_ascii c in
  if ((65 <=? n) && (n <=? 90))%N then ascii_of_N (n + 32) else c.

(** [toUpperCase] / [toLowerCase] on the ASCII letters.  Every name the
    cache is called with is ASCII; and no non-ASCII character has a
    lower-case form made of the letters r, e, s, t, so the comparison of
    [toLowerCase] with the reset word is decided exactly. *)
Definition toUpperCase : string -> string := map_ascii upper_ascii.
Definition toLowerCase : string -> string := map_ascii lower_ascii.

Definition bytes (l : list N) : string :=
  string_of_list_ascii (List.map ascii_of_N l).

(** The WhiteSpace and LineTerminator code points that [trim] removes, as
    the byte sequences of their UTF-8 encoding. *)
Definition whitespace : list string :=
  List.map bytes
    [ [9]; [10]; [11]; [12]; [13]; [32];
      [194; 160];                                   (* U+00A0 *)
      [225; 154; 128];                              (* U+1680 *)
      [226; 128; 128]; [226; 128; 129]; [226; 128; 130];
      [226; 128; 131]; [226; 128; 132]; [226; 128; 133];
      [226; 128; 134]; [226; 128; 135]; [226; 128; 136];
      [226; 128; 137]; [226; 128; 138];             (* U+2000 .. U+200A *)
      [226; 128; 168]; [226; 128; 169];             (* U+2028, U+2029 *)
      [226; 128; 175];                              (* U+202F *)
      [226; 129; 159];                              (* U+205F *)
      [227; 128; 128];                              (* U+3000 *)
      [239; 187; 191] ]%N.                          (* U+FEFF *)

Definition drop_string (n : nat) (s : string) : string :=
  String.substring n (String.length s - n) s.

(** Remove one leading white-space character, if there is one. *)
Fixpoint strip_one (ws : list string) (s : string) : option string :=
  match ws with
  | [] => None
  | w :: ws' =>
      if String.prefix w s then Some (drop_string (String.length w) s)
      else strip_one ws' s
  end.

Fixpoint trimStart_fuel (fuel : nat) (ws : list string) (s : string) : string :=
  match fuel with
  | O => s
  | S fuel' =>
      match strip_one ws s with
      | Some s' => trimStart_fuel fuel' ws s'
      | None => s
      end
  end.

Fixpoint rev_string (s : string) : string :=
  match s with
  | EmptyString => EmptyString
  | String c rest => rev_string rest +++ String c EmptyString
  end.

Definition trimStart (s : string) : string :=
  trimStart_fuel (String.length s) whitespace s.

Definition trimEnd (s : string) : string :=
  rev_string
    (trimStart_fuel (String.length s) (List.map rev_string whitespace) (rev_string s)).

(** [String.prototype.trim]. *)
Definition trim (s : string) : string := trimEnd (trimStart s).

End Js.

Import Js.

(* ===================================================================== *)
(** ** cacheService.js                                                    *)
(* ===================================================================== *)

Module CacheService.

(** Cache names for different types of data. *)
Definition CACHE_NAMES_PLANTS : string := "plants-data-cache".
Definition CACHE_NAMES_CLASSIFICATIONS : string := "classifications-cache".
Definition CACHE_NAMES_QA : string := "qa-responses-cache".

(** [Object.values(CACHE_NAMES)], in insertion order. *)
Definition CACHE_NAMES_values : list string :=
  [CACHE_NAMES_PLANTS; CACHE_NAMES_CLASSIFICATIONS; CACHE_NAMES_QA].

(** Cache expiration times (in milliseconds), keyed as in the source. *)
Definition CACHE_EXPIRY : list (string * Z) :=
  [ ("PLANTS", 24 * 60 * 60 * 1000);
    ("CLASSIFICATIONS", 30 * 60 * 1000);
    ("QA", 60 * 60 * 1000) ].

(** [CACHE_EXPIRY[name]]: [None] stands for [undefined]. *)
Fixpoint expiry_of (table : list (string * Z)) (name : string) : option Z :=
  match table with
  | [] => None
  | (k, ms) :: rest => if String.eqb k name then Some ms else expiry_of rest name
  end.

(** [a || b] on optional numbers: [undefined] and [0] are falsy. *)
Definition num_or (a : option Z) (b : option Z) : option Z :=
  match a with
  | Some n => if n =? 0 then b else a
  | None => b
  end.

(** A record of an object store: [{ key, value, expiry }]. *)
Record entry : Type := Entry { key : string; value : jsval; expiry : Z }.

(** The IndexedDB database [PlantQACache]: whether IndexedDB exists at all
    ([idbAvailable]) and the object stores, each keyed by [key]. *)
Record database : Type := Database {
  idbAvailable : bool;
  stores : gmap string (gmap string entry)
}.

(** The database as [onupgradeneeded] creates it: one empty object store
    per cache name. *)
Definition fresh_database : database :=
  {| idbAvailable := true;
     stores := list_to_map (List.map (fun n => (n, ∅)) CACHE_NAMES_values) |}.

Definition with_store (cacheName : string) (st : gmap string entry) (db : database)
  : database :=
  {| idbAvailable := idbAvailable db; stores := <[cacheName := st]> (stores db) |}.

(** The expiry [setCache] computes:
    [Date.now() + (expiryTime || CACHE_EXPIRY[cacheName.toUpperCase()] || 0)]. *)
Definition compute_expiry (cacheName : string) (expiryTime : option Z) (now : Z) : Z :=
  now + match num_or (num_or expiryTime (expiry_of CACHE_EXPIRY (toUpperCase cacheName)))
                     (Some 0) with
        | Some ms => ms
        | None => 0
        end.

(** [setCache(cacheName, key, value, expiryTime)].  Returns [true] when the
    transaction completes and [null] when IndexedDB is missing or when
    opening the transaction throws (no such object store). *)
Definition setCache (cacheName key_ : string) (value_ : jsval) (expiryTime : option Z)
           (now : Z) (db : database) : jsval * database :=
  if negb (idbAvailable db) then (JNull, db)
  else
    match stores db !! cacheName with
    | None => (JNull, db)
    | Some st =>
        let expiry_ := compute_expiry cacheName expiryTime now in
        (JBool true,
         with_store cacheName
           (<[key_ := {| key := key_; value := value_; expiry := expiry_ |}]> st) db)
    end.

(** [getCache(cacheName, key)]: the cached value, or [null] when the entry
    is missing or expired; an expired entry is deleted. *)
Definition getCache (cacheName key_ : string) (now : Z) (db : database)
  : jsval * database :=
  if negb (idbAvailable db) then (JNull, db)
  else
    match stores db !! cacheName with
    | None => (JNull, db)
    | Some st =>
        match st !! key_ with
        | Some result =>
            if expiry result >? now then (value result, db)
            else (JNull, with_store cacheName (delete key_ st) db)
        | None => (JNull, db)
        end
    end.

(** One pass of the sweep over an object store: the cursor over the
    [expiry] index with upper bound [now] deletes every record it meets. *)
Definition sweep_store (now : Z) (st : gmap string entry) : gmap string entry :=
  filter (fun kv => ¬ (expiry kv.2 <= now)) st.

(** [clearExpiredCache()]: the loop over the cache names stops at the first
    store whose transaction cannot be opened (the exception is caught). *)
Fixpoint clearExpired_loop (names : list string) (now : Z) (db : database) : database :=
  match names with
  | [] => db
  | cacheName :: rest =>
      match stores db !! cacheName with
      | None => db
      | Some st => clearExpired_loop rest now (with_store cacheName (sweep_store now st) db)
      end
  end.

Definition clearExpiredCache (now : Z) (db : database) : database :=
  if negb (idbAvailable db) then db
  else clearExpired_loop CACHE_NAMES_values now db.

(** Plant-specific cache functions. *)
Definition cachePlantsData (plants : jsval) := setCache CACHE_NAMES_PLANTS "all-plants" plants None.
Definition getCachedPlantsData := getCache CACHE_NAMES_PLANTS "all-plants".
Definition cacheClassifications (imageHash : string) (classifications : jsval) :=
  setCache CACHE_NAMES_CLASSIFICATIONS imageHash classifications None.
Definition getCachedClassifications (imageHash : string) :=
  getCache CACHE_NAMES_CLASSIFICATIONS imageHash.
Definition cacheQAResponse (questionHash : string) (answer : jsval) :=
  setCache CACHE_NAMES_QA questionHash answer None.
Definition getCachedQAResponse (questionHash : string) :=
  getCache CACHE_NAMES_QA questionHash.

(** Strings are kept as the bytes of their UTF-8 encoding; [charCodeAt]
    reads UTF-16 code units.  [utf16] gives the code units of the text the
    bytes encode: one unit for a code point below U+10000, a surrogate
    pair from U+10000 on.  (Bytes that encode no text stand for no
    JavaScript string; each is read as U+FFFD.) *)
Definition continuation (b : Z) : bool := (128 <=? b) && (b <=? 191).

Definition two_bytes (b0 b1 : Z) : option Z :=
  if (194 <=? b0) && (b0 <=? 223) && continuation b1
  then Some ((b0 - 192) * 64 + (b1 - 128))
  else None.

Definition three_bytes (b0 b1 b2 : Z) : option Z :=
  let cp := (b0 - 224) * 4096 + (b1 - 128) * 64 + (b2 - 128) in
  if (224 <=? b0) && (b0 <=? 239) && continuation b1 && continuation b2
     && (2048 <=? cp) && negb ((55296 <=? cp) && (cp <=? 57343))
  then Some cp
  else None.

Definition four_bytes (b0 b1 b2 b3 : Z) : option Z :=
  let cp := (b0 - 240) * 262144 + (b1 - 128) * 4096 + (b2 - 128) * 64 + (b3 - 128) in
  if (240 <=? b0) && (b0 <=? 244) && continuation b1 && continuation b2
     && continuation b3 && (65536 <=? cp) && (cp <=? 1114111)
  then Some cp
  else None.

Definition REPLACEMENT : Z := 65533.

Fixpoint utf16 (bs : list Z) : list Z :=
  match bs with
  | [] => []
  | b0 :: rest =>
      if b0 <? 128 then b0 :: utf16 rest
      else
        match rest with
        | [] => [REPLACEMENT]
        | b1 :: rest1 =>
            match two_bytes b0 b1 with
            | Some cp => cp :: utf16 rest1
            | None =>
                match rest1 with
                | [] => REPLACEMENT :: utf16 rest
                | b2 :: rest2 =>
                    match three_bytes b0 b1 b2 with
                    | Some cp => cp :: utf16 rest2
                    | None =>
                        match rest2 with
                        | [] => REPLACEMENT :: utf16 rest
                        | b3 :: rest3 =>
                            match four_bytes b0 b1 b2 b3 with
                            | Some cp =>
                                (55296 + (cp - 65536) / 1024)
                                :: (56320 + (cp - 65536) mod 1024)
                                :: utf16 rest3
                            | None => REPLACEMENT :: utf16 rest
                            end
                        end
                    end
                end
            end
        end
  end.

(** The code units [str.charCodeAt(i)] yields for [i] from 0 to
    [str.length - 1]. *)
Definition charCodes (str : string) : list Z :=
  utf16 (List.map (fun c => Z.of_N (N_of_ascii c)) (list_ascii_of_string str)).

(** [generateHash(str)]:
    [hash = ((hash << 5) - hash) + char; hash = hash & hash]. *)
Definition hash_step (hash char : Z) : Z :=
  to_int32 ((to_int32 (Z.shiftl hash 5) - hash) + char).

Definition generateHash (str : string) : string :=
  hex (List.fold_left hash_step (charCodes str) 0).

End CacheService.

(* ===================================================================== *)
(** ** Asynchronous programs                                              *)
(* ===================================================================== *)

(** An [async] function is a tree of effects.  A synchronous effect ([Do]) is
    performed at once; at an [Await] the function is suspended, other code may
    run, and the environment resumes it later with the awaited answer. *)
Module Async.

Section Prog.
Context {eff aeff : Type -> Type}.

Inductive prog (A : Type) : Type :=
| Ret (a : A)
| Do {X : Type} (e : eff X) (k : X -> prog A)
| Await {X : Type} (e : aeff X) (k : X -> prog A).

Arguments Ret {A} a.
Arguments Do {A X} e k.
Arguments Await {A X} e k.

Fixpoint bind {A B : Type} (p : prog A) (f : A -> prog B) : prog B :=
  match p with
  | Ret a => f a
  | Do e k => Do e (fun x => bind (k x) f)
  | Await e k => Await e (fun x => bind (k x) f)
  end.

Definition perform {X : Type} (e : eff X) : prog X := Do e Ret.
Definition await {X : Type} (e : aeff X) : prog X := Await e Ret.

(** A call in progress: settled with its result, or suspended at an
    [await] with the rest of the function. *)
Inductive task (A : Type) : Type :=
| Settled (a : A)
| Blocked {X : Type} (e : aeff X) (k : X -> prog A).

Arguments Settled {A} a.
Arguments Blocked {A X} e k.

Context {world : Type}.
Variable handle : forall X : Type, eff X -> world -> X * world.
Variable suspend : forall X : Type, aeff X -> world -> world.

(** Run a program up to its next [await]. *)
Fixpoint run_sync {A : Type} (p : prog A) (w : world) : task A * world :=
  match p with
  | Ret a => (Settled a, w)
  | Do e k => let (x, w') := handle _ e w in run_sync (k x) w'
  | Await e k => (Blocked e k, suspend _ e w)
  end.
End Prog.

Arguments prog : clear implicits.
Arguments task : clear implicits.
Arguments Ret {eff aeff A} a.
Arguments Do {eff aeff A X} e k.
Arguments Await {eff aeff A X} e k.
Arguments Settled {eff aeff A} a.
Arguments Blocked {eff aeff A X} e k.

Definition when {eff aeff : Type -> Type} (b : bool) (p : prog eff aeff unit)
  : prog eff aeff unit :=
  if b then p else Ret tt.

End Async.

Import Async.

Notation "'let*' x ':=' p 'in' q" := (Async.bind p (fun x => q))
  (at level 10, x name, p at level 100, q at level 200, only parsing).
Notation "p >> q" := (Async.bind p (fun _ => q))
  (at level 100, q at level 200, right associativity, only parsing).

(* ===================================================================== *)
(** ** The request hooks: useClassification and useQA                     *)
(* ===================================================================== *)

Module Hooks.
Import CacheService.

(** The fields of a [File] the hooks read. *)
Record file : Type := File {
  name : string;
  type : string;
  lastModified : Z;
  size : Z
}.

Inductive request : Type :=
| ClassifyRequest (f : file)                 (* POST /api/classify, one [file] *)
| QARequest (label : string) (question : string).   (* POST /api/qa *)

(** What awaiting a [fetch] (and the reading of its JSON body) yields: a
    rejection with the error's [name] and [message], or a response with
    its status and the fields of its body (no field when the body of an
    error response cannot be parsed). *)
Inductive reply : Type :=
| Rejected (name message : string)
| Response (status : Z) (data : list (string * jsval)).

Definition ok (status : Z) : bool := (200 <=? status) && (status <=? 299).

(** The state one hook instance exposes, and its [abortControllerRef].
    [value] is [classifications] for useClassification and [answer] for
    useQA.  Abort controllers are numbered in order of creation. *)
Record hook : Type := Hook {
  value : jsval;
  loading : bool;
  error : option string;
  abortControllerRef : option nat
}.

Inductive hook_id : Type := Classification | QA.

Record world : Type := World {
  classification : hook;
  qa : hook;
  controllers : nat;               (* abort controllers created so far *)
  aborted : list nat;              (* those whose [abort()] was called *)
  db : database;
  onLine : bool;                   (* navigator.onLine *)
  network : list (request * option nat)   (* requests sent, with their signal *)
}.

Definition get_hook (h : hook_id) (w : world) : hook :=
  match h with Classification => classification w | QA => qa w end.

Definition set_hook (h : hook_id) (x : hook) (w : world) : world :=
  match h with
  | Classification =>
      {| classification := x; qa := qa w; controllers := controllers w;
         aborted := aborted w; db := db w; onLine := onLine w; network := network w |}
  | QA =>
      {| classification := classification w; qa := x; controllers := controllers w;
         aborted := aborted w; db := db w; onLine := onLine w; network := network w |}
  end.

Definition set_db (d : database) (w : world) : world :=
  {| classification := classification w; qa := qa w; controllers := controllers w;
     aborted := aborted w; db := d; onLine := onLine w; network := network w |}.

Definition is_aborted (signal : option nat) (w : world) : bool :=
  match signal with
  | Some c => existsb (Nat.eqb c) (aborted w)
  | None => false
  end.

(** Synchronous effects. *)
Inductive eff : Type -> Type :=
| SetValue (h : hook_id) (v : jsval) : eff unit
| SetLoading (h : hook_id) (b : bool) : eff unit
| SetError (h : hook_id) (e : option string) : eff unit
| AbortCurrent (h : hook_id) : eff unit      (* if (ref.current) ref.current.abort() *)
| NewController (h : hook_id) : eff unit     (* ref.current = new AbortController() *)
| CurrentSignal (h : hook_id) : eff (option nat)   (* ref.current.signal *)
| NavigatorOnLine : eff bool.

(** Awaited operations. *)
Inductive aeff : Type -> Type :=
| CreateImageHash (imageFile : file) : aeff (option string)
| CacheGet (cacheName key : string) : aeff jsval
| CacheSet (cacheName key : string) (v : jsval) : aeff jsval
| CompressImage (f : file) : aeff (file + string)
| Fetch (req : request) (signal : option nat) : aeff reply.

Definition handle (X : Type) (e : eff X) (w : world) : X * world :=
  match e in eff X return X * world with
  | SetValue h v =>
      let x := get_hook h w in
      (tt, set_hook h {| value := v; loading := loading x; error := error x;
                         abortControllerRef := abortControllerRef x |} w)
  | SetLoading h b =>
      let x := get_hook h w in
      (tt, set_hook h {| value := value x; loading := b; error := error x;
                         abortControllerRef := abortControllerRef x |} w)
  | SetError h e =>
      let x := get_hook h w in
      (tt, set_hook h {| value := value x; loading := loading x; error := e;
                         abortControllerRef := abortControllerRef x |} w)
  | AbortCurrent h =>
      match abortControllerRef (get_hook h w) with
      | Some c =>
          (tt, {| classification := classification w; qa := qa w;
                  controllers := controllers w; aborted := aborted w ++ [c];
                  db := db w; onLine := onLine w; network := network w |})
      | None => (tt, w)
      end
  | NewController h =>
      let x := get_hook h w in
      let c := controllers w in
      (tt, set_hook h {| value := value x; loading := loading x; error := error x;
                         abortControllerRef := Some c |}
             {| classification := classification w; qa := qa w;
                controllers := S c; aborted := aborted w;
                db := db w; onLine := onLine w; network := network w |})
  | CurrentSignal h => (abortControllerRef (get_hook h w), w)
  | NavigatorOnLine => (onLine w, w)
  end.

(** Entering an [await]: a [fetch] whose signal is not yet aborted sends
    its request; the other operations touch nothing until they complete. *)
Definition suspend (X : Type) (e : aeff X) (w : world) : world :=
  match e with
  | Fetch req signal =>
      if is_aborted signal w then w
      else {| classification := classification w; qa := qa w;
              controllers := controllers w; aborted := aborted w;
              db := db w; onLine := onLine w;
              network := network w ++ [(req, signal)] |}
  | _ => w
  end.

(** What the environment supplies when it resumes a suspended call: the
    clock, the outcome of the network exchange and of the compression. *)
Record input : Type := Input {
  now : Z;
  net : reply;
  compressed : file + string
}.

(** The string [createImageHash] hashes: file name, last modified date
    and size. *)
Definition imageHash_of (imageFile : file) : string :=
  generateHash (name imageFile +++ "-" +++ decimal (lastModified imageFile)
                +++ "-" +++ decimal (size imageFile)).

(** The answer an awaited operation completes with.  A [fetch] whose
    signal has been aborted rejects with an [AbortError]. *)
Definition answer (X : Type) (e : aeff X) (i : input) (w : world) : X * world :=
  match e in aeff X return X * world with
  | CreateImageHash imageFile =>
      (Some (imageHash_of imageFile), w)
  | CacheGet cacheName key =>
      let (v, d) := getCache cacheName key (now i) (db w) in (v, set_db d w)
  | CacheSet cacheName key v =>
      let (r, d) := setCache cacheName key v None (now i) (db w) in (r, set_db d w)
  | CompressImage f => (compressed i, w)
  | Fetch req signal =>
      if is_aborted signal w
      then (Rejected "AbortError" "The user aborted a request.", w)
      else (net i, w)
  end.

Definition prog : Type -> Type := Async.prog eff aeff.
Definition task : Type -> Type := Async.task eff aeff.

Definition setLoading h b : prog unit := perform (SetLoading h b).
Definition setError h e : prog unit := perform (SetError h e).
Definition setClassifications v : prog unit := perform (SetValue Classification v).
Definition setAnswer v : prog unit := perform (SetValue QA v).

(** [errorData.detail || fallback], as the message of [new Error(...)]. *)
Definition error_message (data : list (string * jsval)) (fallback : string) : string :=
  toString (or_else (prop "detail" data) (JStr fallback)).

(* ------------------------------------------------------------------- *)
(** *** useClassification: classifyImage                                *)

(** [finally { setLoading(false) }], then the value the call returns. *)
Definition classify_finally (ret : jsval) : prog jsval :=
  setLoading Classification false >> Ret ret.

(** The [catch] block. *)
Definition classify_catch (name message : string) : prog jsval :=
  when (negb (String.eqb name "AbortError"))
       (setError Classification (Some ("Error classifying image: " +++ message))) >>
  classify_finally JNull.

(** After [await fetch(...)] (and the reading of the body). *)
Definition classify_after_fetch (imageHash : option string) (r : reply) : prog jsval :=
  match r with
  | Rejected name message => classify_catch name message
  | Response status data =>
      if negb (ok status) then
        classify_catch "Error"
          (error_message data ("Classification failed (HTTP " +++ decimal status +++ ")"))
      else
        let results := prop "results" data in
        if negb (truthy results) || negb (isArray results) then
          classify_catch "Error" "Invalid classification response format"
        else
          (match imageHash with
           | Some h =>
               if truthy_str imageHash
               then (let* _ := await (CacheSet CACHE_NAMES_CLASSIFICATIONS h results) in Ret tt)
               else Ret tt
           | None => Ret tt
           end) >>
          setClassifications results >>
          classify_finally results
  end.

(** From the creation of the form data to the [fetch]. *)
Definition classify_send (imageHash : option string) (processedFile : file) : prog jsval :=
  let* signal := perform (CurrentSignal Classification) in
  let* r := await (Fetch (ClassifyRequest processedFile) signal) in
  classify_after_fetch imageHash r.

(** After the cache look-up missed: compress if needed, then send. *)
Definition classify_uncached (imageHash : option string) (imageFile : file) : prog jsval :=
  if size imageFile >? 1024 * 1024 then
    let* c := await (CompressImage imageFile) in
    match c with
    | inl processedFile => classify_send imageHash processedFile
    | inr message => classify_catch "Error" message
    end
  else classify_send imageHash imageFile.

Definition classifyImage (imageFile : option file) : prog jsval :=
  match imageFile with
  | None =>
      setError Classification (Some "No image file provided") >>
      Ret JNull
  | Some imageFile =>
      setLoading Classification true >>
      setError Classification None >>
      perform (AbortCurrent Classification) >>
      perform (NewController Classification) >>
      let* imageHash := await (CreateImageHash imageFile) in
      match imageHash with
      | Some h =>
          if truthy_str imageHash then
            let* cachedClassifications := await (CacheGet CACHE_NAMES_CLASSIFICATIONS h) in
            if truthy cachedClassifications then
              setClassifications cachedClassifications >>
              setLoading Classification false >>
              classify_finally cachedClassifications
            else classify_uncached imageHash imageFile
          else classify_uncached imageHash imageFile
      | None => classify_uncached imageHash imageFile
      end
  end.

(* ------------------------------------------------------------------- *)
(** *** useQA: askQuestion                                              *)

Definition ask_finally (ret : jsval) : prog jsval :=
  setLoading QA false >> Ret ret.

Definition ask_catch (name message : string) : prog jsval :=
  when (negb (String.eqb name "AbortError"))
       (setError QA (Some ("Error getting answer: " +++ message))) >>
  ask_finally JNull.

Definition ask_after_fetch (questionHash : string) (r : reply) : prog jsval :=
  match r with
  | Rejected name message => ask_catch name message
  | Response status data =>
      if negb (ok status) then
        ask_catch "Error"
          (error_message data ("Failed to get answer (HTTP " +++ decimal status +++ ")"))
      else
        let* _ := await (CacheSet CACHE_NAMES_QA questionHash (prop "answer" data)) in
        setAnswer (prop "answer" data) >>
        ask_finally (prop "answer" data)
  end.

Definition askQuestion (label : option string) (question : string) : prog jsval :=
  match label with
  | Some l =>
      if negb (truthy_str label) || negb (truthy_str (Some (trim question))) then
        setError QA (Some "Both label and question are required") >>
        Ret JNull
      else
        setLoading QA true >>
        setError QA None >>
        setAnswer (JStr "") >>
        perform (AbortCurrent QA) >>
        perform (NewController QA) >>
        let questionHash := generateHash (l +++ "-" +++ trim question) in
        let* cachedAnswer := await (CacheGet CACHE_NAMES_QA questionHash) in
        if truthy cachedAnswer then
          setAnswer cachedAnswer >>
          setLoading QA false >>
          ask_finally cachedAnswer
        else
          let* online := perform NavigatorOnLine in
          if negb online then
            ask_catch "Error"
              "Bạn đang ngoại tuyến. Vui lòng kết nối mạng để sử dụng tính năng này."
          else
            let* signal := perform (CurrentSignal QA) in
            let* r := await (Fetch (QARequest l question) signal) in
            ask_after_fetch questionHash r
  | None =>
      setError QA (Some "Both label and question are required") >>
      Ret JNull
  end.

(* ------------------------------------------------------------------- *)
(** *** The event loop                                                  *)

(** The hooks' state together with the calls in progress. *)
Record system : Type := System {
  sys_world : world;
  tasks : list (task jsval)
}.

Inductive action : Type :=
| CallClassifyImage (imageFile : option file)
| CallAskQuestion (label : option string) (question : string)
| Resume (i : nat) (inp : input).      (* the await of call [i] completes *)

Definition start (p : prog jsval) (s : system) : system :=
  let (t, w') := run_sync handle suspend p (sys_world s) in
  {| sys_world := w'; tasks := tasks s ++ [t] |}.

Definition resume (i : nat) (inp : input) (s : system) : system :=
  match (tasks s !! i : option (Async.task eff aeff jsval)) with
  | Some (Blocked e k) =>
      let (x, w1) := answer _ e inp (sys_world s) in
      let (t, w2) := run_sync handle suspend (k x) w1 in
      {| sys_world := w2; tasks := <[i := t]> (tasks s) |}
  | _ => s
  end.

Definition step (a : action) (s : system) : system :=
  match a with
  | CallClassifyImage imageFile => start (classifyImage imageFile) s
  | CallAskQuestion label question => start (askQuestion label question) s
  | Resume i inp => resume i inp s
  end.

Definition run (schedule : list action) (s : system) : system :=
  List.fold_left (fun s a => step a s) schedule s.

(** Both hooks as [useState]/[useRef] initialise them. *)
Definition initial_world (d : database) : world :=
  {| classification := {| value := JArr []; loading := false; error := None;
                          abortControllerRef := None |};
     qa := {| value := JStr ""; loading := false; error := None;
              abortControllerRef := None |};
     controllers := 0; aborted := []; db := d; onLine := true; network := [] |}.

Definition initial (d : database) : system :=
  {| sys_world := initial_world d; tasks := [] |}.

End Hooks.

(* ===================================================================== *)
(** ** PlantChatbot.js                                                    *)
(* ===================================================================== *)

Module Chatbot.

(** Sender types and message types. *)
Inductive sender_type : Type := USER | BOT.
Inductive message_type : Type := TEXT | IMAGE | MULTI_IMAGE | CLASSIFICATION | SELECTION.

(** One classification result of [POST /api/classify]; the confidence is
    carried as the rendering of the number. *)
Record result : Type := Result {
  label : string;
  confidence : string;
  image_path : option string
}.

(** The [content] of a message: a text, the preview URLs of the images
    sent, the classification results, or the label selected. *)
Inductive message_content : Type :=
| Text (text : string)
| Previews (urls : list string)
| Results (results : list result)
| Selected (plantLabel : string).

Record message : Type := Message {
  id : string;
  content : message_content;
  sender : sender_type;
  type : message_type;
  timestamp : Z;
  isProcessing : bool;
  isError : bool
}.

(** A [File]: name, MIME type, and the identity of its bytes.  A [Blob] is
    the same without a name. *)
Record file : Type := File { name : string; file_type : string; bytes_id : nat }.
Record blob : Type := Blob { blob_type : string; blob_bytes : nat }.

(** An item of the clipboard: its type and what [getAsFile()] returns. *)
Record clipboard_item : Type := ClipboardItem {
  item_type : string;
  getAsFile : option blob
}.

(** The state of the component (one field per [useState]). *)
Record state : Type := State {
  messages : list message;
  sessionId : option string;
  inputMessage : string;
  imageFiles : list file;
  imagePreviewUrls : list string;
  isLoading : bool;
  error : option string;
  uploadProgress : Z;
  classifications : list result;
  showClassificationDialog : bool;
  selectedPlant : option string;
  classificationLoading : bool;
  pendingQuestion : option string;
  pasteIndicator : bool;
  pasteSuccess : bool;
  pasteError : option string;
  showPasteHint : bool
}.

Definition set_messages (v : list message) (s : state) : state :=
  {| messages := v;
     sessionId := sessionId s;
     inputMessage := inputMessage s;
     imageFiles := imageFiles s;
     imagePreviewUrls := imagePreviewUrls s;
     isLoading := isLoading s;
     error := error s;
     uploadProgress := uploadProgress s;
     classifications := classifications s;
     showClassificationDialog := showClassificationDialog s;
     selectedPlant := selectedPlant s;
     classificationLoading := classificationLoading s;
     pendingQuestion := pendingQuestion s;
     pasteIndicator := pasteIndicator s;
     pasteSuccess := pasteSuccess s;
     pasteError := pasteError s;
     showPasteHint := showPasteHint s |}.

Definition set_sessionId (v : option string) (s : state) : state :=
  {| messages := messages s;
     sessionId := v;
     inputMessage := inputMessage s;
     imageFiles := imageFiles s;
     imagePreviewUrls := imagePreviewUrls s;
     isLoading := isLoading s;
     error := error s;
     uploadProgress := uploadProgress s;
     classifications := classifications s;
     showClassificationDialog := showClassificationDialog s;
     selectedPlant := selectedPlant s;
     classificationLoading := classificationLoading s;
     pendingQuestion := pendingQuestion s;
     pasteIndicator := pasteIndicator s;
     pasteSuccess := pasteSuccess s;
     pasteError := pasteError s;
     showPasteHint := showPasteHint s |}.

Definition set_inputMessage (v : string) (s : state) : state :=
  {| messages := messages s;
     sessionId := sessionId s;
     inputMessage := v;
     imageFiles := imageFiles s;
     imagePreviewUrls := imagePreviewUrls s;
     isLoading := isLoading s;
     error := error s;
     uploadProgress := uploadProgress s;
     classifications := classifications s;
     showClassificationDialog := showClassificationDialog s;
     selectedPlant := selectedPlant s;
     classificationLoading := classificationLoading s;
     pendingQuestion := pendingQuestion s;
     pasteIndicator := pasteIndicator s;
     pasteSuccess := pasteSuccess s;
     pasteError := pasteError s;
     showPasteHint := showPasteHint s |}.

Definition set_imageFiles (v : list file) (s : state) : state :=
  {| messages := messages s;
     sessionId := sessionId s;
     inputMessage := inputMessage s;
     imageFiles := v;
     imagePreviewUrls := imagePreviewUrls s;
     isLoading := isLoading s;
     error := error s;
     uploadProgress := uploadProgress s;
     classifications := classifications s;
     showClassificationDialog := showClassificationDialog s;
     selectedPlant := selectedPlant s;
     classificationLoading := classificationLoading s;
     pendingQuestion := pendingQuestion s;
     pasteIndicator := pasteIndicator s;
     pasteSuccess := pasteSuccess s;
     pasteError := pasteError s;
     showPasteHint := showPasteHint s |}.

Definition set_imagePreviewUrls (v : list string) (s : state) : state :=
  {| messages := messages s;
     sessionId := sessionId s;
     inputMessage := inputMessage s;
     imageFiles := imageFiles s;
     imagePreviewUrls := v;
     isLoading := isLoading s;
     error := error s;
     uploadProgress := uploadProgress s;
     classifications := classifications s;
     showClassificationDialog := showClassificationDialog s;
     selectedPlant := selectedPlant s;
     classificationLoading := classificationLoading s;
     pendingQuestion := pendingQuestion s;
     pasteIndicator := pasteIndicator s;
     pasteSuccess := pasteSuccess s;
     pasteError := pasteError s;
     showPasteHint := showPasteHint s |}.

Definition set_isLoading (v : bool) (s : state) : state :=
  {| messages := messages s;
     sessionId := sessionId s;
     inputMessage := inputMessage s;
     imageFiles := imageFiles s;
     imagePreviewUrls := imagePreviewUrls s;
     isLoading := v;
     error := error s;
     uploadProgress := uploadProgress s;
     classifications := classifications s;
     showClassificationDialog := showClassificationDialog s;
     selectedPlant := selectedPlant s;
     classificationLoading := classificationLoading s;
     pendingQuestion := pendingQuestion s;
     pasteIndicator := pasteIndicator s;
     pasteSuccess := pasteSuccess s;
     pasteError := pasteError s;
     showPasteHint := showPasteHint s |}.

Definition set_error (v : option string) (s : state) : state :=
  {| messages := messages s;
     sessionId := sessionId s;
     inputMessage := inputMessage s;
     imageFiles := imageFiles s;
     imagePreviewUrls := imagePreviewUrls s;
     isLoading := isLoading s;
     error := v;
     uploadProgress := uploadProgress s;
     classifications := classifications s;
     showClassificationDialog := showClassificationDialog s;
     selectedPlant := selectedPlant s;
     classificationLoading := classificationLoading s;
     pendingQuestion := pendingQuestion s;
     pasteIndicator := pasteIndicator s;
     pasteSuccess := pasteSuccess s;
     pasteError := pasteError s;
     showPasteHint := showPasteHint s |}.

Definition set_uploadProgress (v : Z) (s : state) : state :=
  {| messages := messages s;
     sessionId := sessionId s;
     inputMessage := inputMessage s;
     imageFiles := imageFiles s;
     imagePreviewUrls := imagePreviewUrls s;
     isLoading := isLoading s;
     error := error s;
     uploadProgress := v;
     classifications := classifications s;
     showClassificationDialog := showClassificationDialog s;
     selectedPlant := selectedPlant s;
     classificationLoading := classificationLoading s;
     pendingQuestion := pendingQuestion s;
     pasteIndicator := pasteIndicator s;
     pasteSuccess := pasteSuccess s;
     pasteError := pasteError s;
     showPasteHint := showPasteHint s |}.

Definition set_classifications (v : list result) (s : state) : state :=
  {| messages := messages s;
     sessionId := sessionId s;
     inputMessage := inputMessage s;
     imageFiles := imageFiles s;
     imagePreviewUrls := imagePreviewUrls s;
     isLoading := isLoading s;
     error := error s;
     uploadProgress := uploadProgress s;
     classifications := v;
     showClassificationDialog := showClassificationDialog s;
     selectedPlant := selectedPlant s;
     classificationLoading := classificationLoading s;
     pendingQuestion := pendingQuestion s;
     pasteIndicator := pasteIndicator s;
     pasteSuccess := pasteSuccess s;
     pasteError := pasteError s;
     showPasteHint := showPasteHint s |}.

Definition set_showClassificationDialog (v : bool) (s : state) : state :=
  {| messages := messages s;
     sessionId := sessionId s;
     inputMessage := inputMessage s;
     imageFiles := imageFiles s;
     imagePreviewUrls := imagePreviewUrls s;
     isLoading := isLoading s;
     error := error s;
     uploadProgress := uploadProgress s;
     classifications := classifications s;
     showClassificationDialog := v;
     selectedPlant := selectedPlant s;
     classificationLoading := classificationLoading s;
     pendingQuestion := pendingQuestion s;
     pasteIndicator := pasteIndicator s;
     pasteSuccess := pasteSuccess s;
     pasteError := pasteError s;
     showPasteHint := showPasteHint s |}.

Definition set_selectedPlant (v : option string) (s : state) : state :=
  {| messages := messages s;
     sessionId := sessionId s;
     inputMessage := inputMessage s;
     imageFiles := imageFiles s;
     imagePreviewUrls := imagePreviewUrls s;
     isLoading := isLoading s;
     error := error s;
     uploadProgress := uploadProgress s;
     classifications := classifications s;
     showClassificationDialog := showClassificationDialog s;
     selectedPlant := v;
     classificationLoading := classificationLoading s;
     pendingQuestion := pendingQuestion s;
     pasteIndicator := pasteIndicator s;
     pasteSuccess := pasteSuccess s;
     pasteError := pasteError s;
     showPasteHint := showPasteHint s |}.

Definition set_classificationLoading (v : bool) (s : state) : state :=
  {| messages := messages s;
     sessionId := sessionId s;
     inputMessage := inputMessage s;
     imageFiles := imageFiles s;
     imagePreviewUrls := imagePreviewUrls s;
     isLoading := isLoading s;
     error := error s;
     uploadProgress := uploadProgress s;
     classifications := classifications s;
     showClassificationDialog := showClassificationDialog s;
     selectedPlant := selectedPlant s;
     classificationLoading := v;
     pendingQuestion := pendingQuestion s;
     pasteIndicator := pasteIndicator s;
     pasteSuccess := pasteSuccess s;
     pasteError := pasteError s;
     showPasteHint := showPasteHint s |}.

Definition set_pendingQuestion (v : option string) (s : state) : state :=
  {| messages := messages s;
     sessionId := sessionId s;
     inputMessage := inputMessage s;
     imageFiles := imageFiles s;
     imagePreviewUrls := imagePreviewUrls s;
     isLoading := isLoading s;
     error := error s;
     uploadProgress := uploadProgress s;
     classifications := classifications s;
     showClassificationDialog := showClassificationDialog s;
     selectedPlant := selectedPlant s;
     classificationLoading := classificationLoading s;
     pendingQuestion := v;
     pasteIndicator := pasteIndicator s;
     pasteSuccess := pasteSuccess s;
     pasteError := pasteError s;
     showPasteHint := showPasteHint s |}.

Definition set_pasteIndicator (v : bool) (s : state) : state :=
  {| messages := messages s;
     sessionId := sessionId s;
     inputMessage := inputMessage s;
     imageFiles := imageFiles s;
     imagePreviewUrls := imagePreviewUrls s;
     isLoading := isLoading s;
     error := error s;
     uploadProgress := uploadProgress s;
     classifications := classifications s;
     showClassificationDialog := showClassificationDialog s;
     selectedPlant := selectedPlant s;
     classificationLoading := classificationLoading s;
     pendingQuestion := pendingQuestion s;
     pasteIndicator := v;
     pasteSuccess := pasteSuccess s;
     pasteError := pasteError s;
     showPasteHint := showPasteHint s |}.

Definition set_pasteSuccess (v : bool) (s : state) : state :=
  {| messages := messages s;
     sessionId := sessionId s;
     inputMessage := inputMessage s;
     imageFiles := imageFiles s;
     imagePreviewUrls := imagePreviewUrls s;
     isLoading := isLoading s;
     error := error s;
     uploadProgress := uploadProgress s;
     classifications := classifications s;
     showClassificationDialog := showClassificationDialog s;
     selectedPlant := selectedPlant s;
     classificationLoading := classificationLoading s;
     pendingQuestion := pendingQuestion s;
     pasteIndicator := pasteIndicator s;
     pasteSuccess := v;
     pasteError := pasteError s;
     showPasteHint := showPasteHint s |}.

Definition set_pasteError (v : option string) (s : state) : state :=
  {| messages := messages s;
     sessionId := sessionId s;
     inputMessage := inputMessage s;
     imageFiles := imageFiles s;
     imagePreviewUrls := imagePreviewUrls s;
     isLoading := isLoading s;
     error := error s;
     uploadProgress := uploadProgress s;
     classifications := classifications s;
     showClassificationDialog := showClassificationDialog s;
     selectedPlant := selectedPlant s;
     classificationLoading := classificationLoading s;
     pendingQuestion := pendingQuestion s;
     pasteIndicator := pasteIndicator s;
     pasteSuccess := pasteSuccess s;
     pasteError := v;
     showPasteHint := showPasteHint s |}.

Definition set_showPasteHint (v : bool) (s : state) : state :=
  {| messages := messages s;
     sessionId := sessionId s;
     inputMessage := inputMessage s;
     imageFiles := imageFiles s;
     imagePreviewUrls := imagePreviewUrls s;
     isLoading := isLoading s;
     error := error s;
     uploadProgress := uploadProgress s;
     classifications := classifications s;
     showClassificationDialog := showClassificationDialog s;
     selectedPlant := selectedPlant s;
     classificationLoading := classificationLoading s;
     pendingQuestion := pendingQuestion s;
     pasteIndicator := pasteIndicator s;
     pasteSuccess := pasteSuccess s;
     pasteError := pasteError s;
     showPasteHint := v |}.

(** The welcome message the conversation starts with. *)
Definition welcome (t : Z) : message :=
  {| id := "welcome";
     content := Text "Xin chào! Tôi là trợ lý thực vật. Bạn có thể hỏi tôi về các loài thực vật hoặc tải lên một hoặc nhiều hình ảnh để tôi nhận diện.";
     sender := BOT; type := TEXT; timestamp := t;
     isProcessing := false; isError := false |}.

Definition initial_state (t : Z) : state :=
  {| messages := [welcome t]; sessionId := None; inputMessage := "";
     imageFiles := []; imagePreviewUrls := []; isLoading := false; error := None;
     uploadProgress := 0; classifications := []; showClassificationDialog := false;
     selectedPlant := None; classificationLoading := false; pendingQuestion := None;
     pasteIndicator := false; pasteSuccess := false; pasteError := None;
     showPasteHint := true |}.

(* ------------------------------------------------------------------- *)
(** *** State updates                                                   *)

(** [prev.filter((_, i) => i !== index)]. *)
Fixpoint filter_index_from {A : Type} (i index : nat) (prev : list A) : list A :=
  match prev with
  | [] => []
  | x :: rest =>
      if Nat.eqb i index then filter_index_from (S i) index rest
      else x :: filter_index_from (S i) index rest
  end.

Definition remove_index {A : Type} (index : nat) (prev : list A) : list A :=
  filter_index_from 0 index prev.

(** [prev.filter(m => m.id !== id)]. *)
Definition remove_id (id_ : string) (prev : list message) : list message :=
  List.filter (fun m => negb (String.eqb (id m) id_)) prev.

(** The state setters, with the updater functions the handlers pass. *)
Inductive update : Type :=
| AppendMessages (new : list message)       (* setMessages(prev => [...prev, ...new]) *)
| RemoveMessage (id_ : string)              (* setMessages(prev => prev.filter(...)) *)
| SetInputMessage (v : string)
| AppendImageFiles (new : list file)        (* setImageFiles(prev => [...prev, ...new]) *)
| RemoveImageFile (index : nat)
| SetImageFiles (v : list file)
| AppendImagePreviewUrls (new : list string)
| RemoveImagePreviewUrl (index : nat)
| SetImagePreviewUrls (v : list string)
| SetIsLoading (v : bool)
| SetError (v : option string)
| SetUploadProgress (v : Z)
| SetClassifications (v : list result)
| SetShowClassificationDialog (v : bool)
| SetSelectedPlant (v : option string)
| SetClassificationLoading (v : bool)
| SetPendingQuestion (v : option string)
| SetPasteIndicator (v : bool)
| SetPasteSuccess (v : bool)
| SetPasteError (v : option string)
| SetShowPasteHint (v : bool).

(** An update acts on the latest state, whatever the handler's closure
    holds. *)
Definition apply_update (u : update) (s : state) : state :=
  match u with
  | AppendMessages new => set_messages (messages s ++ new) s
  | RemoveMessage id_ => set_messages (remove_id id_ (messages s)) s
  | SetInputMessage v => set_inputMessage v s
  | AppendImageFiles new => set_imageFiles (imageFiles s ++ new) s
  | RemoveImageFile index => set_imageFiles (remove_index index (imageFiles s)) s
  | SetImageFiles v => set_imageFiles v s
  | AppendImagePreviewUrls new => set_imagePreviewUrls (imagePreviewUrls s ++ new) s
  | RemoveImagePreviewUrl index =>
      set_imagePreviewUrls (remove_index index (imagePreviewUrls s)) s
  | SetImagePreviewUrls v => set_imagePreviewUrls v s
  | SetIsLoading v => set_isLoading v s
  | SetError v => set_error v s
  | SetUploadProgress v => set_uploadProgress v s
  | SetClassifications v => set_classifications v s
  | SetShowClassificationDialog v => set_showClassificationDialog v s
  | SetSelectedPlant v => set_selectedPlant v s
  | SetClassificationLoading v => set_classificationLoading v s
  | SetPendingQuestion v => set_pendingQuestion v s
  | SetPasteIndicator v => set_pasteIndicator v s
  | SetPasteSuccess v => set_pasteSuccess v s
  | SetPasteError v => set_pasteError v s
  | SetShowPasteHint v => set_showPasteHint v s
  end.

(* ------------------------------------------------------------------- *)
(** *** Requests, effects and the world                                 *)

Inductive request : Type :=
| ClassifyRequest (files : list file)       (* POST /api/classify *)
| QARequest (label_ : option string) (question : string) (session_id : option string).

(** The body of a response: the fields the handlers read. *)
Record response_data : Type := Data {
  results : option (list result);
  answer : option string
}.

(** A [fetch] (with the reading of its body) rejects with an error message
    or yields a status and a body. *)
Inductive response : Type :=
| Rejected (message_ : string)
| Response (status : Z) (data : response_data).

Definition ok (status : Z) : bool := (200 <=? status) && (status <=? 299).

(** What a timer runs when it fires. *)
Inductive callback : Type :=
| AskAboutSelectedPlant (messageId plantLabel question : string)
| PasteSuccessOff
| PasteErrorOff.

Inductive eff : Type -> Type :=
| SetState (u : update) : eff unit
| DateNow : eff Z                               (* Date.now(), new Date() *)
| CreateObjectURL (bytes_ : nat) : eff string
| RevokeObjectURL (url : option string) : eff unit
| SetTimeout (cb : callback) (ms : Z) : eff unit.

Inductive aeff : Type -> Type :=
| Fetch (req : request) : aeff response.

(** Everything a handler does, in order. *)
Inductive event : Type :=
| Updated (u : update)
| Requested (req : request)
| UrlCreated (url : string)
| UrlRevoked (url : option string)
| TimerSet (cb : callback) (ms : Z).

Record world : Type := World {
  st : state;                        (* the latest state *)
  trace : list event;
  clock : nat -> Z;                  (* the successive readings of the clock *)
  ticks : nat;                       (* readings taken so far *)
  created : list (string * nat)      (* object URLs created, with the bytes shown *)
}.

Definition record (e : event) (w : world) : world :=
  {| st := st w; trace := trace w ++ [e]; clock := clock w; ticks := ticks w;
     created := created w |}.

Definition handle (X : Type) (e : eff X) (w : world) : X * world :=
  match e in eff X return X * world with
  | SetState u =>
      (tt, {| st := apply_update u (st w); trace := trace w ++ [Updated u];
              clock := clock w; ticks := ticks w; created := created w |})
  | DateNow =>
      (clock w (ticks w),
       {| st := st w; trace := trace w; clock := clock w; ticks := S (ticks w);
          created := created w |})
  | CreateObjectURL bytes_ =>
      let url := "blob:" +++ decimal (Z.of_nat (List.length (created w))) in
      (url, {| st := st w; trace := trace w ++ [UrlCreated url]; clock := clock w;
               ticks := ticks w; created := created w ++ [(url, bytes_)] |})
  | RevokeObjectURL url => (tt, record (UrlRevoked url) w)
  | SetTimeout cb ms => (tt, record (TimerSet cb ms) w)
  end.

Definition suspend (X : Type) (e : aeff X) (w : world) : world :=
  match e with
  | Fetch req => record (Requested req) w
  end.

Definition prog : Type -> Type := Async.prog eff aeff.
Definition task : Type -> Type := Async.task eff aeff.

Definition run_sync {A : Type} (p : prog A) (w : world) : task A * world :=
  Async.run_sync handle suspend p w.

(** The awaited [fetch] of a suspended handler completes with [r]. *)
Definition resume {A : Type} (t : task A) (r : response) (w : world) : task A * world :=
  match t with
  | Settled a => (Settled a, w)
  | Blocked e k =>
      match e in aeff X return (X -> Async.prog eff aeff A) -> task A * world with
      | Fetch _ => fun k => run_sync (k r) w
      end k
  end.

(** Run a handler to its end, feeding it the responses in turn. *)
Fixpoint resume_all {A : Type} (rs : list response) (tw : task A * world)
  : task A * world :=
  match rs with
  | [] => tw
  | r :: rest => resume_all rest (resume (fst tw) r (snd tw))
  end.

Definition setState (u : update) : prog unit := perform (SetState u).
Definition Date_now : prog Z := perform DateNow.

(* ------------------------------------------------------------------- *)
(** *** Dates and names                                                 *)

Definition pad (width : nat) (n : Z) : string :=
  let d := decimal n in
  string_of_list_ascii (List.repeat "0"%char (width - String.length d)) +++ d.

(** [new Date(ms).toISOString()], for the years 0000 to 9999. *)
Definition toISOString (ms : Z) : string :=
  let days := ms / 86400000 in
  let rest := ms mod 86400000 in
  let z := days + 719468 in
  let era := z / 146097 in
  let doe := z - era * 146097 in
  let yoe := (doe - doe / 1460 + doe / 36524 - doe / 146096) / 365 in
  let doy := doe - (365 * yoe + yoe / 4 - yoe / 100) in
  let mp := (5 * doy + 2) / 153 in
  let d := doy - (153 * mp + 2) / 5 + 1 in
  let m := if mp <? 10 then mp + 3 else mp - 9 in
  let y := yoe + era * 400 + (if m <=? 2 then 1 else 0) in
  pad 4 y +++ "-" +++ pad 2 m +++ "-" +++ pad 2 d +++ "T"
  +++ pad 2 (rest / 3600000) +++ ":" +++ pad 2 (rest / 60000 mod 60) +++ ":"
  +++ pad 2 (rest / 1000 mod 60) +++ "." +++ pad 3 (rest mod 1000) +++ "Z".

(** [.replace(/[:.]/g, '-')]. *)
Definition dashes : string -> string :=
  map_ascii (fun c => if (Ascii.eqb c ":" || Ascii.eqb c ".")%bool then "-"%char else c).

(** [type.split('/')[1]]: the text between the first and the second
    slash, [None] when there is no slash. *)
Fixpoint up_to_slash (s : string) : string :=
  match s with
  | EmptyString => EmptyString
  | String c rest => if Ascii.eqb c "/" then EmptyString else String c (up_to_slash rest)
  end.

Fixpoint after_slash (s : string) : option string :=
  match s with
  | EmptyString => None
  | String c rest => if Ascii.eqb c "/" then Some (up_to_slash rest) else after_slash rest
  end.

(** [blob.type.split('/')[1] || 'png']. *)
Definition extension_of (blob_type_ : string) : string :=
  match after_slash blob_type_ with
  | Some e => if String.eqb e "" then "png" else e
  | None => "png"
  end.

Definition is_image (mime : string) : bool := String.prefix "image/" mime.

(* ------------------------------------------------------------------- *)
(** *** Attached images                                                 *)

(** [validImageFiles.map(file => URL.createObjectURL(file))]. *)
Fixpoint createObjectURLs (files : list file) : prog (list string) :=
  match files with
  | [] => Ret []
  | f :: rest =>
      let* url := perform (CreateObjectURL (bytes_id f)) in
      let* urls := createObjectURLs rest in
      Ret (url :: urls)
  end.

(** Handle file selection. *)
Definition handleFileSelect (files : list file) : prog unit :=
  if Nat.eqb (List.length files) 0 then Ret tt
  else
    let validImageFiles := List.filter (fun f => is_image (file_type f)) files in
    if Nat.eqb (List.length validImageFiles) 0 then
      setState (SetError (Some "Vui lòng chọn file hình ảnh hợp lệ (JPG, PNG, etc.)"))
    else
      let* newPreviewUrls := createObjectURLs validImageFiles in
      setState (AppendImageFiles validImageFiles) >>
      setState (AppendImagePreviewUrls newPreviewUrls) >>
      setState (SetShowPasteHint false).

(** Remove an individual image ([snap] is the state the handler closes
    over). *)
Definition removeImage (snap : state) (index : nat) : prog unit :=
  perform (RevokeObjectURL (imagePreviewUrls snap !! index)) >>
  setState (RemoveImageFile index) >>
  setState (RemoveImagePreviewUrl index).

Fixpoint revokeAll (urls : list string) : prog unit :=
  match urls with
  | [] => Ret tt
  | url :: rest => perform (RevokeObjectURL (Some url)) >> revokeAll rest
  end.

(** Clear all selected images. *)
Definition clearAllImages (snap : state) : prog unit :=
  revokeAll (imagePreviewUrls snap) >>
  setState (SetImageFiles []) >>
  setState (SetImagePreviewUrls []).

(** The loop of the paste handler over the image items. *)
Fixpoint paste_items (imageItems : list clipboard_item) : prog (list file * list string) :=
  match imageItems with
  | [] => Ret ([], [])
  | item :: rest =>
      match getAsFile item with
      | Some b =>
          let* now := Date_now in
          let timestamp_ := dashes (toISOString now) in
          let extension := extension_of (blob_type b) in
          let filename := "pasted-image-" +++ timestamp_ +++ "." +++ extension in
          let file_ := {| name := filename; file_type := blob_type b;
                          bytes_id := blob_bytes b |} in
          let* url := perform (CreateObjectURL (blob_bytes b)) in
          let* more := paste_items rest in
          Ret (file_ :: fst more, url :: snd more)
      | None => paste_items rest
      end
  end.

(** A paste event: whether the message input has the focus, and the items
    of the clipboard ([None] when the event carries no clipboard data). *)
Record paste_event : Type := PasteEvent {
  intoMessageInput : bool;
  clipboardItems : option (list clipboard_item)
}.

Definition handlePaste (event_ : paste_event) : prog unit :=
  if intoMessageInput event_ then Ret tt
  else
    match clipboardItems event_ with
    | None => Ret tt
    | Some items =>
        let imageItems := List.filter (fun it => is_image (item_type it)) items in
        if Nat.eqb (List.length imageItems) 0 then Ret tt
        else
          setState (SetPasteIndicator true) >>
          setState (SetPasteError None) >>
          setState (SetShowPasteHint false) >>
          let* new := paste_items imageItems in
          when (0 <? List.length (fst new))%nat
            (setState (AppendImageFiles (fst new)) >>
             setState (AppendImagePreviewUrls (snd new)) >>
             setState (SetPasteSuccess true) >>
             perform (SetTimeout PasteSuccessOff 2000)) >>
          setState (SetPasteIndicator false)
    end.

(* ------------------------------------------------------------------- *)
(** *** The conversation handlers                                       *)

(** The label the classifier returns for a plant outside the database. *)
Definition OOD_LABEL : string := "Không tồn tại trong cơ sở dữ liệu".

Definition bot_text (id_ text : string) (t : Z) (processing err : bool) : message :=
  {| id := id_; content := Text text; sender := BOT; type := TEXT; timestamp := t;
     isProcessing := processing; isError := err |}.

(** [data.answer || '...']. *)
Definition answer_or_default (data : response_data) : string :=
  match answer data with
  | Some a => if truthy_str (Some a) then a
              else "Xin lỗi, tôi không có thông tin để trả lời câu hỏi này."
  | None => "Xin lỗi, tôi không có thông tin để trả lời câu hỏi này."
  end.

(** The end of the three question handlers: the processing message is
    removed, then the answer or an error message is appended.  (The
    timestamp of a message built inside an updater is read when the
    update is applied.) *)
Definition qa_answer (messageId : string) (data : response_data) : prog unit :=
  setState (RemoveMessage (messageId +++ "_processing")) >>
  let* t := Date_now in
  setState (AppendMessages
              [bot_text (messageId +++ "_answer") (answer_or_default data) t false false]).

Definition qa_error (messageId message_ : string) : prog unit :=
  setState (RemoveMessage (messageId +++ "_processing")) >>
  let* t := Date_now in
  setState (AppendMessages
              [bot_text (messageId +++ "_error") ("Lỗi khi xử lý câu hỏi: " +++ message_)
                 t false true]).

Definition qa_outcome (messageId : string) (r : response) : prog unit :=
  match r with
  | Rejected message_ => qa_error messageId message_
  | Response status data =>
      if negb (ok status) then
        qa_error messageId ("Lỗi xử lý câu hỏi (HTTP " +++ decimal status +++ ")")
      else qa_answer messageId data
  end.

(** Handle question with a selected plant. *)
Definition handleQuestionWithSelectedPlant (snap : state)
           (messageId plantLabel question : string) : prog unit :=
  let* t := Date_now in
  setState (AppendMessages
              [bot_text (messageId +++ "_processing") "Đang trả lời câu hỏi của bạn..."
                 t true false]) >>
  let* r := await (Fetch (QARequest (Some plantLabel) question (sessionId snap))) in
  qa_outcome messageId r.

(** Handle text-only question (no image). *)
Definition handleTextOnlyQuestion (snap : state) (messageId question : string)
  : prog unit :=
  let* t := Date_now in
  setState (AppendMessages
              [bot_text (messageId +++ "_processing") "Đang xử lý câu hỏi của bạn..."
                 t true false]) >>
  if truthy_str (selectedPlant snap) then
    let* r := await (Fetch (QARequest (selectedPlant snap) question (sessionId snap))) in
    qa_outcome messageId r
  else
    let* r := await (Fetch (QARequest None question (sessionId snap))) in
    qa_outcome messageId r.

(** Handle plant selection. *)
Definition handlePlantSelection (snap : state) (plantLabel messageId : string)
  : prog unit :=
  setState (SetSelectedPlant (Some plantLabel)) >>
  setState (SetShowClassificationDialog false) >>
  let* t1 := Date_now in
  setState (AppendMessages
              [ {| id := messageId +++ "_selection"; content := Selected plantLabel;
                   sender := USER; type := SELECTION; timestamp := t1;
                   isProcessing := false; isError := false |} ]) >>
  let* t2 := Date_now in
  setState (AppendMessages
              [bot_text (messageId +++ "_selection_confirmation")
                 ("Bạn đã chọn: " +++ plantLabel) (t2 + 1) false false]) >>
  match pendingQuestion snap with
  | Some question =>
      if truthy_str (pendingQuestion snap) then
        setState (SetPendingQuestion None) >>
        perform (SetTimeout (AskAboutSelectedPlant messageId plantLabel question) 100)
      else
        let* t3 := Date_now in
        setState (AppendMessages
                    [bot_text (messageId +++ "_ask_prompt")
                       ("Bạn có thể đặt câu hỏi về loài " +++ plantLabel +++ " này.")
                       (t3 + 2) false false])
  | None =>
      let* t3 := Date_now in
      setState (AppendMessages
                  [bot_text (messageId +++ "_ask_prompt")
                     ("Bạn có thể đặt câu hỏi về loài " +++ plantLabel +++ " này.")
                     (t3 + 2) false false])
  end.

(** What a timer callback runs. *)
Definition fire (snap : state) (cb : callback) : prog unit :=
  match cb with
  | AskAboutSelectedPlant messageId plantLabel question =>
      handleQuestionWithSelectedPlant snap messageId plantLabel question
  | PasteSuccessOff => setState (SetPasteSuccess false)
  | PasteErrorOff => setState (SetPasteError None)
  end.

(** The [catch] and [finally] blocks of the classification handler. *)
Definition classification_finally : prog unit :=
  setState (SetClassificationLoading false).

Definition classification_catch (messageId message_ : string) : prog unit :=
  setState (SetError (Some ("Lỗi khi phân loại hình ảnh: " +++ message_))) >>
  setState (RemoveMessage (messageId +++ "_processing")) >>
  let* t := Date_now in
  setState (AppendMessages
              [bot_text (messageId +++ "_error")
                 ("Lỗi khi phân loại hình ảnh: " +++ message_) t false true]) >>
  setState (SetPendingQuestion None) >>
  classification_finally.

(** The classification handler once the response is there. *)
Definition classification_outcome (messageId : string) (questionText : option string)
           (r : response) : prog unit :=
  match r with
  | Rejected message_ => classification_catch messageId message_
  | Response status data =>
      if negb (ok status) then
        classification_catch messageId
          ("Lỗi phân loại hình ảnh (HTTP " +++ decimal status +++ ")")
      else
        setState (RemoveMessage (messageId +++ "_processing")) >>
        match results data with
        | Some (firstResult :: others) =>
            let isOOD := String.eqb (label firstResult) OOD_LABEL in
            if isOOD then
              let* t := Date_now in
              setState (AppendMessages
                          [bot_text (messageId +++ "_ood_response")
                             "Xin lỗi, loài thực vật này không nằm trong cơ sở dữ liệu của tôi. Vui lòng thử lại với hình ảnh của các loài thực vật khác."
                             t false false]) >>
              setState (SetPendingQuestion None) >>
              classification_finally
            else
              setState (SetClassifications (firstResult :: others)) >>
              let* t := Date_now in
              setState (AppendMessages
                          [ {| id := messageId +++ "_classification_results";
                               content := Results (firstResult :: others);
                               sender := BOT; type := CLASSIFICATION; timestamp := t;
                               isProcessing := false; isError := false |} ]) >>
              let selectionPrompt :=
                if truthy_str questionText
                then "Vui lòng chọn loài thực vật phù hợp để tiếp tục với câu hỏi của bạn."
                else "Vui lòng chọn loài thực vật phù hợp để tiếp tục." in
              let* t' := Date_now in
              setState (AppendMessages
                          [bot_text (messageId +++ "_selection_prompt") selectionPrompt
                             t' false false]) >>
              setState (SetShowClassificationDialog true) >>
              classification_finally
        | _ =>
            let* t := Date_now in
            setState (AppendMessages
                        [bot_text (messageId +++ "_no_results")
                           "Không tìm thấy loài thực vật nào phù hợp với hình ảnh này. Vui lòng thử lại với hình ảnh khác."
                           t false false]) >>
            setState (SetPendingQuestion None) >>
            classification_finally
        end
  end.

(** Handle image classification with multiple images. *)
Definition handleImageClassification (snap : state) (messageId : string)
           (questionText : option string) : prog unit :=
  if Nat.eqb (List.length (imageFiles snap)) 0 then Ret tt
  else
    setState (SetClassificationLoading true) >>
    when (truthy_str questionText) (setState (SetPendingQuestion questionText)) >>
    let* t := Date_now in
    setState (AppendMessages
                [bot_text (messageId +++ "_processing")
                   ("Đang xử lý và phân loại "
                    +++ decimal (Z.of_nat (List.length (imageFiles snap)))
                    +++ " hình ảnh...")
                   t true false]) >>
    let* r := await (Fetch (ClassifyRequest (imageFiles snap))) in
    classification_outcome messageId questionText r.

(** The part of the send handler that recognises the reset command. *)
Definition handle_reset (snap : state) : prog unit :=
  setState (SetSelectedPlant None) >>
  setState (SetPendingQuestion None) >>
  setState (SetClassifications []) >>
  setState (SetShowClassificationDialog false) >>
  when (0 <? List.length (imageFiles snap))%nat (clearAllImages snap).

(** Handle sending a message. *)
Definition handleSendMessage (snap : state) : prog unit :=
  let hasText := truthy_str (Some (trim (inputMessage snap))) in
  let hasImages := negb (Nat.eqb (List.length (imageFiles snap)) 0) in
  if negb hasText && negb hasImages then Ret tt
  else
    let trimmedMessage := trim (inputMessage snap) in
    when (String.eqb (toLowerCase trimmedMessage) "reset") (handle_reset snap) >>
    let* now := Date_now in
    let messageId := "msg_" +++ decimal now in
    let* timestamp_ := Date_now in
    let userMessages :=
      (if hasText
       then [ {| id := messageId +++ "_text"; content := Text trimmedMessage;
                 sender := USER; type := TEXT; timestamp := timestamp_;
                 isProcessing := false; isError := false |} ]
       else [])
      ++
      (if hasImages
       then [ {| id := messageId +++ "_image"; content := Previews (imagePreviewUrls snap);
                 sender := USER; type := MULTI_IMAGE; timestamp := timestamp_ + 1;
                 isProcessing := false; isError := false |} ]
       else []) in
    setState (AppendMessages userMessages) >>
    setState (SetInputMessage "") >>
    setState (SetIsLoading true) >>
    setState (SetError None) >>
    (if hasImages && negb hasText then
       handleImageClassification snap messageId None
     else if hasImages && hasText then
       handleImageClassification snap messageId (Some trimmedMessage)
     else if hasText && negb hasImages then
       handleTextOnlyQuestion snap messageId trimmedMessage
     else Ret tt) >>
    setState (SetIsLoading false) >>
    clearAllImages snap >>
    setState (SetUploadProgress 0).

(** A world whose latest state is [s]. *)
Definition world_of (s : state) (clock_ : nat -> Z) : world :=
  {| st := s; trace := []; clock := clock_; ticks := 0; created := [] |}.

End Chatbot.

(* ===================================================================== *)
(** ** PlantImageGallery                                                  *)
(* ===================================================================== *)

Module Gallery.

Definition PLACEHOLDER_IMAGE : string := "/placeholder.png".

(** An entry of [plantImages]: the fields the gallery reads. *)
Record image : Type := Image { path : option string; is_primary : bool }.

(** [plantImages.findIndex(img => img.is_primary)], counting from [i]. *)
Fixpoint findIndex_from (i : Z) (plantImages : list image) : Z :=
  match plantImages with
  | [] => -1
  | img :: rest => if is_primary img then i else findIndex_from (i + 1) rest
  end.

Definition findIndex (plantImages : list image) : Z := findIndex_from 0 plantImages.

Definition length_of (plantImages : list image) : Z := Z.of_nat (List.length plantImages).

(** The effect that runs when [plantImages] changes: the index it sets. *)
Definition on_images_change (plantImages : list image) : Z :=
  if length_of plantImages >? 0 then
    let primaryIndex := findIndex plantImages in
    if negb (primaryIndex =? -1) then primaryIndex else 0
  else 0.

(** Navigate to the next image: the new index, from the latest one.  The
    remainder is the one of JavaScript, with the sign of the dividend. *)
Definition handleNext (plantImages : list image) (prev : Z) : Z :=
  if length_of plantImages >? 1
  then Z.rem (prev + 1) (length_of plantImages)
  else prev.

(** Navigate to the previous image. *)
Definition handlePrevious (plantImages : list image) (prev : Z) : Z :=
  if length_of plantImages >? 1
  then Z.rem (prev - 1 + length_of plantImages) (length_of plantImages)
  else prev.

(** [plantImages[currentIndex]]. *)
Definition at_index (plantImages : list image) (currentIndex : Z) : option image :=
  if currentIndex <? 0 then None else nth_error plantImages (Z.to_nat currentIndex).

(** What the zoomed view shows: [currentImage ? currentImage.path :
    plant.imagePath]. *)
Definition handleZoom (plantImages : list image) (currentIndex : Z)
           (plant_imagePath : option string) : option string :=
  match at_index plantImages currentIndex with
  | Some currentImage => path currentImage
  | None => plant_imagePath
  end.

(** [path.replace(/^\/+/, '')]. *)
Fixpoint strip_slashes (s : string) : string :=
  match s with
  | String c rest => if Ascii.eqb c "/" then strip_slashes rest else s
  | EmptyString => s
  end.

(** [path.includes('/')]. *)
Fixpoint includes_slash (s : string) : bool :=
  match s with
  | String c rest => Ascii.eqb c "/" || includes_slash rest
  | EmptyString => false
  end.

(** [API_URL] is [process.env.REACT_APP_API_URL || window.location.origin]. *)
Definition getCorrectImagePath (API_URL : string) (path_ : option string) : string :=
  if negb (truthy_str path_) then PLACEHOLDER_IMAGE
  else
    let p := match path_ with Some p => p | None => "" end in
    if String.prefix "http://" p || String.prefix "https://" p then p
    else if String.prefix "/plant-images/" p then API_URL +++ p
    else if includes_slash p then API_URL +++ "/plant-images/" +++ strip_slashes p
    else p.

(** The gallery: the images it is rendered with and the current index. *)
Record gallery : Type := GalleryState { plantImages : list image; currentIndex : Z }.

Inductive gallery_event : Type :=
| ImagesChanged (new : list image)     (* new [plantImages]; the effect has run *)
| Next
| Previous.


Definition step (g : gallery) (e : gallery_event) : gallery :=
  match e with
  | ImagesChanged new => {| plantImages := new; currentIndex := on_images_change new |}
  | Next => {| plantImages := plantImages g;
               currentIndex := handleNext (plantImages g) (currentIndex g) |}
  | Previous => {| plantImages := plantImages g;
                   currentIndex := handlePrevious (plantImages g) (currentIndex g) |}
  end.

End Gallery.

(* ===================================================================== *)
(** ** Properties of the cache                                            *)
(* ===================================================================== *)

Module CacheFacts.
Import CacheService.

Lemma stores_with_store cacheName st db :
  stores (with_store cacheName st db) !! cacheName = Some st.
Proof. unfold with_store; simpl. apply lookup_insert_eq. Qed.

Lemma idbAvailable_with_store cacheName st db :
  idbAvailable (with_store cacheName st db) = idbAvailable db.
Proof. reflexivity. Qed.

(** The table lookup never succeeds for a real cache name: the names are
    upper-cased whole, and none of them is a key of [CACHE_EXPIRY]. *)
Lemma expiry_of_cache_names cacheName :
  In cacheName CACHE_NAMES_values ->
  expiry_of CACHE_EXPIRY (toUpperCase cacheName) = None.
Proof.
  intros Hin. simpl in Hin.
  destruct Hin as [<- | [<- | [<- | []]]]; reflexivity.
Qed.

Lemma compute_expiry_default cacheName now :
  In cacheName CACHE_NAMES_values ->
  compute_expiry cacheName None now = now.
Proof.
  intros Hin. unfold compute_expiry.
  rewrite (expiry_of_cache_names _ Hin). simpl. lia.
Qed.

Lemma compute_expiry_override cacheName ms now :
  ms <> 0 -> compute_expiry cacheName (Some ms) now = now + ms.
Proof.
  intros Hms. unfold compute_expiry. simpl.
  destruct (Z.eqb_spec ms 0) as [E | _]; [contradiction |].
  simpl. destruct (Z.eqb_spec ms 0) as [E | _]; [contradiction | reflexivity].
Qed.

(** What a successful [setCache] leaves in the store. *)
Lemma setCache_stored cacheName k v ttl now db st :
  idbAvailable db = true ->
  stores db !! cacheName = Some st ->
  setCache cacheName k v ttl now db =
    (JBool true,
     with_store cacheName
       (<[k := {| key := k; value := v; expiry := compute_expiry cacheName ttl now |}]> st)
       db).
Proof.
  intros Hav Hst. unfold setCache. rewrite Hav, Hst. reflexivity.
Qed.

(** Reading back within the life time returns the value (the round trip
    holds whenever the stored expiry is still ahead of the clock). *)
Lemma set_get_roundtrip_live cacheName k v ttl now now' db st :
  idbAvailable db = true ->
  stores db !! cacheName = Some st ->
  now' < compute_expiry cacheName ttl now ->
  fst (getCache cacheName k now' (snd (setCache cacheName k v ttl now db))) = v.
Proof.
  intros Hav Hst Hlive.
  rewrite (setCache_stored _ _ _ _ _ _ _ Hav Hst). simpl snd.
  unfold getCache. rewrite idbAvailable_with_store, Hav. simpl negb. cbv iota.
  rewrite stores_with_store, lookup_insert_eq. simpl expiry. simpl value.
  destruct (Z.gtb_spec (compute_expiry cacheName ttl now) now'); [reflexivity | lia].
Qed.

(** Reading back at or after the stored expiry returns [null]. *)
Lemma set_get_expired cacheName k v ttl now now' db st :
  idbAvailable db = true ->
  stores db !! cacheName = Some st ->
  compute_expiry cacheName ttl now <= now' ->
  fst (getCache cacheName k now' (snd (setCache cacheName k v ttl now db))) = JNull.
Proof.
  intros Hav Hst Hdead.
  rewrite (setCache_stored _ _ _ _ _ _ _ Hav Hst). simpl snd.
  unfold getCache. rewrite idbAvailable_with_store, Hav. simpl negb. cbv iota.
  rewrite stores_with_store, lookup_insert_eq. simpl expiry.
  destruct (Z.gtb_spec (compute_expiry cacheName ttl now) now'); [lia | reflexivity].
Qed.

Lemma fresh_store cacheName :
  In cacheName CACHE_NAMES_values ->
  stores fresh_database !! cacheName = Some ∅.
Proof.
  intros Hin. simpl in Hin.
  destruct Hin as [<- | [<- | [<- | []]]]; reflexivity.
Qed.

(** C1 (the code at the failing input): a value written through the cache
    with the default life time is not returned by a read that follows it,
    however soon: the read yields [null] for every cache name, key, value
    and every delay [d >= 0] between the write and the read. *)
Theorem set_then_get_default_ttl_returns_null :
  forall cacheName k v now (d : N),
    In cacheName CACHE_NAMES_values ->
    fst (getCache cacheName k (now + Z.of_N d)
           (snd (setCache cacheName k v None now fresh_database))) = JNull.
Proof.
  intros cacheName k v now d Hin.
  apply (set_get_expired cacheName k v None now (now + Z.of_N d) fresh_database ∅).
  - reflexivity.
  - apply fresh_store, Hin.
  - rewrite (compute_expiry_default _ _ Hin). lia.
Qed.

Lemma set_then_get_default_ttl_returns_null_witness :
  fst (getCachedPlantsData 1000
         (snd (cachePlantsData (JArr [JStr "Ficus religiosa"]) 1000 fresh_database)))
  = JNull.
Proof.
  apply (set_then_get_default_ttl_returns_null
           CACHE_NAMES_PLANTS "all-plants" (JArr [JStr "Ficus religiosa"]) 1000 0%N).
  simpl. left. reflexivity.
Defined.

(** C2 (the code at the failing input): without an override the entry is
    stored with [expiry = now], not [now] plus the default life time of
    the cache: the look-up in [CACHE_EXPIRY] uses the upper-cased store
    name, which is never one of its keys. *)
Theorem setCache_default_expiry_is_now :
  forall k v now,
    snd (cachePlantsData v now fresh_database) =
      with_store CACHE_NAMES_PLANTS
        (<[ "all-plants" := {| key := "all-plants"; value := v; expiry := now |} ]> ∅)
        fresh_database
    /\ snd (cacheClassifications k v now fresh_database) =
      with_store CACHE_NAMES_CLASSIFICATIONS
        (<[ k := {| key := k; value := v; expiry := now |} ]> ∅) fresh_database
    /\ snd (cacheQAResponse k v now fresh_database) =
      with_store CACHE_NAMES_QA
        (<[ k := {| key := k; value := v; expiry := now |} ]> ∅) fresh_database.
Proof.
  intros k v now.
  unfold cachePlantsData, cacheClassifications, cacheQAResponse.
  rewrite (setCache_stored CACHE_NAMES_PLANTS "all-plants" v None now fresh_database ∅
             eq_refl eq_refl).
  rewrite (setCache_stored CACHE_NAMES_CLASSIFICATIONS k v None now fresh_database ∅
             eq_refl eq_refl).
  rewrite (setCache_stored CACHE_NAMES_QA k v None now fresh_database ∅
             eq_refl eq_refl).
  rewrite !compute_expiry_default by (simpl; tauto).
  simpl. auto.
Qed.

(** The parts of the write that hold: an override that is not [0] gives
    [expiry = now + override], and the write replaces the entry of that
    key (last write wins). *)
Lemma setCache_override_and_overwrite cacheName k v ms now db st :
  idbAvailable db = true ->
  stores db !! cacheName = Some st ->
  ms <> 0 ->
  exists st',
    stores (snd (setCache cacheName k v (Some ms) now db)) !! cacheName = Some st'
    /\ st' !! k = Some {| key := k; value := v; expiry := now + ms |}
    /\ forall k', k' <> k -> st' !! k' = st !! k'.
Proof.
  intros Hav Hst Hms.
  rewrite (setCache_stored _ _ _ _ _ _ _ Hav Hst). simpl snd.
  rewrite stores_with_store. eexists. split; [reflexivity |].
  rewrite (compute_expiry_override _ _ _ Hms). split.
  - apply lookup_insert_eq.
  - intros k' Hne. apply lookup_insert_ne. congruence.
Qed.

(** C3: a read that finds an entry whose expiry is not ahead of the clock
    returns [null] and deletes the entry; every later read of that key
    returns [null] as well and leaves the database as it is. *)
Theorem getCache_expired_is_absent_and_deleted :
  forall cacheName k now db st e,
    idbAvailable db = true ->
    stores db !! cacheName = Some st ->
    st !! k = Some e ->
    expiry e <= now ->
    fst (getCache cacheName k now db) = JNull
    /\ stores (snd (getCache cacheName k now db)) !! cacheName = Some (delete k st)
    /\ delete k st !! k = None
    /\ forall now',
        getCache cacheName k now' (snd (getCache cacheName k now db))
        = (JNull, snd (getCache cacheName k now db)).
Proof.
  intros cacheName k now db st e Hav Hst He Hexp.
  assert (Hget : getCache cacheName k now db
                 = (JNull, with_store cacheName (delete k st) db)).
  { unfold getCache. rewrite Hav, Hst, He. simpl negb. cbv iota.
    destruct (Z.gtb_spec (expiry e) now); [lia | reflexivity]. }
  rewrite Hget. simpl fst. simpl snd.
  split; [reflexivity |].
  split; [apply stores_with_store |].
  split; [apply lookup_delete_eq |].
  intros now'. unfold getCache at 1.
  rewrite idbAvailable_with_store, Hav, stores_with_store, lookup_delete_eq.
  reflexivity.
Qed.

Lemma getCache_expired_is_absent_and_deleted_witness :
  let e := {| key := "all-plants"; value := JStr "cached"; expiry := 500 |} in
  let db := with_store CACHE_NAMES_PLANTS {[ "all-plants" := e ]} fresh_database in
  fst (getCache CACHE_NAMES_PLANTS "all-plants" 500 db) = JNull
  /\ stores (snd (getCache CACHE_NAMES_PLANTS "all-plants" 500 db)) !! CACHE_NAMES_PLANTS
     = Some (delete "all-plants" {[ "all-plants" := e ]})
  /\ delete "all-plants" ({[ "all-plants" := e ]} : gmap string entry) !! "all-plants" = None
  /\ forall now',
      getCache CACHE_NAMES_PLANTS "all-plants" now'
        (snd (getCache CACHE_NAMES_PLANTS "all-plants" 500 db))
      = (JNull, snd (getCache CACHE_NAMES_PLANTS "all-plants" 500 db)).
Proof.
  intros e db.
  apply (getCache_expired_is_absent_and_deleted
           CACHE_NAMES_PLANTS "all-plants" 500 db {[ "all-plants" := e ]} e).
  - reflexivity.
  - reflexivity.
  - reflexivity.
  - simpl. lia.
Defined.

(** The sweep leaves no entry whose expiry is at or before [now]. *)
Lemma sweep_store_live now st k e :
  sweep_store now st !! k = Some e -> now < expiry e.
Proof.
  unfold sweep_store. intros H.
  apply map_lookup_filter_Some in H as [_ H]. simpl in H. lia.
Qed.

Lemma sweep_store_keeps now st k e :
  st !! k = Some e -> now < expiry e -> sweep_store now st !! k = Some e.
Proof.
  unfold sweep_store. intros H Hlive.
  apply map_lookup_filter_Some. split; [exact H | simpl; lia].
Qed.

End CacheFacts.

(* ===================================================================== *)
(** ** Properties of the request hooks                                    *)
(* ===================================================================== *)

Module HooksFacts.
Import CacheService Hooks.

(** The hash is never the empty string, so the cache is always consulted. *)
Lemma hex_nonempty z : String.eqb (hex z) "" = false.
Proof.
  unfold hex. destruct (Z.to_hex_int z) as [u | u]; simpl.
  - destruct u; reflexivity.
  - reflexivity.
Qed.

Lemma generateHash_truthy str : truthy_str (Some (generateHash str)) = true.
Proof. unfold generateHash. simpl. now rewrite hex_nonempty. Qed.




Definition photo : file :=
  {| name := "leaf.jpg"; type := "image/jpeg"; lastModified := 1700000000000; size := 2048 |}.

Definition at_time (t : Z) : input :=
  {| now := t; net := Response 200 [("results", JArr [])]; compressed := inr "" |}.


Arguments imageHash_of : simpl never.
Arguments getCache : simpl never.

(** A schedule is run one action at a time. *)
Lemma run_cons a l s : run (a :: l) s = run l (step a s).
Proof. reflexivity. Qed.

Lemma run_nil s : run [] s = s.
Proof. reflexivity. Qed.









(** A call whose compression fails sends nothing: it ends with the error
    set. *)
Example failed_compression_sends_nothing :
  let scan := {| name := "scan.png"; type := "image/png"; lastModified := 1700000000000;
                 size := 2 * 1024 * 1024 |} in
  let failing := {| now := 1000; net := Response 200 [("results", JArr [])];
                    compressed := inr "Failed to load image" |} in
  let s := run [ CallClassifyImage (Some scan);
                 Resume 0 failing; Resume 0 failing; Resume 0 failing ]
               (initial fresh_database) in
  network (sys_world s) = []
  /\ tasks s = [Settled JNull]
  /\ error (classification (sys_world s))
     = Some "Error classifying image: Failed to load image".
Proof. vm_compute. repeat split; reflexivity. Qed.

(* ------------------------------------------------------------------- *)
(** *** Cancellation                                                    *)








End HooksFacts.

(* ===================================================================== *)
(** ** Properties of the conversation handlers                            *)
(* ===================================================================== *)

Module AsyncFacts.

Section Bind.
Context {eff aeff : Type -> Type} {world : Type}.
Variable handle : forall X : Type, eff X -> world -> X * world.
Variable suspend : forall X : Type, aeff X -> world -> world.

(** Running [p] and then [f]: if [p] settles, [f] goes on from there; if
    [p] suspends, the rest of [p] and [f] wait together. *)
Lemma run_sync_bind {A B : Type} (p : Async.prog eff aeff A)
      (f : A -> Async.prog eff aeff B) (w : world) :
  Async.run_sync handle suspend (Async.bind p f) w =
    match Async.run_sync handle suspend p w with
    | (Settled a, w') => Async.run_sync handle suspend (f a) w'
    | (Blocked e k, w') => (Blocked e (fun x => Async.bind (k x) f), w')
    end.
Proof.
  revert w. induction p as [a | X e k IH | X e k IH]; intros w; simpl.
  - reflexivity.
  - destruct (handle X e w) as [x w']. apply IH.
  - reflexivity.
Qed.

Lemma run_sync_bind_settled {A B : Type} (p : Async.prog eff aeff A)
      (f : A -> Async.prog eff aeff B) (w w' : world) (a : A) :
  Async.run_sync handle suspend p w = (Settled a, w') ->
  Async.run_sync handle suspend (Async.bind p f) w
  = Async.run_sync handle suspend (f a) w'.
Proof. intros H. rewrite run_sync_bind, H. reflexivity. Qed.
End Bind.

End AsyncFacts.

Module ImagesFacts.
Import Chatbot AsyncFacts.

(** Entry [i] of the preview URLs was created, by [URL.createObjectURL],
    from the bytes of entry [i] of the files. *)
Definition previews (w : world) (files : list file) (urls : list string) : Prop :=
  Forall2 (fun f u => In (u, bytes_id f) (created w)) files urls.

Definition aligned (w : world) : Prop :=
  previews w (imageFiles (st w)) (imagePreviewUrls (st w)).

(** The operations that modify the attached images. *)
Inductive image_op : Type :=
| FileSelect (files : list file)
| Paste (event_ : paste_event)
| RemoveImage (snap : state) (index : nat)
| ClearAllImages (snap : state).

Definition op_prog (op : image_op) : prog unit :=
  match op with
  | FileSelect files => handleFileSelect files
  | Paste event_ => handlePaste event_
  | RemoveImage snap index => removeImage snap index
  | ClearAllImages snap => clearAllImages snap
  end.

Definition after (op : image_op) (w : world) : world := snd (run_sync (op_prog op) w).

Lemma previews_mono w w' files urls :
  (forall x, In x (created w) -> In x (created w')) ->
  previews w files urls -> previews w' files urls.
Proof.
  intros Hsub H. unfold previews in *.
  induction H; constructor; auto.
Qed.

Lemma previews_length w files urls :
  previews w files urls -> List.length files = List.length urls.
Proof. intros H. induction H; simpl; congruence. Qed.

Lemma previews_app w f1 u1 f2 u2 :
  previews w f1 u1 -> previews w f2 u2 -> previews w (f1 ++ f2) (u1 ++ u2).
Proof. intros H1 H2. unfold previews in *. induction H1; simpl; auto. Qed.

Lemma previews_filter_index w index files urls :
  previews w files urls ->
  forall i, previews w (filter_index_from i index files) (filter_index_from i index urls).
Proof.
  intros H. induction H as [| f u files urls Hfu H IH]; intros i; simpl.
  - constructor.
  - destruct (Nat.eqb i index); [apply IH | constructor; [exact Hfu | apply IH]].
Qed.

(** The loop that creates the URLs of the selected files. *)
Lemma createObjectURLs_spec files :
  forall w, exists urls w',
    run_sync (createObjectURLs files) w = (Settled urls, w')
    /\ st w' = st w
    /\ (forall x, In x (created w) -> In x (created w'))
    /\ previews w' files urls.
Proof.
  induction files as [| f rest IH]; intros w.
  - exists [], w. repeat split; auto. constructor.
  - simpl. unfold run_sync in *. simpl.
    set (w1 := {| st := st w; trace := _; clock := _; ticks := _; created := _ |}).
    destruct (IH w1) as (urls & w' & Hrun & Hst & Hsub & Hprev).
    rewrite (run_sync_bind_settled _ _ _ _ _ _ _ Hrun). simpl.
    eexists _, w'. split; [reflexivity |].
    split; [rewrite Hst; reflexivity |].
    split.
    + intros x Hx. apply Hsub. subst w1. simpl. apply in_or_app. left. exact Hx.
    + constructor; [| exact Hprev].
      apply Hsub. subst w1. simpl. apply in_or_app. right. left. reflexivity.
Qed.

(** The loop of the paste handler. *)
Lemma paste_items_spec items :
  forall w, exists new w',
    run_sync (paste_items items) w = (Settled new, w')
    /\ st w' = st w
    /\ (forall x, In x (created w) -> In x (created w'))
    /\ previews w' (fst new) (snd new).
Proof.
  induction items as [| item rest IH]; intros w.
  - exists ([], []), w. repeat split; auto. constructor.
  - simpl. destruct (getAsFile item) as [b |].
    + unfold run_sync in *. simpl.
      set (w1 := {| st := st w; trace := _; clock := _; ticks := _; created := _ |}).
      destruct (IH w1) as (new & w' & Hrun & Hst & Hsub & Hprev).
      rewrite (run_sync_bind_settled _ _ _ _ _ _ _ Hrun). simpl.
      eexists _, w'. split; [reflexivity |].
      split; [rewrite Hst; reflexivity |].
      split.
      * intros x Hx. apply Hsub. subst w1. simpl. apply in_or_app. left. exact Hx.
      * simpl. constructor; [| exact Hprev].
        simpl. apply Hsub. subst w1. simpl. apply in_or_app. right. left. reflexivity.
    + apply IH.
Qed.

Lemma revokeAll_spec urls :
  forall w, exists w',
    run_sync (revokeAll urls) w = (Settled tt, w')
    /\ st w' = st w /\ created w' = created w.
Proof.
  induction urls as [| u rest IH]; intros w.
  - exists w. auto.
  - simpl. unfold run_sync in *. simpl.
    destruct (IH (record (UrlRevoked (Some u)) w)) as (w' & Hrun & Hst & Hcr).
    exists w'. split; [exact Hrun |]. simpl in Hst, Hcr. auto.
Qed.

Lemma clearAllImages_spec snap w :
  exists w',
    run_sync (clearAllImages snap) w = (Settled tt, w')
    /\ st w' = set_imagePreviewUrls [] (set_imageFiles [] (st w))
    /\ created w' = created w.
Proof.
  unfold clearAllImages.
  destruct (revokeAll_spec (imagePreviewUrls snap) w) as (w1 & Hrun & Hst & Hcr).
  unfold run_sync in *.
  rewrite (run_sync_bind_settled _ _ _ _ _ _ _ Hrun). simpl.
  eexists. split; [reflexivity |]. simpl. rewrite Hst, Hcr. auto.
Qed.

Lemma handleFileSelect_aligned files w : aligned w -> aligned (after (FileSelect files) w).
Proof.
  intros Hal. unfold after, op_prog, handleFileSelect.
  destruct (Nat.eqb (List.length files) 0); [exact Hal |].
  destruct (Nat.eqb (List.length (List.filter (fun f => is_image (file_type f)) files)) 0).
  - exact Hal.
  - destruct (createObjectURLs_spec
                (List.filter (fun f => is_image (file_type f)) files) w)
      as (urls & w' & Hrun & Hst & Hsub & Hprev).
    unfold run_sync in *.
    rewrite (run_sync_bind_settled _ _ _ _ _ _ _ Hrun). simpl.
    unfold aligned. simpl. rewrite Hst.
    apply previews_app; [| exact Hprev].
    apply (previews_mono w); [exact Hsub | exact Hal].
Qed.

Lemma handlePaste_aligned event_ w : aligned w -> aligned (after (Paste event_) w).
Proof.
  intros Hal. unfold after, op_prog, handlePaste.
  destruct (intoMessageInput event_); [exact Hal |].
  destruct (clipboardItems event_) as [items |]; [| exact Hal].
  destruct (Nat.eqb (List.length (List.filter (fun it => is_image (item_type it)) items)) 0);
    [exact Hal |].
  unfold run_sync. simpl.
  set (w1 := {| st := _; trace := _; clock := _; ticks := _; created := _ |}).
  destruct (paste_items_spec
              (List.filter (fun it => is_image (item_type it)) items) w1)
    as (new & w' & Hrun & Hst & Hsub & Hprev).
  unfold run_sync in *.
  rewrite (run_sync_bind_settled _ _ _ _ _ _ _ Hrun).
  assert (Hal1 : previews w' (imageFiles (st w)) (imagePreviewUrls (st w))).
  { apply (previews_mono w); [| exact Hal]. intros x Hx. apply Hsub. exact Hx. }
  destruct (0 <? List.length (fst new))%nat; simpl; unfold aligned; simpl; rewrite Hst; simpl.
  - apply previews_app; [exact Hal1 | exact Hprev].
  - exact Hal1.
Qed.

Lemma removeImage_aligned snap index w :
  aligned w -> aligned (after (RemoveImage snap index) w).
Proof.
  intros Hal. unfold after, op_prog, removeImage, run_sync, aligned. simpl.
  apply (previews_mono w); [auto |].
  apply previews_filter_index. exact Hal.
Qed.

Lemma clearAllImages_aligned snap w :
  aligned w -> aligned (after (ClearAllImages snap) w).
Proof.
  intros _. unfold after, op_prog.
  destruct (clearAllImages_spec snap w) as (w' & Hrun & Hst & _).
  rewrite Hrun. unfold aligned. simpl. rewrite Hst. simpl. constructor.
Qed.

(** C10: every operation on the attached images keeps the two arrays in
    step: afterwards they have the same length, and entry [i] of
    [imagePreviewUrls] is a URL created from the bytes of entry [i] of
    [imageFiles]. *)
Theorem image_arrays_stay_aligned :
  forall (op : image_op) (w : world),
    aligned w ->
    aligned (after op w)
    /\ List.length (imageFiles (st (after op w)))
       = List.length (imagePreviewUrls (st (after op w))).
Proof.
  intros op w Hal.
  assert (H : aligned (after op w)).
  { destruct op.
    - apply handleFileSelect_aligned, Hal.
    - apply handlePaste_aligned, Hal.
    - apply removeImage_aligned, Hal.
    - apply clearAllImages_aligned, Hal. }
  split; [exact H | apply (previews_length _ _ _ H)].
Qed.

Definition leaf : file := {| name := "leaf.png"; file_type := "image/png"; bytes_id := 7 |}.
Definition notes : file := {| name := "notes.txt"; file_type := "text/plain"; bytes_id := 8 |}.

Definition empty_world : world := world_of (initial_state 0) (fun n => 1000 + Z.of_nat n).

Lemma image_arrays_stay_aligned_witness :
  aligned (after (FileSelect [leaf; notes]) empty_world)
  /\ List.length (imageFiles (st (after (FileSelect [leaf; notes]) empty_world)))
     = List.length (imagePreviewUrls (st (after (FileSelect [leaf; notes]) empty_world))).
Proof.
  apply (image_arrays_stay_aligned (FileSelect [leaf; notes]) empty_world).
  unfold aligned, previews. simpl. constructor.
Defined.

(** The same over any sequence of operations, starting with no image
    attached. *)
Lemma aligned_after_all ops :
  forall w, aligned w -> aligned (List.fold_left (fun w op => after op w) ops w).
Proof.
  induction ops as [| op rest IH]; intros w Hal; simpl.
  - exact Hal.
  - apply IH. destruct op.
    + apply handleFileSelect_aligned, Hal.
    + apply handlePaste_aligned, Hal.
    + apply removeImage_aligned, Hal.
    + apply clearAllImages_aligned, Hal.
Qed.

Example attached_after_select_paste_remove :
  let w := List.fold_left (fun w op => after op w)
             [ FileSelect [leaf; notes];
               Paste {| intoMessageInput := false;
                        clipboardItems :=
                          Some [ {| item_type := "image/jpeg";
                                    getAsFile := Some {| blob_type := "image/jpeg";
                                                         blob_bytes := 9 |} |} ] |};
               RemoveImage (initial_state 0) 0 ]
             empty_world in
  imageFiles (st w)
    = [ {| name := "pasted-image-1970-01-01T00-00-01-000Z.jpeg";
           file_type := "image/jpeg"; bytes_id := 9 |} ]
  /\ imagePreviewUrls (st w) = ["blob:1"]
  /\ created w = [("blob:0", 7%nat); ("blob:1", 9%nat)].
Proof. vm_compute. auto. Qed.

End ImagesFacts.

Module ConversationFacts.
Import Chatbot AsyncFacts.

Arguments trim : simpl never.
Arguments toLowerCase : simpl never.
Arguments decimal : simpl never.
Arguments String.append : simpl never.

(** The requests a trace contains, in order. *)
Fixpoint requests (tr : list event) : list request :=
  match tr with
  | [] => []
  | Requested req :: rest => req :: requests rest
  | _ :: rest => requests rest
  end.

Definition revoked (urls : list string) : list event :=
  List.map (fun url => UrlRevoked (Some url)) urls.

Definition add_events (evs : list event) (w : world) : world :=
  {| st := st w; trace := trace w ++ evs; clock := clock w; ticks := ticks w;
     created := created w |}.

Lemma revokeAll_run urls :
  forall w, run_sync (revokeAll urls) w = (Settled tt, add_events (revoked urls) w).
Proof.
  induction urls as [| u rest IH]; intros w; simpl.
  - unfold run_sync, add_events. simpl. rewrite app_nil_r. now destruct w.
  - unfold run_sync in *. simpl. rewrite IH. unfold add_events, record. simpl.
    now rewrite <- app_assoc.
Qed.

(** The world after [clearAllImages()]. *)
Definition images_cleared (snap : state) (w : world) : world :=
  {| st := set_imagePreviewUrls [] (set_imageFiles [] (st w));
     trace := trace w ++ revoked (imagePreviewUrls snap)
              ++ [Updated (SetImageFiles []); Updated (SetImagePreviewUrls [])];
     clock := clock w; ticks := ticks w; created := created w |}.

Lemma clearAllImages_run snap w :
  run_sync (clearAllImages snap) w = (Settled tt, images_cleared snap w).
Proof.
  unfold clearAllImages, run_sync.
  rewrite (run_sync_bind_settled _ _ _ _ _ _ _ (revokeAll_run (imagePreviewUrls snap) w)).
  simpl. unfold images_cleared. simpl. now rewrite <- !app_assoc.
Qed.

(** What the reset command does first. *)
Definition reset_events (snap : state) : list event :=
  [ Updated (SetSelectedPlant None); Updated (SetPendingQuestion None);
    Updated (SetClassifications []); Updated (SetShowClassificationDialog false) ]
  ++ (if (0 <? List.length (imageFiles snap))%nat
      then revoked (imagePreviewUrls snap)
           ++ [Updated (SetImageFiles []); Updated (SetImagePreviewUrls [])]
      else []).

Definition context_cleared (s : state) : state :=
  set_showClassificationDialog false
    (set_classifications [] (set_pendingQuestion None (set_selectedPlant None s))).

Definition after_reset (snap : state) (w : world) : world :=
  {| st := if (0 <? List.length (imageFiles snap))%nat
           then set_imagePreviewUrls [] (set_imageFiles [] (context_cleared (st w)))
           else context_cleared (st w);
     trace := trace w ++ reset_events snap;
     clock := clock w; ticks := ticks w; created := created w |}.

Lemma handle_reset_run snap w :
  run_sync (handle_reset snap) w = (Settled tt, after_reset snap w).
Proof.
  unfold handle_reset, run_sync, after_reset, reset_events. simpl.
  destruct (0 <? List.length (imageFiles snap))%nat; simpl.
  - pose proof (clearAllImages_run snap) as H. unfold run_sync in H. rewrite H.
    unfold images_cleared. simpl. now rewrite <- !app_assoc.
  - now rewrite <- !app_assoc.
Qed.

(** A program only adds to the trace. *)
Lemma trace_grows {A : Type} (p : prog A) :
  forall w, exists more, trace (snd (run_sync p w)) = trace w ++ more.
Proof.
  unfold run_sync.
  induction p as [a | X e k IH | X e k IH]; intros w; simpl.
  - exists []. now rewrite app_nil_r.
  - destruct (handle X e w) as [x w'] eqn:E.
    destruct (IH x w') as [more Hmore]. rewrite Hmore.
    assert (Hw : exists ev, trace w' = trace w ++ ev).
    { destruct e; simpl in E; inversion E; subst; simpl;
        first [ now (exists []; rewrite app_nil_r) | eexists; reflexivity ]. }
    destruct Hw as [ev ->]. exists (ev ++ more). now rewrite app_assoc.
  - destruct e. simpl. eexists. reflexivity.
Qed.

Lemma lower_reset_truthy s :
  String.eqb (toLowerCase s) "reset" = true -> truthy_str (Some s) = true.
Proof. destruct s; [discriminate | reflexivity]. Qed.

Lemma requests_app tr1 tr2 : requests (tr1 ++ tr2) = requests tr1 ++ requests tr2.
Proof.
  induction tr1 as [| e tr1 IH]; simpl; [reflexivity |].
  destruct e; simpl; rewrite IH; reflexivity.
Qed.

Lemma requests_revoked urls : requests (revoked urls) = [].
Proof. induction urls; simpl; auto. Qed.

Lemma requests_reset_events snap : requests (reset_events snap) = [].
Proof.
  unfold reset_events. simpl.
  destruct (0 <? List.length (imageFiles snap))%nat; [| reflexivity].
  rewrite requests_app, requests_revoked. reflexivity.
Qed.

(** The send handler up to its first [await], and once the awaited
    response [r] has arrived. *)
Definition sent (snap : state) (w : world) : task unit * world :=
  run_sync (handleSendMessage snap) w.

Definition answered (snap : state) (w : world) (r : response) : task unit * world :=
  resume (fst (sent snap w)) r (snd (sent snap w)).

(* ------------------------------------------------------------------- *)
(** *** The reset command                                               *)

(** The property the specification states: the reset text is not also
    sent as a question, nor kept as the pending question. *)
Definition reset_only (snap : state) (w : world) (r : response) : Prop :=
  (forall label_ session_id,
      ~ In (QARequest label_ (trim (inputMessage snap)) session_id)
           (requests (trace (snd (answered snap w r)))))
  /\ pendingQuestion (st (snd (answered snap w r))) <> Some (trim (inputMessage snap)).

Definition typed (text : string) : state := set_inputMessage text (initial_state 0).

Definition ticking (from : Z) : nat -> Z := fun n => from + Z.of_nat n.

Definition answer_with (a : string) : response :=
  Response 200 {| results := None; answer := Some a |}.

(** C4, as stated, fails: the reset text is sent to the question
    answering endpoint like any other text. *)
Lemma reset_is_also_asked :
  ~ reset_only (typed "reset") (world_of (typed "reset") (ticking 1000)) (answer_with "ok").
Proof.
  intros [Hno _]. apply (Hno None None). vm_compute. left. reflexivity.
Qed.

Arguments clearAllImages : simpl never.
Arguments reset_events : simpl never.

Lemma append_cancel_l (s a b : string) : s +++ a = s +++ b -> a = b.
Proof.
  induction s as [| c s IH]; cbn [String.append]; intros H.
  - exact H.
  - apply IH. now inversion H.
Qed.

Lemma remove_id_keeps id_ (l : list message) (m : message) :
  In m l -> id m <> id_ -> In m (remove_id id_ l).
Proof.
  intros Hin Hne. unfold remove_id. apply filter_In. split; [exact Hin |].
  destruct (String.eqb_spec (id m) id_); [contradiction | reflexivity].
Qed.

(** The message the send handler appends for the text typed, and the
    processing message of a text question. *)
Definition user_text_message (messageId text : string) (t : Z) : message :=
  {| id := messageId +++ "_text"; content := Text text; sender := USER; type := TEXT;
     timestamp := t; isProcessing := false; isError := false |}.

Definition question_placeholder (messageId : string) (t : Z) : message :=
  bot_text (messageId +++ "_processing") "Đang xử lý câu hỏi của bạn..." t true false.

Lemma user_text_message_kept messageId text t (l : list message) :
  In (user_text_message messageId text t) l ->
  In (user_text_message messageId text t) (remove_id (messageId +++ "_processing") l).
Proof.
  intros Hin. apply remove_id_keeps; [exact Hin |].
  cbn. intros H. apply append_cancel_l in H. discriminate H.
Qed.

(** A request to the question answering endpoint that carries
    [question], whatever its label and session. *)
Definition asks (question : string) (req : request) : Prop :=
  exists label_ session_id, req = QARequest label_ question session_id.

(** C4 (amended): when the trimmed text is the reset word in any letter
    case, the handler first clears the selected plant, the pending
    question, the stored classifications, the dialog and the attached
    images, before anything else; it then goes on with the submission.
    With no image attached the text is appended as a user message,
    followed by the processing message, and one request is sent: a
    question carrying the text.  Once the response has been handled the
    user message is still in the list, and the selected plant, the pending
    question, the classifications, the dialog and the attached images are
    all cleared. *)
Theorem reset_clears_context_first :
  forall (snap : state) (w : world),
    String.eqb (toLowerCase (trim (inputMessage snap))) "reset" = true ->
    let text := trim (inputMessage snap) in
    let messageId := "msg_" +++ decimal (clock w (ticks w)) in
    let typed_message := user_text_message messageId text (clock w (S (ticks w))) in
    (exists rest, trace (snd (sent snap w)) = trace w ++ reset_events snap ++ rest)
    /\ (imageFiles snap = [] ->
        messages (st (snd (sent snap w)))
        = messages (st w)
          ++ [typed_message; question_placeholder messageId (clock w (S (S (ticks w))))]
        /\ (exists req,
               requests (trace (snd (sent snap w))) = requests (trace w) ++ [req]
               /\ asks text req)
        /\ forall r : response,
            fst (answered snap w r) = Settled tt
            /\ In typed_message (messages (st (snd (answered snap w r))))
            /\ selectedPlant (st (snd (answered snap w r))) = None
            /\ pendingQuestion (st (snd (answered snap w r))) = None
            /\ classifications (st (snd (answered snap w r))) = []
            /\ showClassificationDialog (st (snd (answered snap w r))) = false
            /\ imageFiles (st (snd (answered snap w r))) = []
            /\ imagePreviewUrls (st (snd (answered snap w r))) = []).
Proof.
  intros snap w Hreset text messageId typed_message.
  subst text messageId typed_message.
  pose proof (lower_reset_truthy _ Hreset) as Htext.
  split.
  - unfold sent, handleSendMessage. rewrite Htext, Hreset.
    cbn [negb andb when].
    unfold run_sync.
    rewrite (run_sync_bind_settled _ _ _ _ _ _ _ (handle_reset_run snap w)).
    match goal with
    | |- context [Async.run_sync handle suspend ?p (after_reset snap w)] =>
        destruct (trace_grows p (after_reset snap w)) as [more Hmore]
    end.
    unfold run_sync in Hmore. rewrite Hmore. cbn.
    exists more. now rewrite <- app_assoc.
  - intros Hno.
    unfold answered, sent, handleSendMessage. rewrite Htext, Hreset, Hno.
    cbn [negb andb List.length Nat.eqb when].
    unfold run_sync.
    rewrite (run_sync_bind_settled _ _ _ _ _ _ _ (handle_reset_run snap w)).
    unfold after_reset. rewrite Hno. cbn -[remove_id].
    destruct (truthy_str (selectedPlant snap)) eqn:Hsel; cbn -[remove_id].
    all: split; [now rewrite <- ?app_assoc |].
    all: split;
      [ eexists; split;
        [ rewrite !requests_app, requests_reset_events; cbn; now rewrite ?app_nil_r
        | eexists; eexists; reflexivity ] |].
    all: intros r; unfold run_sync;
      destruct r as [msg | status data]; cbn -[remove_id];
      [| destruct (ok status); cbn -[remove_id]];
      rewrite (run_sync_bind_settled _ _ _ _ _ _ _ (clearAllImages_run snap _));
      cbn -[remove_id];
      (split; [reflexivity |]);
      (split;
       [ apply in_or_app; left; apply user_text_message_kept;
         rewrite <- ?app_assoc; apply in_or_app; right; left; reflexivity
       | repeat split; reflexivity ]).
Qed.

Definition after_selection : state :=
  set_selectedPlant (Some "Ficus religiosa")
    (set_pendingQuestion (Some "old question") (typed "  ReSet ")).

Lemma reset_clears_context_first_witness :
  let snap := after_selection in
  let w := world_of after_selection (ticking 1000) in
  let text := trim (inputMessage snap) in
  let messageId := "msg_" +++ decimal (clock w (ticks w)) in
  let typed_message := user_text_message messageId text (clock w (S (ticks w))) in
  (exists rest, trace (snd (sent snap w)) = trace w ++ reset_events snap ++ rest)
  /\ (imageFiles snap = [] ->
      messages (st (snd (sent snap w)))
      = messages (st w)
        ++ [typed_message; question_placeholder messageId (clock w (S (S (ticks w))))]
      /\ (exists req,
             requests (trace (snd (sent snap w))) = requests (trace w) ++ [req]
             /\ asks text req)
      /\ forall r : response,
          fst (answered snap w r) = Settled tt
          /\ In typed_message (messages (st (snd (answered snap w r))))
          /\ selectedPlant (st (snd (answered snap w r))) = None
          /\ pendingQuestion (st (snd (answered snap w r))) = None
          /\ classifications (st (snd (answered snap w r))) = []
          /\ showClassificationDialog (st (snd (answered snap w r))) = false
          /\ imageFiles (st (snd (answered snap w r))) = []
          /\ imagePreviewUrls (st (snd (answered snap w r))) = []).
Proof.
  intros snap w.
  apply (reset_clears_context_first after_selection
           (world_of after_selection (ticking 1000))).
  vm_compute. reflexivity.
Defined.

(** The label of that request is read from the render the handler was
    created in: with a plant selected before, the reset text is asked
    about the plant the reset has just cleared. *)
Example reset_asked_about_selected_plant :
  requests (trace (snd (sent after_selection (world_of after_selection (ticking 1000)))))
  = [QARequest (Some "Ficus religiosa") "ReSet" None]
  /\ selectedPlant (st (snd (sent after_selection
                                (world_of after_selection (ticking 1000))))) = None.
Proof. vm_compute. split; reflexivity. Qed.

(* ------------------------------------------------------------------- *)
(** *** An out-of-distribution result                                   *)

(** The classification handler up to its [await], and once the response
    has arrived. *)
Definition classifying (snap : state) (messageId : string) (questionText : option string)
           (w : world) : task unit * world :=
  run_sync (handleImageClassification snap messageId questionText) w.

Definition classified (snap : state) (messageId : string) (questionText : option string)
           (w : world) (r : response) : task unit * world :=
  resume (fst (classifying snap messageId questionText w)) r
         (snd (classifying snap messageId questionText w)).

Definition ood_message (messageId : string) (t : Z) : message :=
  bot_text (messageId +++ "_ood_response")
    "Xin lỗi, loài thực vật này không nằm trong cơ sở dữ liệu của tôi. Vui lòng thử lại với hình ảnh của các loài thực vật khác."
    t false false.

(** C8: when the first result of a successful classification response
    carries the out-of-distribution label, the handler removes the
    processing message, appends the explanatory Bot message, sets the
    pending question to [null] and turns the classification spinner off,
    and does nothing else: the dialog is not opened, no classification
    results are stored and no results message is appended. *)
Theorem ood_result_opens_no_selection :
  forall (snap : state) (messageId : string) (questionText : option string) (w : world)
         (status : Z) (firstResult : result) (others : list result) (a : option string),
    imageFiles snap <> [] ->
    ok status = true ->
    label firstResult = OOD_LABEL ->
    let r := Response status {| results := Some (firstResult :: others); answer := a |} in
    let before := snd (classifying snap messageId questionText w) in
    let after := classified snap messageId questionText w r in
    fst after = Settled tt
    /\ trace (snd after)
       = trace before
         ++ [ Updated (RemoveMessage (messageId +++ "_processing"));
              Updated (AppendMessages [ood_message messageId (clock w (S (ticks w)))]);
              Updated (SetPendingQuestion None);
              Updated (SetClassificationLoading false) ]
    /\ messages (st (snd after))
       = remove_id (messageId +++ "_processing") (messages (st before))
         ++ [ood_message messageId (clock w (S (ticks w)))]
    /\ pendingQuestion (st (snd after)) = None
    /\ showClassificationDialog (st (snd after)) = showClassificationDialog (st w)
    /\ classifications (st (snd after)) = classifications (st w).
Proof.
  intros snap messageId questionText w status firstResult others a Himg Hok Hood r before after.
  subst r before after.
  unfold classified, classifying, handleImageClassification.
  destruct (imageFiles snap) as [| f files]; [contradiction |].
  cbn [List.length Nat.eqb].
  destruct (truthy_str questionText); unfold run_sync; cbn;
    rewrite Hok, Hood; cbn; repeat split; rewrite <- ?app_assoc; reflexivity.
Qed.

Definition with_image (text : string) : state :=
  set_imagePreviewUrls ["blob:0"]
    (set_imageFiles [ {| name := "leaf.png"; file_type := "image/png"; bytes_id := 7 |} ]
       (typed text)).

Definition unknown_plant : result :=
  {| label := OOD_LABEL; confidence := "0.12"; image_path := None |}.

Lemma ood_result_opens_no_selection_witness :
  let snap := with_image "" in
  let w := world_of snap (ticking 1000) in
  let r := Response 200 {| results := Some [unknown_plant]; answer := None |} in
  let before := snd (classifying snap "msg_1000" (Some "Cách nhận biết?") w) in
  let after := classified snap "msg_1000" (Some "Cách nhận biết?") w r in
  fst after = Settled tt
  /\ trace (snd after)
     = trace before
       ++ [ Updated (RemoveMessage ("msg_1000" +++ "_processing"));
            Updated (AppendMessages [ood_message "msg_1000" (clock w (S (ticks w)))]);
            Updated (SetPendingQuestion None);
            Updated (SetClassificationLoading false) ]
  /\ messages (st (snd after))
     = remove_id ("msg_1000" +++ "_processing") (messages (st before))
       ++ [ood_message "msg_1000" (clock w (S (ticks w)))]
  /\ pendingQuestion (st (snd after)) = None
  /\ showClassificationDialog (st (snd after)) = showClassificationDialog (st w)
  /\ classifications (st (snd after)) = classifications (st w).
Proof.
  intros snap w.
  apply (ood_result_opens_no_selection snap "msg_1000" (Some "Cách nhận biết?") w
           200 unknown_plant [] None).
  - discriminate.
  - reflexivity.
  - reflexivity.
Defined.

(* ------------------------------------------------------------------- *)
(** *** Selecting a plant                                               *)

Definition selection_message (messageId plantLabel : string) (t : Z) : message :=
  {| id := messageId +++ "_selection"; content := Selected plantLabel;
     sender := USER; type := SELECTION; timestamp := t;
     isProcessing := false; isError := false |}.

Definition confirmation_message (messageId plantLabel : string) (t : Z) : message :=
  bot_text (messageId +++ "_selection_confirmation") ("Bạn đã chọn: " +++ plantLabel)
    t false false.

Definition ask_prompt (messageId plantLabel : string) (t : Z) : message :=
  bot_text (messageId +++ "_ask_prompt")
    ("Bạn có thể đặt câu hỏi về loài " +++ plantLabel +++ " này.") t false false.

(** The selection handler, run with the state it closes over. *)
Definition selected (w : world) (plantLabel messageId : string) : task unit * world :=
  run_sync (handlePlantSelection (st w) plantLabel messageId) w.

(** C7: selecting a plant sets the selected plant, closes the dialog and
    appends the selection and its confirmation.  If a question is pending,
    the pending question is cleared and a timer is set whose callback
    sends exactly that question with the chosen label to the question
    answering endpoint; otherwise a prompt to ask a question is appended
    and nothing is sent.  (The pending question, when set, is never the
    empty string: see [pending_question_never_empty].) *)
Theorem selection_consumes_pending_question :
  forall (w : world) (plantLabel messageId : string),
    pendingQuestion (st w) <> Some "" ->
    let t1 := clock w (ticks w) in
    let t2 := clock w (S (ticks w)) in
    let t3 := clock w (S (S (ticks w))) in
    let after := selected w plantLabel messageId in
    fst after = Settled tt
    /\ selectedPlant (st (snd after)) = Some plantLabel
    /\ showClassificationDialog (st (snd after)) = false
    /\ pendingQuestion (st (snd after)) = None
    /\ match pendingQuestion (st w) with
       | Some question =>
           messages (st (snd after))
           = messages (st w)
             ++ [ selection_message messageId plantLabel t1;
                  confirmation_message messageId plantLabel (t2 + 1) ]
           /\ trace (snd after)
              = trace w
                ++ [ Updated (SetSelectedPlant (Some plantLabel));
                     Updated (SetShowClassificationDialog false);
                     Updated (AppendMessages [selection_message messageId plantLabel t1]);
                     Updated (AppendMessages
                                [confirmation_message messageId plantLabel (t2 + 1)]);
                     Updated (SetPendingQuestion None);
                     TimerSet (AskAboutSelectedPlant messageId plantLabel question) 100 ]
           /\ forall w' : world,
               requests (trace (snd (run_sync
                                       (fire (st w)
                                          (AskAboutSelectedPlant messageId plantLabel question))
                                       w')))
               = requests (trace w')
                 ++ [QARequest (Some plantLabel) question (sessionId (st w))]
       | None =>
           messages (st (snd after))
           = messages (st w)
             ++ [ selection_message messageId plantLabel t1;
                  confirmation_message messageId plantLabel (t2 + 1);
                  ask_prompt messageId plantLabel (t3 + 2) ]
           /\ trace (snd after)
              = trace w
                ++ [ Updated (SetSelectedPlant (Some plantLabel));
                     Updated (SetShowClassificationDialog false);
                     Updated (AppendMessages [selection_message messageId plantLabel t1]);
                     Updated (AppendMessages
                                [confirmation_message messageId plantLabel (t2 + 1)]);
                     Updated (AppendMessages [ask_prompt messageId plantLabel (t3 + 2)]) ]
       end.
Proof.
  intros w plantLabel messageId Hwf t1 t2 t3 after. subst t1 t2 t3 after.
  unfold selected, handlePlantSelection.
  destruct (pendingQuestion (st w)) as [question |] eqn:Hpending.
  - assert (Htruthy : truthy_str (Some question) = true).
    { cbn. destruct (String.eqb_spec question ""); [subst; contradiction | reflexivity]. }
    rewrite Htruthy. unfold run_sync. cbn.
    repeat split; try (now rewrite <- ?app_assoc).
    intros w'. rewrite !requests_app. cbn. now rewrite ?app_nil_r.
  - unfold run_sync. cbn. repeat split; now rewrite <- ?app_assoc.
Qed.

Definition awaiting_selection : state :=
  set_showClassificationDialog true (set_pendingQuestion (Some "Cách nhận biết?") (typed "")).

Lemma selection_consumes_pending_question_witness :
  let w := world_of awaiting_selection (ticking 2000) in
  let after := selected w "Ficus religiosa" "dialog_2000" in
  fst after = Settled tt
  /\ selectedPlant (st (snd after)) = Some "Ficus religiosa"
  /\ showClassificationDialog (st (snd after)) = false
  /\ pendingQuestion (st (snd after)) = None
  /\ messages (st (snd after))
     = messages (st w)
       ++ [ selection_message "dialog_2000" "Ficus religiosa" 2000;
            confirmation_message "dialog_2000" "Ficus religiosa" 2002 ]
  /\ trace (snd after)
     = trace w
       ++ [ Updated (SetSelectedPlant (Some "Ficus religiosa"));
            Updated (SetShowClassificationDialog false);
            Updated (AppendMessages [selection_message "dialog_2000" "Ficus religiosa" 2000]);
            Updated (AppendMessages
                       [confirmation_message "dialog_2000" "Ficus religiosa" 2002]);
            Updated (SetPendingQuestion None);
            TimerSet (AskAboutSelectedPlant "dialog_2000" "Ficus religiosa"
                        "Cách nhận biết?") 100 ]
  /\ forall w' : world,
      requests (trace (snd (run_sync
                              (fire (st w)
                                 (AskAboutSelectedPlant "dialog_2000" "Ficus religiosa"
                                    "Cách nhận biết?"))
                              w')))
      = requests (trace w')
        ++ [QARequest (Some "Ficus religiosa") "Cách nhận biết?" (sessionId (st w))].
Proof.
  intros w.
  apply (selection_consumes_pending_question w "Ficus religiosa" "dialog_2000").
  discriminate.
Defined.

(* ------------------------------------------------------------------- *)
(** *** The message list                                                *)

(** The handlers that change the conversation. *)
Inductive handler : Type :=
| SendMessage (snap : state)
| ImageClassification (snap : state) (messageId : string) (questionText : option string)
| TextOnlyQuestion (snap : state) (messageId question : string)
| PlantSelection (snap : state) (plantLabel messageId : string)
| QuestionWithSelectedPlant (snap : state) (messageId plantLabel question : string).

Definition handler_prog (h : handler) : prog unit :=
  match h with
  | SendMessage snap => handleSendMessage snap
  | ImageClassification snap messageId questionText =>
      handleImageClassification snap messageId questionText
  | TextOnlyQuestion snap messageId question =>
      handleTextOnlyQuestion snap messageId question
  | PlantSelection snap plantLabel messageId =>
      handlePlantSelection snap plantLabel messageId
  | QuestionWithSelectedPlant snap messageId plantLabel question =>
      handleQuestionWithSelectedPlant snap messageId plantLabel question
  end.

(** A handler up to its [await] (or to its end, if it awaits nothing),
    and once the awaited response has arrived. *)
Definition started (h : handler) (w : world) : task unit * world :=
  run_sync (handler_prog h) w.

Definition finished (h : handler) (w : world) (r : response) : task unit * world :=
  resume (fst (started h w)) r (snd (started h w)).

(** The property the specification states: messages are only appended,
    and the list is ordered by timestamp. *)
Definition append_only (old new : list message) : Prop :=
  exists added, new = old ++ added.

Fixpoint ordered_by_timestamp (l : list message) : Prop :=
  match l with
  | [] => True
  | m1 :: rest =>
      match rest with
      | [] => True
      | m2 :: _ => timestamp m1 <= timestamp m2
      end
      /\ ordered_by_timestamp rest
  end.

(** The message id a handler works under: the one it is called with, or,
    for the send handler, the one it makes from the clock. *)
Definition message_id (h : handler) (w : world) : string :=
  match h with
  | SendMessage _ => "msg_" +++ decimal (clock w (ticks w))
  | ImageClassification _ messageId _ => messageId
  | TextOnlyQuestion _ messageId _ => messageId
  | PlantSelection _ _ messageId => messageId
  | QuestionWithSelectedPlant _ messageId _ _ => messageId
  end.

(** What the code does when a response arrives: the processing message of
    the handler's own request is removed, and messages that are no such
    processing message are appended. *)
Definition placeholder_replaced (messageId : string) (old new : list message) : Prop :=
  exists added,
    new = remove_id (messageId +++ "_processing") old ++ added
    /\ Forall (fun m => id m <> messageId +++ "_processing") added.

Definition greeting : handler := SendMessage (typed "Xin chào").

(** Successive readings of the clock within one millisecond. *)
Definition steady (t : Z) : nat -> Z := fun _ => t.

(** C9, as stated, fails on both counts.  When the answer arrives, the
    processing message that was in the list is removed.  And the list is
    not ordered by timestamp: the image message is stamped one millisecond
    ahead, so the processing message appended after it within the same
    millisecond carries a smaller timestamp. *)
Lemma message_list_is_not_append_only :
  ~ append_only
      (messages (st (snd (started greeting (world_of (typed "Xin chào") (ticking 1000))))))
      (messages (st (snd (finished greeting (world_of (typed "Xin chào") (ticking 1000))
                            (answer_with "Chào bạn")))))
  /\ ordered_by_timestamp (messages (st (world_of (with_image "") (steady 5000))))
  /\ ~ ordered_by_timestamp
         (messages (st (snd (started (SendMessage (with_image ""))
                               (world_of (with_image "") (steady 5000)))))).
Proof.
  split; [| split].
  - intros [added H]. vm_compute in H. inversion H.
  - cbn. tauto.
  - vm_compute. intros (_ & H & _). apply H. reflexivity.
Qed.

(** Removing by id keeps the other messages, in their order. *)
Lemma remove_id_sublist id_ (l : list message) : sublist (remove_id id_ l) l.
Proof.
  induction l as [| m l IH]; cbn; [constructor |].
  destruct (negb (String.eqb (id m) id_)); [apply sublist_skip | apply sublist_cons]; exact IH.
Qed.

Lemma when_reset_run (b : bool) snap w :
  run_sync (when b (handle_reset snap)) w
  = (Settled tt, if b then after_reset snap w else w).
Proof. destruct b; [apply handle_reset_run | reflexivity]. Qed.

Ltac not_placeholder :=
  cbn [app];
  repeat (constructor;
          [cbn; intros Hid; apply append_cancel_l in Hid; discriminate Hid |]);
  constructor.

Ltac finish_step :=
  cbn;
  first
    [ reflexivity
    | unfold placeholder_replaced; rewrite <- ?app_assoc;
      eexists; split; [reflexivity | not_placeholder]
    | unfold append_only; rewrite <- ?app_assoc; eexists; reflexivity
    | unfold append_only; exists []; now rewrite app_nil_r ].

Arguments remove_id : simpl never.

Definition step_ok (h : handler) (w : world) : Prop :=
  append_only (messages (st w)) (messages (st (snd (started h w))))
  /\ forall r : response,
      fst (finished h w r) = Settled tt
      /\ match fst (started h w) with
         | Settled _ =>
             messages (st (snd (finished h w r))) = messages (st (snd (started h w)))
         | Blocked _ _ =>
             placeholder_replaced (message_id h w)
               (messages (st (snd (started h w))))
               (messages (st (snd (finished h w r))))
         end.

Lemma qa_handlers_ok snap messageId plantLabel question w :
  step_ok (TextOnlyQuestion snap messageId question) w
  /\ step_ok (QuestionWithSelectedPlant snap messageId plantLabel question) w.
Proof.
  unfold step_ok, message_id, finished, started, handler_prog,
    handleTextOnlyQuestion, handleQuestionWithSelectedPlant, run_sync.
  split.
  - destruct (truthy_str (selectedPlant snap)); cbn;
      (split; [finish_step |]);
      intros [msg | status data]; unfold run_sync; cbn;
      try destruct (ok status); cbn; split; finish_step.
  - cbn. split; [finish_step |].
    intros [msg | status data]; unfold run_sync; cbn;
      try destruct (ok status); cbn; split; finish_step.
Qed.

Lemma selection_ok snap plantLabel messageId w :
  step_ok (PlantSelection snap plantLabel messageId) w.
Proof.
  unfold step_ok, message_id, finished, started, handler_prog, handlePlantSelection,
    run_sync.
  destruct (pendingQuestion snap) as [q |]; [destruct (truthy_str (Some q)) |];
    cbn; (split; [finish_step | intros r; split; finish_step]).
Qed.

Lemma classification_ok snap messageId questionText w :
  step_ok (ImageClassification snap messageId questionText) w.
Proof.
  unfold step_ok, message_id, finished, started, handler_prog, handleImageClassification,
    run_sync.
  destruct (imageFiles snap) as [| f files]; cbn [List.length Nat.eqb].
  - cbn. split; [finish_step | intros r; split; finish_step].
  - destruct (truthy_str questionText) eqn:Hq; cbn;
      (split; [finish_step |]);
      intros [msg | status [[[| x l] |] a]]; unfold run_sync; cbn;
      try destruct (ok status); cbn;
      try destruct (String.eqb (label x) OOD_LABEL); cbn;
      split; finish_step.
Qed.

Lemma after_reset_messages (b : bool) snap w :
  messages (st (if b then after_reset snap w else w)) = messages (st w).
Proof.
  destruct b; [| reflexivity]. unfold after_reset.
  destruct (imageFiles snap); reflexivity.
Qed.

Lemma after_reset_clock (b : bool) snap w :
  clock (if b then after_reset snap w else w) = clock w
  /\ ticks (if b then after_reset snap w else w) = ticks w.
Proof. destruct b; split; reflexivity. Qed.

(** Step over the reset prefix of the send handler: the world [w1] it
    leaves has the messages and the clock of [w]. *)
Ltac skip_reset snap w w1 Hm :=
  match goal with
  | |- context [when ?b (handle_reset snap)] =>
      pose proof (when_reset_run b snap w) as Hr;
      pose proof (after_reset_messages b snap w) as Hm;
      destruct (after_reset_clock b snap w) as [Hc Ht];
      set (w1 := if b then after_reset snap w else w) in *;
      clearbody w1;
      unfold run_sync in *;
      rewrite !(run_sync_bind_settled _ _ _ _ _ _ _ Hr);
      clear Hr; rewrite <- Hm, <- ?Ht, <- ?Hc
  end.

Ltac after_finally snap :=
  rewrite (run_sync_bind_settled _ _ _ _ _ _ _ (clearAllImages_run snap _)).

Lemma send_ok snap w : step_ok (SendMessage snap) w.
Proof.
  unfold step_ok, message_id, finished, started, handler_prog, handleSendMessage.
  destruct (truthy_str (Some (trim (inputMessage snap)))) eqn:Htext;
    destruct (imageFiles snap) as [| f files] eqn:Himg;
    cbn [List.length Nat.eqb negb andb].
  - (* text only *)
    skip_reset snap w w1 Hm.
    unfold handleTextOnlyQuestion.
    destruct (truthy_str (selectedPlant snap)); cbn;
      (split; [finish_step |]);
      intros [msg | status data]; unfold run_sync; cbn;
      try destruct (ok status); cbn; after_finally snap; split; finish_step.
  - (* images and text *)
    skip_reset snap w w1 Hm.
    unfold handleImageClassification. rewrite Himg. cbn [List.length Nat.eqb].
    rewrite Htext. cbn.
    (split; [finish_step |]);
      intros [msg | status [[[| x l] |] a]]; unfold run_sync; cbn;
      try destruct (ok status); cbn;
      try destruct (String.eqb (label x) OOD_LABEL); cbn;
      after_finally snap; split; finish_step.
  - (* nothing to send *)
    unfold run_sync. cbn. split; [finish_step | intros r; split; finish_step].
  - (* images only *)
    skip_reset snap w w1 Hm.
    unfold handleImageClassification. rewrite Himg. cbn [List.length Nat.eqb].
    cbn.
    (split; [finish_step |]);
      intros [msg | status [[[| x l] |] a]]; unfold run_sync; cbn;
      try destruct (ok status); cbn;
      try destruct (String.eqb (label x) OOD_LABEL); cbn;
      after_finally snap; split; finish_step.
Qed.

(** C9 (amended): every handler only appends messages up to its [await].
    A handler that awaits no response changes the list no further.  When
    the awaited response arrives, the handler removes the processing
    message of its own request (the messages whose id is
    [<messageId>_processing], for the message id the handler works under)
    and appends messages at the end, none of which is such a processing
    message.  Every other message is kept, in its order: the order of the
    list is the order of insertion. *)
Theorem messages_appended_placeholder_replaced :
  forall (h : handler) (w : world),
    append_only (messages (st w)) (messages (st (snd (started h w))))
    /\ forall r : response,
        fst (finished h w r) = Settled tt
        /\ match fst (started h w) with
           | Settled _ =>
               messages (st (snd (finished h w r))) = messages (st (snd (started h w)))
           | Blocked _ _ =>
               placeholder_replaced (message_id h w)
                 (messages (st (snd (started h w))))
                 (messages (st (snd (finished h w r))))
           end.
Proof.
  intros h w. destruct h.
  - apply send_ok.
  - apply classification_ok.
  - apply (qa_handlers_ok snap messageId "" question w).
  - apply selection_ok.
  - apply (qa_handlers_ok snap messageId plantLabel question w).
Qed.

End ConversationFacts.

(* ===================================================================== *)
(** ** Further properties of cacheService.js                              *)
(* ===================================================================== *)

Module CacheExtras.
Import CacheService CacheFacts.

(** The entry a database holds for a key of a store, if any. *)
Definition entry_at (db : database) (cacheName k : string) : option entry :=
  match stores db !! cacheName with
  | Some st => st !! k
  | None => None
  end.

(** Every object store of [onupgradeneeded] exists. *)
Definition complete (db : database) : Prop :=
  forall cacheName, In cacheName CACHE_NAMES_values -> is_Some (stores db !! cacheName).

(* ------------------------------------------------------------------- *)
(** *** generateHash                                                    *)

Definition M32 : Z := 2 ^ 32.

Lemma to_int32_mod z : to_int32 z mod M32 = z mod M32.
Proof.
  unfold to_int32, M32.
  destruct (z mod 2 ^ 32 <? 2 ^ 31).
  - apply Z.mod_mod. lia.
  - replace (z mod 2 ^ 32 - 2 ^ 32) with (z mod 2 ^ 32 + (-1) * 2 ^ 32) by lia.
    rewrite Z_mod_plus_full. apply Z.mod_mod. lia.
Qed.

Lemma to_int32_congr a b : a mod M32 = b mod M32 -> to_int32 a = to_int32 b.
Proof. unfold to_int32, M32. intros ->. reflexivity. Qed.

Lemma to_int32_range z : - 2 ^ 31 <= to_int32 z < 2 ^ 31.
Proof.
  unfold to_int32.
  pose proof (Z.mod_pos_bound z (2 ^ 32) ltac:(lia)) as Hb.
  destruct (Z.ltb_spec (z mod 2 ^ 32) (2 ^ 31)); lia.
Qed.

Lemma to_int32_idem z : to_int32 (to_int32 z) = to_int32 z.
Proof. apply to_int32_congr, to_int32_mod. Qed.

(** One step of the loop is [31 * hash + char], wrapped to 32 bits. *)
Lemma hash_step_31 h c : hash_step h c = to_int32 (31 * h + c).
Proof.
  unfold hash_step. apply to_int32_congr.
  rewrite Z.shiftl_mul_pow2 by lia.
  rewrite Z.add_mod, Zminus_mod, to_int32_mod by (unfold M32; lia).
  rewrite <- Zminus_mod, <- Z.add_mod by (unfold M32; lia).
  f_equal. lia.
Qed.

(** The polynomial the loop evaluates, without wrap-around. *)
Definition poly31 (codes : list Z) (h : Z) : Z :=
  List.fold_left (fun h c => 31 * h + c) codes h.

Lemma fold_hash_step codes :
  forall h h', h mod M32 = h' mod M32 ->
    to_int32 (List.fold_left hash_step codes h) = to_int32 (poly31 codes h').
Proof.
  induction codes as [| c codes IH]; intros h h' Hh; simpl.
  - apply to_int32_congr, Hh.
  - apply IH. rewrite hash_step_31, to_int32_mod.
    rewrite Z.add_mod, Z.mul_mod by (unfold M32; lia).
    rewrite Hh.
    rewrite <- Z.mul_mod, <- Z.add_mod by (unfold M32; lia). reflexivity.
Qed.

Lemma fold_hash_step_wrapped codes :
  forall h, to_int32 h = h -> to_int32 (List.fold_left hash_step codes h)
                             = List.fold_left hash_step codes h.
Proof.
  induction codes as [| c codes IH]; intros h Hh; simpl.
  - exact Hh.
  - apply IH. unfold hash_step. apply to_int32_idem.
Qed.

(** The code units of ASCII text are its bytes. *)
Lemma utf16_ascii (bs : list Z) : Forall (fun b => b < 128) bs -> utf16 bs = bs.
Proof.
  induction 1 as [| b bs Hb _ IH]; [reflexivity |].
  cbn [utf16]. destruct (Z.ltb_spec b 128); [| lia]. now rewrite IH.
Qed.

(** A letter of the Latin-1 range, a Vietnamese letter with two marks and
    a character outside the basic plane: one, one and two code units. *)
Example charCodes_beyond_ascii :
  charCodes "é" = [233]
  /\ charCodes "ệ" = [7879]
  /\ charCodes "Tên tiếng Việt" = [84; 234; 110; 32; 116; 105; 7871; 110; 103; 32;
                                    86; 105; 7879; 116]
  /\ charCodes "🌿" = [55356; 57151]
  /\ generateHash "é" = "e9".
Proof. repeat split; reflexivity. Qed.

(** X1: [generateHash] is the hexadecimal rendering of the polynomial
    hash [sum of code_i * 31^(n-1-i)] over the UTF-16 code units of the
    string, wrapped to a signed 32-bit integer; the number rendered
    always lies in [-2^31, 2^31). *)
Theorem generateHash_polynomial :
  forall str : string,
    generateHash str = hex (to_int32 (poly31 (charCodes str) 0))
    /\ - 2 ^ 31 <= to_int32 (poly31 (charCodes str) 0) < 2 ^ 31.
Proof.
  intros str. split; [| apply to_int32_range].
  unfold generateHash. f_equal.
  rewrite <- (fold_hash_step_wrapped (charCodes str) 0 eq_refl).
  apply fold_hash_step. reflexivity.
Qed.

(* ------------------------------------------------------------------- *)
(** *** Reads and writes touch one key                                  *)

Lemma entry_at_with_store db cacheName st cacheName' k :
  entry_at (with_store cacheName st db) cacheName' k
  = if decide (cacheName = cacheName') then st !! k else entry_at db cacheName' k.
Proof.
  unfold entry_at, with_store. simpl.
  rewrite lookup_insert. destruct (decide (cacheName = cacheName')); reflexivity.
Qed.

(** What [getCache] returns is decided by the entry at the key. *)
Lemma getCache_by_entry cacheName k now db :
  fst (getCache cacheName k now db)
  = if idbAvailable db then
      match entry_at db cacheName k with
      | Some e => if expiry e >? now then value e else JNull
      | None => JNull
      end
    else JNull.
Proof.
  unfold getCache, entry_at. destruct (idbAvailable db); simpl; [| reflexivity].
  destruct (stores db !! cacheName) as [st |]; [| reflexivity].
  destruct (st !! k) as [e |]; [| reflexivity].
  destruct (expiry e >? now); reflexivity.
Qed.

(** X2: a write to one key of one store changes no other entry: every
    other key, in the same or in another store, holds what it held
    before (whether or not the write succeeds). *)
Theorem setCache_frame :
  forall cacheName k v ttl now db cacheName' k',
    (cacheName', k') <> (cacheName, k) ->
    entry_at (snd (setCache cacheName k v ttl now db)) cacheName' k'
    = entry_at db cacheName' k'.
Proof.
  intros cacheName k v ttl now db cacheName' k' Hne.
  unfold setCache. destruct (idbAvailable db); simpl; [| reflexivity].
  destruct (stores db !! cacheName) as [st |] eqn:Hst; simpl; [| reflexivity].
  rewrite entry_at_with_store.
  destruct (decide (cacheName = cacheName')) as [<- | Hcn]; [| reflexivity].
  unfold entry_at. rewrite Hst. apply lookup_insert_ne. congruence.
Qed.

Lemma setCache_frame_witness :
  entry_at (snd (setCache CACHE_NAMES_QA "k1" (JStr "a") None 10 fresh_database))
    CACHE_NAMES_QA "k2"
  = entry_at fresh_database CACHE_NAMES_QA "k2".
Proof.
  apply (setCache_frame CACHE_NAMES_QA "k1" (JStr "a") None 10 fresh_database
           CACHE_NAMES_QA "k2").
  discriminate.
Defined.

(** X3: a read changes nothing but the key it probes, and changes the
    database only when it finds an expired entry there: a read that
    returns a value other than [null] leaves the database as it is. *)
Theorem getCache_frame :
  forall cacheName k now db,
    (forall cacheName' k',
        (cacheName', k') <> (cacheName, k) ->
        entry_at (snd (getCache cacheName k now db)) cacheName' k'
        = entry_at db cacheName' k')
    /\ (fst (getCache cacheName k now db) <> JNull ->
        snd (getCache cacheName k now db) = db)
    /\ entry_at (snd (getCache cacheName k now db)) cacheName k
       = match entry_at db cacheName k with
         | Some e => if idbAvailable db && negb (expiry e >? now) then None else Some e
         | None => None
         end.
Proof.
  intros cacheName k now db. unfold getCache.
  destruct (idbAvailable db) eqn:Hav; simpl.
  2:{ repeat split; auto; try congruence. destruct (entry_at db cacheName k); reflexivity. }
  destruct (stores db !! cacheName) as [st |] eqn:Hst; simpl.
  2:{ repeat split; auto; try congruence. unfold entry_at. now rewrite Hst. }
  destruct (st !! k) as [e |] eqn:He; simpl.
  2:{ repeat split; auto; try congruence. unfold entry_at. now rewrite Hst, He. }
  destruct (expiry e >? now) eqn:Hlive; simpl.
  - repeat split; auto. unfold entry_at. rewrite Hst, He, Hlive. reflexivity.
  - split; [| split; [congruence |]].
    + intros cacheName' k' Hne. rewrite entry_at_with_store.
      destruct (decide (cacheName = cacheName')) as [<- | Hcn]; [| reflexivity].
      unfold entry_at. rewrite Hst. apply lookup_delete_ne. congruence.
    + rewrite entry_at_with_store.
      destruct (decide (cacheName = cacheName)); [| congruence].
      rewrite lookup_delete_eq. unfold entry_at. rewrite Hst, He, Hlive. reflexivity.
Qed.

(** X4: last write wins.  Of two writes to the same key the second one
    decides what a read returns: within the life time given to the second
    write the read yields the second value, whatever the first was. *)
Theorem last_write_wins :
  forall cacheName k v1 v2 ttl1 ms now1 now2 now3 db,
    idbAvailable db = true ->
    is_Some (stores db !! cacheName) ->
    ms <> 0 ->
    now3 < now2 + ms ->
    fst (getCache cacheName k now3
           (snd (setCache cacheName k v2 (Some ms) now2
                   (snd (setCache cacheName k v1 ttl1 now1 db))))) = v2.
Proof.
  intros cacheName k v1 v2 ttl1 ms now1 now2 now3 db Hav [st Hst] Hms Hlive.
  rewrite (setCache_stored _ _ _ _ _ _ _ Hav Hst). simpl snd.
  eapply set_get_roundtrip_live.
  - rewrite idbAvailable_with_store. exact Hav.
  - apply stores_with_store.
  - rewrite compute_expiry_override by exact Hms. exact Hlive.
Qed.

Lemma last_write_wins_witness :
  fst (getCache CACHE_NAMES_QA "q" 1500
         (snd (setCache CACHE_NAMES_QA "q" (JStr "new") (Some 1000) 1000
                 (snd (setCache CACHE_NAMES_QA "q" (JStr "old") None 900
                         fresh_database)))))
  = JStr "new".
Proof.
  apply (last_write_wins CACHE_NAMES_QA "q" (JStr "old") (JStr "new") None 1000
           900 1000 1500 fresh_database).
  - reflexivity.
  - eexists. reflexivity.
  - lia.
  - lia.
Defined.

(** X5: when IndexedDB is missing, or the object store does not exist,
    a write and a read both answer [null] and the database is untouched;
    the sweep without IndexedDB does nothing. *)
Theorem storage_failure_is_silent :
  forall cacheName k v ttl now db,
    idbAvailable db = false \/ stores db !! cacheName = None ->
    setCache cacheName k v ttl now db = (JNull, db)
    /\ getCache cacheName k now db = (JNull, db)
    /\ (idbAvailable db = false -> clearExpiredCache now db = db).
Proof.
  intros cacheName k v ttl now db Hfail.
  unfold setCache, getCache, clearExpiredCache.
  destruct (idbAvailable db) eqn:Hav; simpl.
  - destruct Hfail as [Hfail | Hfail]; [discriminate |]. rewrite Hfail.
    repeat split; congruence.
  - repeat split; reflexivity.
Qed.

Lemma storage_failure_is_silent_witness :
  setCache "plants" "all-plants" (JArr []) None 5 fresh_database = (JNull, fresh_database)
  /\ getCache "plants" "all-plants" 5 fresh_database = (JNull, fresh_database)
  /\ (idbAvailable fresh_database = false -> clearExpiredCache 5 fresh_database = fresh_database).
Proof.
  apply (storage_failure_is_silent "plants" "all-plants" (JArr []) None 5 fresh_database).
  right. reflexivity.
Defined.

(* ------------------------------------------------------------------- *)
(** *** The sweep                                                       *)

Lemma sweep_store_lookup now (st : gmap string entry) k :
  sweep_store now st !! k
  = match st !! k with
    | Some e => if expiry e <=? now then None else Some e
    | None => None
    end.
Proof.
  unfold sweep_store.
  destruct (st !! k) as [e |] eqn:He.
  - destruct (Z.leb_spec (expiry e) now) as [Hexp | Hlive].
    + apply map_lookup_filter_None. right. intros e' He'. simpl.
      rewrite He in He'. inversion He'; subst. lia.
    + apply map_lookup_filter_Some. split; [exact He | simpl; lia].
  - apply map_lookup_filter_None. left. exact He.
Qed.

Lemma clearExpired_loop_stores names :
  forall now db,
    List.NoDup names ->
    (forall n, In n names -> is_Some (stores db !! n)) ->
    forall cacheName,
      (In cacheName names ->
       stores (clearExpired_loop names now db) !! cacheName
       = sweep_store now <$> stores db !! cacheName)
      /\ (~ In cacheName names ->
          stores (clearExpired_loop names now db) !! cacheName = stores db !! cacheName).
Proof.
  induction names as [| n names IH]; intros now db Hnd Hall cacheName; simpl.
  - split; [tauto | reflexivity].
  - inversion Hnd as [| ? ? Hnotin Hnd']; subst.
    destruct (Hall n (or_introl eq_refl)) as [st Hst]. rewrite Hst.
    assert (Hall' : forall m, In m names ->
              is_Some (stores (with_store n (sweep_store now st) db) !! m)).
    { intros m Hm. unfold with_store. simpl.
      rewrite lookup_insert_ne; [apply Hall; right; exact Hm |].
      intros ->. contradiction. }
    destruct (IH now (with_store n (sweep_store now st) db) Hnd' Hall' cacheName)
      as [IHin IHout].
    split.
    + intros [-> | Hin].
      * rewrite IHout by exact Hnotin. unfold with_store. simpl.
        rewrite lookup_insert_eq, Hst. reflexivity.
      * rewrite IHin by exact Hin. unfold with_store. simpl.
        rewrite lookup_insert_ne; [reflexivity |]. intros ->. contradiction.
    + intros Hout. rewrite IHout by tauto. unfold with_store. simpl.
      apply lookup_insert_ne. intros ->. apply Hout. left. reflexivity.
Qed.

Lemma cache_names_nodup : List.NoDup CACHE_NAMES_values.
Proof.
  unfold CACHE_NAMES_values.
  repeat constructor; simpl; intros H;
    repeat (destruct H as [H | H]; [discriminate H |]); exact H.
Qed.

(** X6: after the sweep at time [now], in every cache an entry is present
    exactly when it was present before with [expiry > now], and it is then
    unchanged: all expired entries are gone and no live entry is lost. *)
Theorem clearExpiredCache_keeps_exactly_live :
  forall now db cacheName k,
    idbAvailable db = true ->
    complete db ->
    In cacheName CACHE_NAMES_values ->
    entry_at (clearExpiredCache now db) cacheName k
    = match entry_at db cacheName k with
      | Some e => if expiry e <=? now then None else Some e
      | None => None
      end.
Proof.
  intros now db cacheName k Hav Hall Hin.
  unfold clearExpiredCache, entry_at. rewrite Hav. cbn [negb].
  destruct (clearExpired_loop_stores _ now db cache_names_nodup Hall cacheName)
    as [Hswept _].
  rewrite (Hswept Hin).
  destruct (Hall cacheName Hin) as [st Hst]. rewrite Hst. simpl.
  apply sweep_store_lookup.
Qed.

Lemma fresh_database_complete : complete fresh_database.
Proof. intros n Hn. rewrite (fresh_store n Hn). eexists. reflexivity. Qed.

Definition stale_and_live : database :=
  with_store CACHE_NAMES_QA
    (<[ "old" := {| key := "old"; value := JStr "a"; expiry := 100 |} ]>
       (<[ "new" := {| key := "new"; value := JStr "b"; expiry := 900 |} ]> ∅))
    fresh_database.

Lemma stale_and_live_complete : complete stale_and_live.
Proof.
  intros n Hn. simpl in Hn.
  destruct Hn as [<- | [<- | [<- | []]]]; eexists; reflexivity.
Qed.

Lemma clearExpiredCache_keeps_exactly_live_witness :
  entry_at (clearExpiredCache 500 stale_and_live) CACHE_NAMES_QA "old"
  = match entry_at stale_and_live CACHE_NAMES_QA "old" with
    | Some e => if expiry e <=? 500 then None else Some e
    | None => None
    end.
Proof.
  apply (clearExpiredCache_keeps_exactly_live 500 stale_and_live CACHE_NAMES_QA "old").
  - reflexivity.
  - exact stale_and_live_complete.
  - simpl. right. right. left. reflexivity.
Defined.

Lemma idbAvailable_loop names :
  forall now db, idbAvailable (clearExpired_loop names now db) = idbAvailable db.
Proof.
  induction names as [| n names IH]; intros now db; simpl; [reflexivity |].
  destruct (stores db !! n); [rewrite IH |]; reflexivity.
Qed.

(** X7: the sweep is invisible to readers: at any time from the sweep on,
    a read of any key of any cache returns after the sweep what it would
    have returned without it. *)
Theorem sweep_is_transparent_to_reads :
  forall now now' db cacheName k,
    complete db ->
    In cacheName CACHE_NAMES_values ->
    now <= now' ->
    fst (getCache cacheName k now' (clearExpiredCache now db))
    = fst (getCache cacheName k now' db).
Proof.
  intros now now' db cacheName k Hall Hin Hle.
  rewrite !getCache_by_entry.
  destruct (idbAvailable db) eqn:Hav.
  - assert (Hav' : idbAvailable (clearExpiredCache now db) = true).
    { unfold clearExpiredCache. rewrite Hav. cbn [negb]. now rewrite idbAvailable_loop. }
    rewrite Hav'.
    rewrite (clearExpiredCache_keeps_exactly_live now db cacheName k Hav Hall Hin).
    destruct (entry_at db cacheName k) as [e |]; [| reflexivity].
    destruct (Z.leb_spec (expiry e) now) as [Hexp | Hlive]; [| reflexivity].
    destruct (Z.gtb_spec (expiry e) now'); [lia | reflexivity].
  - unfold clearExpiredCache. rewrite Hav. cbn [negb]. rewrite Hav. reflexivity.
Qed.

Lemma sweep_is_transparent_to_reads_witness :
  fst (getCache CACHE_NAMES_QA "new" 600 (clearExpiredCache 500 stale_and_live))
  = fst (getCache CACHE_NAMES_QA "new" 600 stale_and_live).
Proof.
  apply (sweep_is_transparent_to_reads 500 600 stale_and_live CACHE_NAMES_QA "new").
  - exact stale_and_live_complete.
  - simpl. right. right. left. reflexivity.
  - lia.
Defined.

End CacheExtras.

(* ===================================================================== *)
(** ** Further properties of the request hooks                            *)
(* ===================================================================== *)

Module HooksExtras.
Import CacheService CacheFacts CacheExtras Hooks HooksFacts.

Arguments imageHash_of : simpl never.
Arguments getCache : simpl never.
Arguments setCache : simpl never.
Arguments generateHash : simpl never.
Arguments trim : simpl never.
Arguments decimal : simpl never.
Arguments String.append : simpl never.

Lemma imageHash_nonempty f : String.eqb (imageHash_of f) "" = false.
Proof. apply hex_nonempty. Qed.


(** A look-up of a key the cache has no entry for. *)
Lemma getCache_absent cacheName k now d :
  entry_at d cacheName k = None -> getCache cacheName k now d = (JNull, d).
Proof.
  unfold entry_at, getCache. intros H.
  destruct (idbAvailable d); simpl; [| reflexivity].
  destruct (stores d !! cacheName) as [st |]; [| reflexivity].
  rewrite H. reflexivity.
Qed.


Ltac run_hooks :=
  unfold run, initial; cbn; unfold resume, start; cbn.

Arguments run : simpl never.

(* ------------------------------------------------------------------- *)
(** *** classifyImage                                                   *)

(** X8: a cache hit answers the call without the network: when the cache
    returns a truthy value for the key of the file, [classifyImage]
    resolves to that value, stores it as the classifications, turns
    loading off, leaves the error empty and sends no request. *)
Theorem classifyImage_cache_hit :
  forall (f : file) (d : database) (v : jsval) (i1 i2 : input),
    fst (getCachedClassifications (imageHash_of f) (now i2) d) = v ->
    truthy v = true ->
    let s := run [CallClassifyImage (Some f); Resume 0 i1; Resume 0 i2] (initial d) in
    tasks s = [Settled v]
    /\ network (sys_world s) = []
    /\ value (classification (sys_world s)) = v
    /\ loading (classification (sys_world s)) = false
    /\ error (classification (sys_world s)) = None.
Proof.
  intros f d v i1 i2 Hget Hv s. subst s.
  unfold getCachedClassifications in Hget.
  destruct (getCache CACHE_NAMES_CLASSIFICATIONS (imageHash_of f) (now i2) d)
    as [v' d'] eqn:E.
  simpl in Hget. subst v'.
  run_hooks. rewrite !imageHash_nonempty. cbn. rewrite E. cbn. rewrite Hv. cbn.
  repeat split; reflexivity.
Qed.

Definition cached_results : jsval :=
  JArr [JObj [("label", JStr "Ficus religiosa"); ("confidence", JNum "0.91")]].

Definition warm_database : database :=
  snd (setCache CACHE_NAMES_CLASSIFICATIONS (imageHash_of photo) cached_results
         (Some 60000) 1000 fresh_database).

Lemma classifyImage_cache_hit_witness :
  let s := run [CallClassifyImage (Some photo); Resume 0 (at_time 1001);
                Resume 0 (at_time 1002)] (initial warm_database) in
  tasks s = [Settled cached_results]
  /\ network (sys_world s) = []
  /\ value (classification (sys_world s)) = cached_results
  /\ loading (classification (sys_world s)) = false
  /\ error (classification (sys_world s)) = None.
Proof.
  apply (classifyImage_cache_hit photo warm_database cached_results
           (at_time 1001) (at_time 1002)).
  - vm_compute. reflexivity.
  - reflexivity.
Defined.





Ltac step_through tac :=
  repeat (rewrite run_cons; unfold step, start, resume; cbn;
          repeat first [ tac | progress cbn ]);
  rewrite run_nil.

(** The message a failed classification surfaces; [None] when the reply
    is no failure (a valid response, or the rejection of an aborted
    request). *)
Definition classification_failure (r : reply) : option string :=
  match r with
  | Rejected name message =>
      if String.eqb name "AbortError" then None else Some message
  | Response status data =>
      if negb (ok status) then
        Some (error_message data ("Classification failed (HTTP " +++ decimal status +++ ")"))
      else if negb (truthy (prop "results" data)) || negb (isArray (prop "results" data))
           then Some "Invalid classification response format"
           else None
  end.

Definition failed_with (message : string) (w : world) : world :=
  set_hook Classification
    {| value := value (classification w); loading := false;
       error := Some ("Error classifying image: " +++ message);
       abortControllerRef := abortControllerRef (classification w) |} w.

(** X10: every failure of the classification request (a network error, a
    status outside 200..299, a body without an array of results) ends the
    call the same way: it resolves to [null], the error field carries the
    message (the [detail] of the error body when there is one), loading is
    turned off, and neither the classifications nor the cache nor any
    other state changes; nothing is written through. *)
Theorem classification_failure_sets_error_only :
  forall (s : system) (i : nat) (req : request) (sig : option nat)
         (imageHash : option string) (inp : input) (message : string),
    tasks s !! i = Some (Blocked (Fetch req sig) (classify_after_fetch imageHash)) ->
    is_aborted sig (sys_world s) = false ->
    classification_failure (net inp) = Some message ->
    resume i inp s
    = {| sys_world := failed_with message (sys_world s);
         tasks := <[i := Settled JNull]> (tasks s) |}.
Proof.
  intros s i req sig imageHash inp message Ht Hlive Hfail.
  unfold resume, task in *. rewrite Ht. cbn. rewrite Hlive.
  unfold classification_failure in Hfail.
  destruct (net inp) as [name message' | status data]; cbn.
  - unfold classify_catch.
    destruct (String.eqb name "AbortError"); [discriminate |].
    inversion Hfail; subst. reflexivity.
  - destruct (ok status); cbn in *.
    + destruct (negb (truthy (prop "results" data)) || negb (isArray (prop "results" data)));
        [| discriminate].
      inversion Hfail; subst. reflexivity.
    + inversion Hfail; subst. reflexivity.
Qed.

Definition in_flight : system :=
  run [ CallClassifyImage (Some photo); Resume 0 (at_time 1000); Resume 0 (at_time 1001) ]
      (initial fresh_database).

Definition server_error : input :=
  {| now := 1002; net := Response 500 [("detail", JStr "model not loaded")];
     compressed := inr "" |}.

Lemma classification_failure_sets_error_only_witness :
  resume 0 server_error in_flight
  = {| sys_world := failed_with "model not loaded" (sys_world in_flight);
       tasks := <[0%nat := Settled JNull]> (tasks in_flight) |}.
Proof.
  apply (classification_failure_sets_error_only in_flight 0 (ClassifyRequest photo)
           (Some 0%nat) (Some (imageHash_of photo)) server_error "model not loaded").
  - reflexivity.
  - reflexivity.
  - reflexivity.
Defined.




(* ------------------------------------------------------------------- *)
(** *** askQuestion                                                     *)

Definition with_qa_error (message : string) (w : world) : world :=
  set_hook QA
    {| value := value (qa w); loading := loading (qa w); error := Some message;
       abortControllerRef := abortControllerRef (qa w) |} w.

(** X12: a question without a label, or whose text is empty or only
    white space, is refused on the spot: the call resolves to [null] and
    sets the error; it sends nothing, does not abort a request in flight,
    and leaves the answer and the loading flag as they are. *)
Theorem askQuestion_requires_label_and_question :
  forall (label : option string) (question : string) (s : system),
    truthy_str label = false \/ truthy_str (Some (trim question)) = false ->
    step (CallAskQuestion label question) s
    = {| sys_world := with_qa_error "Both label and question are required" (sys_world s);
         tasks := tasks s ++ [Settled JNull] |}.
Proof.
  intros label question s Hbad.
  unfold step, start, askQuestion.
  destruct label as [l |]; [| reflexivity].
  destruct (truthy_str (Some l)) eqn:Hl; cbn [negb orb].
  - destruct Hbad as [Hbad | Hbad]; [discriminate |].
    rewrite Hbad. reflexivity.
  - reflexivity.
Qed.

Lemma askQuestion_requires_label_and_question_witness :
  step (CallAskQuestion (Some "Ficus religiosa") "   ") in_flight
  = {| sys_world := with_qa_error "Both label and question are required"
                      (sys_world in_flight);
       tasks := tasks in_flight ++ [Settled JNull] |}.
Proof.
  apply (askQuestion_requires_label_and_question (Some "Ficus religiosa") "   " in_flight).
  right. reflexivity.
Defined.

Definition offline_message : string :=
  "Bạn đang ngoại tuyến. Vui lòng kết nối mạng để sử dụng tính năng này.".

(** The key under which an answer is cached. *)
Definition questionHash_of (l question : string) : string :=
  generateHash (l +++ "-" +++ trim question).

(** X13: offline, a question that is not in the cache is not sent: the
    call resolves to [null] with the offline message as its error, loading
    off and the answer reset to the empty string, and no request reaches
    the network. *)
Theorem askQuestion_offline :
  forall (l question : string) (w : world) (i1 : input),
    truthy_str (Some l) = true ->
    truthy_str (Some (trim question)) = true ->
    onLine w = false ->
    entry_at (db w) CACHE_NAMES_QA (questionHash_of l question) = None ->
    let s := run [CallAskQuestion (Some l) question; Resume 0 i1]
                 {| sys_world := w; tasks := [] |} in
    tasks s = [Settled JNull]
    /\ error (qa (sys_world s)) = Some ("Error getting answer: " +++ offline_message)
    /\ loading (qa (sys_world s)) = false
    /\ value (qa (sys_world s)) = JStr ""
    /\ network (sys_world s) = network w
    /\ db (sys_world s) = db w.
Proof.
  intros l question w i1 Hl Hq Hoff Habsent s. subst s.
  pose proof (getCache_absent _ _ (now i1) (db w) Habsent) as Hmiss.
  unfold questionHash_of in Hmiss.
  destruct w as [cl q ctl ab d ol nw]. cbn in Hoff, Hmiss. subst ol.
  destruct q as [qv ql qe qr].
  cbn in Hl, Hq.
  destruct qr;
    step_through
      ltac:(first [ rewrite Hl | rewrite Hq | rewrite Hmiss
                  | progress unfold askQuestion, ask_catch ]);
    repeat split; reflexivity.
Qed.

Definition offline_world : world :=
  {| classification := classification (initial_world fresh_database);
     qa := qa (initial_world fresh_database);
     controllers := 0; aborted := []; db := fresh_database; onLine := false;
     network := [] |}.

Lemma askQuestion_offline_witness :
  let s := run [CallAskQuestion (Some "Ficus religiosa") "Công dụng là gì?";
                Resume 0 (at_time 10)]
               {| sys_world := offline_world; tasks := [] |} in
  tasks s = [Settled JNull]
  /\ error (qa (sys_world s)) = Some ("Error getting answer: " +++ offline_message)
  /\ loading (qa (sys_world s)) = false
  /\ value (qa (sys_world s)) = JStr ""
  /\ network (sys_world s) = network offline_world
  /\ db (sys_world s) = db offline_world.
Proof.
  apply (askQuestion_offline "Ficus religiosa" "Công dụng là gì?" offline_world
           (at_time 10)).
  - reflexivity.
  - reflexivity.
  - reflexivity.
  - reflexivity.
Defined.

End HooksExtras.

(* ===================================================================== *)
(** ** Further properties of the conversation handlers                    *)
(* ===================================================================== *)

Module ChatbotExtras.
Import Chatbot AsyncFacts ImagesFacts ConversationFacts.

Arguments trim : simpl never.
Arguments toLowerCase : simpl never.
Arguments decimal : simpl never.
Arguments String.append : simpl never.
Arguments clearAllImages : simpl never.
Arguments reset_events : simpl never.
Arguments remove_id : simpl never.

Ltac skip_reset snap w w1 :=
  match goal with
  | |- context [when ?b (handle_reset snap)] =>
      pose proof (when_reset_run b snap w) as Hr;
      set (w1 := if b then after_reset snap w else w) in *;
      unfold run_sync in *;
      rewrite !(run_sync_bind_settled _ _ _ _ _ _ _ Hr);
      clear Hr
  end.

Ltac after_finally snap :=
  rewrite (run_sync_bind_settled _ _ _ _ _ _ _ (clearAllImages_run snap _)).

(* ------------------------------------------------------------------- *)
(** *** The pending question                                            *)

Definition pending_ok (s : state) : Prop := pendingQuestion s <> Some "".

Lemma after_reset_pending (b : bool) snap w :
  pending_ok (st w) -> pending_ok (st (if b then after_reset snap w else w)).
Proof.
  intros H. destruct b; [| exact H]. unfold after_reset, pending_ok.
  destruct (imageFiles snap); cbn; discriminate.
Qed.

Lemma truthy_not_empty (q : option string) : truthy_str q = true -> q <> Some "".
Proof. intros H ->. discriminate H. Qed.

Ltac pending_done :=
  unfold pending_ok in *; cbn;
  first [ assumption | discriminate | apply truthy_not_empty; assumption ].

Lemma pending_classification snap messageId questionText w r :
  pending_ok (st w) ->
  pending_ok (st (snd (started (ImageClassification snap messageId questionText) w)))
  /\ pending_ok (st (snd (finished (ImageClassification snap messageId questionText) w r))).
Proof.
  intros Hok.
  unfold finished, started, handler_prog, handleImageClassification, run_sync.
  destruct (imageFiles snap) as [| f files]; cbn [List.length Nat.eqb].
  - cbn. split; pending_done.
  - destruct (truthy_str questionText) eqn:Hq; cbn;
      (split; [pending_done |]);
      destruct r as [msg | status [[[| x l] |] a]]; unfold run_sync; cbn;
      try destruct (ok status); cbn;
      try destruct (String.eqb (label x) OOD_LABEL); cbn;
      pending_done.
Qed.

Lemma pending_send snap w r :
  pending_ok (st w) ->
  pending_ok (st (snd (started (SendMessage snap) w)))
  /\ pending_ok (st (snd (finished (SendMessage snap) w r))).
Proof.
  intros Hok.
  unfold finished, started, handler_prog, handleSendMessage.
  destruct (truthy_str (Some (trim (inputMessage snap)))) eqn:Htext;
    destruct (imageFiles snap) as [| f files] eqn:Himg;
    cbn [List.length Nat.eqb negb andb].
  - skip_reset snap w w1.
    assert (Hw1 : pending_ok (st w1)) by (apply after_reset_pending; exact Hok).
    clearbody w1.
    unfold handleTextOnlyQuestion.
    destruct (truthy_str (selectedPlant snap)); cbn;
      (split; [pending_done |]);
      destruct r as [msg | status data]; unfold run_sync; cbn;
      try destruct (ok status); cbn; after_finally snap; pending_done.
  - skip_reset snap w w1.
    assert (Hw1 : pending_ok (st w1)) by (apply after_reset_pending; exact Hok).
    clearbody w1.
    unfold handleImageClassification. rewrite Himg. cbn [List.length Nat.eqb].
    rewrite Htext. cbn.
    (split; [pending_done |]);
      destruct r as [msg | status [[[| x l] |] a]]; unfold run_sync; cbn;
      try destruct (ok status); cbn;
      try destruct (String.eqb (label x) OOD_LABEL); cbn;
      after_finally snap; pending_done.
  - unfold run_sync. cbn. split; pending_done.
  - skip_reset snap w w1.
    assert (Hw1 : pending_ok (st w1)) by (apply after_reset_pending; exact Hok).
    clearbody w1.
    unfold handleImageClassification. rewrite Himg. cbn [List.length Nat.eqb].
    cbn.
    (split; [pending_done |]);
      destruct r as [msg | status [[[| x l] |] a]]; unfold run_sync; cbn;
      try destruct (ok status); cbn;
      try destruct (String.eqb (label x) OOD_LABEL); cbn;
      after_finally snap; pending_done.
Qed.

(** X14: no handler ever leaves the empty string as the pending
    question: if the pending question is [null] or a non-empty text
    before a handler runs, it is so when the handler suspends and when it
    has finished, whatever the response. *)
Theorem pending_question_never_empty :
  forall (h : handler) (w : world) (r : response),
    pending_ok (st w) ->
    pending_ok (st (snd (started h w))) /\ pending_ok (st (snd (finished h w r))).
Proof.
  intros h w r Hok. destruct h.
  - apply pending_send, Hok.
  - apply pending_classification, Hok.
  - unfold finished, started, handler_prog, handleTextOnlyQuestion, run_sync.
    destruct (truthy_str (selectedPlant snap)); cbn;
      (split; [pending_done |]);
      destruct r as [msg | status data]; unfold run_sync; cbn;
      try destruct (ok status); cbn; pending_done.
  - unfold finished, started, handler_prog, handlePlantSelection, run_sync.
    destruct (pendingQuestion snap) as [q |]; [destruct (truthy_str (Some q)) |];
      cbn; split; pending_done.
  - unfold finished, started, handler_prog, handleQuestionWithSelectedPlant, run_sync.
    cbn. split; [pending_done |].
    destruct r as [msg | status data]; unfold run_sync; cbn;
      try destruct (ok status); cbn; pending_done.
Qed.

Lemma pending_question_never_empty_witness :
  pending_ok (st (snd (started (SendMessage (with_image "Cách nhận biết?"))
                         (world_of (with_image "Cách nhận biết?") (ticking 1000)))))
  /\ pending_ok (st (snd (finished (SendMessage (with_image "Cách nhận biết?"))
                            (world_of (with_image "Cách nhận biết?") (ticking 1000))
                            (answer_with "")))).
Proof.
  apply (pending_question_never_empty (SendMessage (with_image "Cách nhận biết?"))
           (world_of (with_image "Cách nhận biết?") (ticking 1000)) (answer_with "")).
  unfold pending_ok. simpl. discriminate.
Defined.

(* ------------------------------------------------------------------- *)
(** *** Sending a message                                               *)

Definition something_to_send (snap : state) : bool :=
  truthy_str (Some (trim (inputMessage snap)))
  || negb (Nat.eqb (List.length (imageFiles snap)) 0).

(** X15: the send handler always runs to its end once the response is
    there.  With nothing to send (no text after trimming, no image) it
    changes nothing at all; otherwise it always ends with the input
    emptied, the loading flag off, the upload progress at 0 and no image
    attached, and, when images were sent, with the classification spinner
    off: for every kind of response. *)
Theorem send_always_ends_clean :
  forall (snap : state) (w : world) (r : response),
    let fin := finished (SendMessage snap) w r in
    fst fin = Settled tt
    /\ if something_to_send snap then
         inputMessage (st (snd fin)) = ""
         /\ isLoading (st (snd fin)) = false
         /\ uploadProgress (st (snd fin)) = 0
         /\ imageFiles (st (snd fin)) = []
         /\ imagePreviewUrls (st (snd fin)) = []
         /\ (imageFiles snap <> [] -> classificationLoading (st (snd fin)) = false)
       else snd fin = w.
Proof.
  intros snap w r fin. subst fin.
  unfold something_to_send, finished, started, handler_prog, handleSendMessage.
  destruct (truthy_str (Some (trim (inputMessage snap)))) eqn:Htext;
    destruct (imageFiles snap) as [| f files] eqn:Himg;
    cbn [List.length Nat.eqb negb andb orb].
  - skip_reset snap w w1. clearbody w1.
    unfold handleTextOnlyQuestion.
    destruct (truthy_str (selectedPlant snap)); cbn;
      destruct r as [msg | status data]; unfold run_sync; cbn;
      try destruct (ok status); cbn; after_finally snap; cbn;
      repeat split; try reflexivity; intros H; now contradiction H.
  - skip_reset snap w w1. clearbody w1.
    unfold handleImageClassification. rewrite Himg. cbn [List.length Nat.eqb].
    rewrite Htext. cbn.
    destruct r as [msg | status [[[| x l] |] a]]; unfold run_sync; cbn;
      try destruct (ok status); cbn;
      try destruct (String.eqb (label x) OOD_LABEL); cbn;
      after_finally snap; cbn; repeat split; reflexivity.
  - unfold run_sync. cbn. split; [reflexivity | now destruct w].
  - skip_reset snap w w1. clearbody w1.
    unfold handleImageClassification. rewrite Himg. cbn [List.length Nat.eqb].
    cbn.
    destruct r as [msg | status [[[| x l] |] a]]; unfold run_sync; cbn;
      try destruct (ok status); cbn;
      try destruct (String.eqb (label x) OOD_LABEL); cbn;
      after_finally snap; cbn; repeat split; reflexivity.
Qed.

(* ------------------------------------------------------------------- *)
(** *** Questions                                                       *)

Lemma remove_id_app id_ l1 l2 :
  remove_id id_ (l1 ++ l2) = remove_id id_ l1 ++ remove_id id_ l2.
Proof. unfold remove_id. apply List.filter_app. Qed.

Lemma remove_id_all id_ l : Forall (fun m => id m <> id_) (remove_id id_ l).
Proof.
  unfold remove_id. apply Forall_forall. intros m Hm.
  apply list_elem_of_In, filter_In in Hm. destruct Hm as [_ Hm].
  destruct (String.eqb_spec (id m) id_); [discriminate | assumption].
Qed.

Lemma remove_id_own id_ text t p e :
  remove_id id_ [bot_text id_ text t p e] = [].
Proof. unfold remove_id. cbn. now rewrite String.eqb_refl. Qed.

(** The message a question handler appends when the response arrives. *)
Definition qa_reply_message (messageId : string) (r : response) (t : Z) : message :=
  match r with
  | Rejected message_ =>
      bot_text (messageId +++ "_error") ("Lỗi khi xử lý câu hỏi: " +++ message_) t false true
  | Response status data =>
      if ok status then
        bot_text (messageId +++ "_answer") (answer_or_default data) t false false
      else
        bot_text (messageId +++ "_error")
          ("Lỗi khi xử lý câu hỏi: " +++ "Lỗi xử lý câu hỏi (HTTP " +++ decimal status +++ ")")
          t false true
  end.

Lemma reply_is_no_placeholder messageId r t :
  id (qa_reply_message messageId r t) <> messageId +++ "_processing".
Proof.
  destruct r as [msg | status data]; cbn; [| destruct (ok status); cbn];
    intros H; apply append_cancel_l in H; discriminate H.
Qed.

(** X16: a text-only question sends one request, labelled with the plant
    selected when the message was submitted (no label when none is
    selected).  When the response arrives the processing message is
    replaced by exactly one message: the answer ([data.answer], or the
    apology when it is missing or empty) after a 2xx response, an
    error-flagged message otherwise; no processing message of this request
    is left in the list and no further request is sent. *)
Theorem text_question_answered_once :
  forall (snap : state) (messageId question : string) (w : world) (r : response),
    let h := TextOnlyQuestion snap messageId question in
    requests (trace (snd (started h w)))
    = requests (trace w)
      ++ [QARequest (if truthy_str (selectedPlant snap) then selectedPlant snap else None)
            question (sessionId snap)]
    /\ requests (trace (snd (finished h w r))) = requests (trace (snd (started h w)))
    /\ messages (st (snd (finished h w r)))
       = remove_id (messageId +++ "_processing") (messages (st w))
         ++ [qa_reply_message messageId r (clock w (S (ticks w)))]
    /\ Forall (fun m => id m <> messageId +++ "_processing")
         (messages (st (snd (finished h w r)))).
Proof.
  intros snap messageId question w r h. subst h.
  assert (Hmsgs : messages (st (snd (finished (TextOnlyQuestion snap messageId question) w r)))
                  = remove_id (messageId +++ "_processing") (messages (st w))
                    ++ [qa_reply_message messageId r (clock w (S (ticks w)))]).
  { unfold finished, started, handler_prog, handleTextOnlyQuestion, run_sync.
    destruct (truthy_str (selectedPlant snap)); cbn;
      destruct r as [msg | status data]; unfold run_sync; cbn;
      try destruct (ok status); cbn;
      rewrite remove_id_app, remove_id_own, app_nil_r; reflexivity. }
  split; [| split; [| split]].
  - unfold started, handler_prog, handleTextOnlyQuestion, run_sync.
    destruct (truthy_str (selectedPlant snap)); cbn;
      rewrite !requests_app; cbn; now rewrite ?app_nil_r.
  - unfold finished, started, handler_prog, handleTextOnlyQuestion, run_sync.
    destruct (truthy_str (selectedPlant snap)); cbn;
      destruct r as [msg | status data]; unfold run_sync; cbn;
      try destruct (ok status); cbn;
      rewrite !requests_app; cbn; now rewrite ?app_nil_r.
  - exact Hmsgs.
  - rewrite Hmsgs. apply Forall_app. split; [apply remove_id_all |].
    constructor; [apply reply_is_no_placeholder | constructor].
Qed.

(* ------------------------------------------------------------------- *)
(** *** Classification results                                          *)

Definition results_message (messageId : string) (rs : list result) (t : Z) : message :=
  {| id := messageId +++ "_classification_results"; content := Results rs;
     sender := BOT; type := CLASSIFICATION; timestamp := t;
     isProcessing := false; isError := false |}.

Definition selection_prompt (messageId : string) (questionText : option string) (t : Z)
  : message :=
  bot_text (messageId +++ "_selection_prompt")
    (if truthy_str questionText
     then "Vui lòng chọn loài thực vật phù hợp để tiếp tục với câu hỏi của bạn."
     else "Vui lòng chọn loài thực vật phù hợp để tiếp tục.")
    t false false.

(** X17: candidates.  When a 2xx classification response carries results
    whose first label is not the out-of-distribution label, the handler
    stores the results, replaces the processing message by the results
    message followed by the selection prompt, opens the selection dialog
    and turns the spinner off; a question sent with the images stays
    pending (the pending question is what it was when no question came
    with them). *)
Theorem candidates_open_selection :
  forall (snap : state) (messageId : string) (questionText : option string) (w : world)
         (status : Z) (firstResult : result) (others : list result) (a : option string),
    imageFiles snap <> [] ->
    ok status = true ->
    label firstResult <> OOD_LABEL ->
    let r := Response status {| results := Some (firstResult :: others); answer := a |} in
    let fin := finished (ImageClassification snap messageId questionText) w r in
    fst fin = Settled tt
    /\ classifications (st (snd fin)) = firstResult :: others
    /\ showClassificationDialog (st (snd fin)) = true
    /\ classificationLoading (st (snd fin)) = false
    /\ pendingQuestion (st (snd fin))
       = (if truthy_str questionText then questionText else pendingQuestion (st w))
    /\ messages (st (snd fin))
       = remove_id (messageId +++ "_processing") (messages (st w))
         ++ [ results_message messageId (firstResult :: others) (clock w (S (ticks w)));
              selection_prompt messageId questionText (clock w (S (S (ticks w)))) ].
Proof.
  intros snap messageId questionText w status firstResult others a Himg Hok Hlabel r fin.
  subst r fin.
  apply String.eqb_neq in Hlabel.
  unfold selection_prompt, results_message.
  unfold finished, started, handler_prog, handleImageClassification, run_sync.
  destruct (imageFiles snap) as [| f files]; [contradiction |].
  cbn [List.length Nat.eqb].
  destruct (truthy_str questionText) eqn:Hq; cbn; rewrite Hok; cbn; rewrite Hlabel; cbn;
    rewrite ?Hq; repeat split; try reflexivity;
    rewrite !remove_id_app, remove_id_own, app_nil_r, <- ?app_assoc; reflexivity.
Qed.

Definition ficus : result :=
  {| label := "Ficus religiosa"; confidence := "0.91"; image_path := None |}.

Lemma candidates_open_selection_witness :
  let snap := with_image "" in
  let w := world_of snap (ticking 1000) in
  let r := Response 200 {| results := Some [ficus]; answer := None |} in
  let fin := finished (ImageClassification snap "msg_1000" None) w r in
  fst fin = Settled tt
  /\ classifications (st (snd fin)) = [ficus]
  /\ showClassificationDialog (st (snd fin)) = true
  /\ classificationLoading (st (snd fin)) = false
  /\ pendingQuestion (st (snd fin))
     = (if truthy_str None then None else pendingQuestion (st w))
  /\ messages (st (snd fin))
     = remove_id ("msg_1000" +++ "_processing") (messages (st w))
       ++ [ results_message "msg_1000" [ficus] (clock w (S (ticks w)));
            selection_prompt "msg_1000" None (clock w (S (S (ticks w)))) ].
Proof.
  intros snap w.
  apply (candidates_open_selection snap "msg_1000" None w 200 ficus [] None).
  - discriminate.
  - reflexivity.
  - discriminate.
Defined.

(** A response that offers no candidate: a failure, or no result. *)
Definition no_candidates (r : response) : bool :=
  match r with
  | Rejected _ => true
  | Response status data =>
      if ok status
      then match results data with Some (_ :: _) => false | _ => true end
      else true
  end.

(** The error a failed classification reports ([None] after a 2xx
    response). *)
Definition classification_error (r : response) : option string :=
  match r with
  | Rejected message_ => Some ("Lỗi khi phân loại hình ảnh: " +++ message_)
  | Response status _ =>
      if ok status then None
      else Some ("Lỗi khi phân loại hình ảnh: "
                 +++ "Lỗi phân loại hình ảnh (HTTP " +++ decimal status +++ ")")
  end.

(** X18: a classification that fails (rejected request, status outside
    200..299) or returns no result never opens the selection: the pending
    question is discarded, the stored classifications and the dialog are
    left as they were, the spinner is turned off, and the processing
    message is replaced by exactly one Bot message, flagged as an error
    exactly when the request failed; only a failure sets the error
    banner. *)
Theorem no_candidates_returns_to_idle :
  forall (snap : state) (messageId : string) (questionText : option string) (w : world)
         (r : response),
    imageFiles snap <> [] ->
    no_candidates r = true ->
    let fin := finished (ImageClassification snap messageId questionText) w r in
    fst fin = Settled tt
    /\ pendingQuestion (st (snd fin)) = None
    /\ classifications (st (snd fin)) = classifications (st w)
    /\ showClassificationDialog (st (snd fin)) = showClassificationDialog (st w)
    /\ classificationLoading (st (snd fin)) = false
    /\ error (st (snd fin))
       = match classification_error r with Some e => Some e | None => error (st w) end
    /\ exists m,
        messages (st (snd fin))
        = remove_id (messageId +++ "_processing") (messages (st w)) ++ [m]
        /\ sender m = BOT /\ type m = TEXT
        /\ isError m = match classification_error r with Some _ => true | None => false end.
Proof.
  intros snap messageId questionText w r Himg Hnone fin. subst fin.
  unfold finished, started, handler_prog, handleImageClassification, run_sync.
  destruct (imageFiles snap) as [| f files]; [contradiction |].
  cbn [List.length Nat.eqb].
  destruct (truthy_str questionText) eqn:Hq; cbn;
    destruct r as [msg | status [[[| x l] |] a]]; cbn in Hnone |- *;
    try (destruct (ok status); cbn in Hnone |- *); try discriminate Hnone;
    repeat split; try reflexivity;
    eexists; (split; [rewrite !remove_id_app, remove_id_own, app_nil_r; reflexivity |]);
    repeat split; reflexivity.
Qed.

Lemma no_candidates_returns_to_idle_witness :
  let snap := with_image "Cách nhận biết?" in
  let w := world_of snap (ticking 1000) in
  let r := Response 503 {| results := None; answer := None |} in
  let fin := finished (ImageClassification snap "msg_1000" (Some "Cách nhận biết?")) w r in
  fst fin = Settled tt
  /\ pendingQuestion (st (snd fin)) = None
  /\ classifications (st (snd fin)) = classifications (st w)
  /\ showClassificationDialog (st (snd fin)) = showClassificationDialog (st w)
  /\ classificationLoading (st (snd fin)) = false
  /\ error (st (snd fin))
     = match classification_error r with Some e => Some e | None => error (st w) end
  /\ exists m,
      messages (st (snd fin))
      = remove_id ("msg_1000" +++ "_processing") (messages (st w)) ++ [m]
      /\ sender m = BOT /\ type m = TEXT
      /\ isError m = match classification_error r with Some _ => true | None => false end.
Proof.
  intros snap w r.
  apply (no_candidates_returns_to_idle snap "msg_1000" (Some "Cách nhận biết?") w r).
  - discriminate.
  - reflexivity.
Defined.

(* ------------------------------------------------------------------- *)
(** *** Images with a question                                          *)

Lemma requests_after_reset (b : bool) snap w :
  requests (trace (if b then after_reset snap w else w)) = requests (trace w).
Proof.
  destruct b; [| reflexivity]. unfold after_reset. cbn [trace].
  now rewrite requests_app, requests_reset_events, app_nil_r.
Qed.

(** X19: images take precedence.  A message sent with at least one image
    suspends on one classification request carrying the attached files and
    sends no question, whatever the text and whatever plant is selected;
    both loading flags are on while it waits, and a text that is not empty
    after trimming is kept, trimmed, as the pending question. *)
Theorem images_take_precedence :
  forall (snap : state) (w : world),
    imageFiles snap <> [] ->
    let s := started (SendMessage snap) w in
    (exists k, fst s = Blocked (Fetch (ClassifyRequest (imageFiles snap))) k)
    /\ requests (trace (snd s)) = requests (trace w) ++ [ClassifyRequest (imageFiles snap)]
    /\ isLoading (st (snd s)) = true
    /\ classificationLoading (st (snd s)) = true
    /\ (truthy_str (Some (trim (inputMessage snap))) = true ->
        pendingQuestion (st (snd s)) = Some (trim (inputMessage snap))).
Proof.
  intros snap w Himg s. subst s.
  unfold started, handler_prog, handleSendMessage.
  destruct (truthy_str (Some (trim (inputMessage snap)))) eqn:Htext;
    destruct (imageFiles snap) as [| f files] eqn:Hfiles; [contradiction | | contradiction |];
    cbn [List.length Nat.eqb negb andb orb];
    skip_reset snap w w1;
    assert (Hreq : requests (trace w1) = requests (trace w))
      by apply requests_after_reset;
    clearbody w1;
    unfold handleImageClassification; rewrite Hfiles; cbn [List.length Nat.eqb];
    rewrite ?Htext; cbn;
    (split; [eexists; reflexivity |]);
    rewrite !requests_app, Hreq; cbn; rewrite ?app_nil_r;
    repeat split; try reflexivity; intros H; discriminate H.
Qed.

Lemma images_take_precedence_witness :
  let snap := with_image "Cách nhận biết?" in
  let w := world_of snap (ticking 1000) in
  let s := started (SendMessage snap) w in
  (exists k, fst s = Blocked (Fetch (ClassifyRequest (imageFiles snap))) k)
  /\ requests (trace (snd s)) = requests (trace w) ++ [ClassifyRequest (imageFiles snap)]
  /\ isLoading (st (snd s)) = true
  /\ classificationLoading (st (snd s)) = true
  /\ (truthy_str (Some (trim (inputMessage snap))) = true ->
      pendingQuestion (st (snd s)) = Some (trim (inputMessage snap))).
Proof.
  intros snap w.
  apply (images_take_precedence snap w). discriminate.
Defined.

(** The timers a trace sets, in order. *)
Fixpoint timers (tr : list event) : list (callback * Z) :=
  match tr with
  | [] => []
  | TimerSet cb ms :: rest => (cb, ms) :: timers rest
  | _ :: rest => timers rest
  end.

Lemma timers_app tr1 tr2 : timers (tr1 ++ tr2) = timers tr1 ++ timers tr2.
Proof.
  induction tr1 as [| e tr1 IH]; [reflexivity |].
  destruct e; cbn; now rewrite IH.
Qed.

(** X20: from an image with a question to the question asked.  A message
    with images and a question is sent and the classification returns
    candidates; the user then selects a plant in the dialog.  The question
    typed with the images is then the one the timer callback asks, trimmed,
    about the selected plant: the send itself sends only the
    classification request, the selection sends nothing and sets one
    timer of 100 ms, and the callback of that timer sends one question
    request with the selected label and the trimmed text. *)
Theorem deferred_question_reaches_selection :
  forall (snap : state) (w : world) (status : Z) (firstResult : result)
         (others : list result) (a : option string) (plantLabel dialogId : string),
    imageFiles snap <> [] ->
    truthy_str (Some (trim (inputMessage snap))) = true ->
    ok status = true ->
    label firstResult <> OOD_LABEL ->
    let question := trim (inputMessage snap) in
    let r := Response status {| results := Some (firstResult :: others); answer := a |} in
    let w1 := snd (finished (SendMessage snap) w r) in
    let w2 := snd (selected w1 plantLabel dialogId) in
    let ask := AskAboutSelectedPlant dialogId plantLabel question in
    requests (trace w1) = requests (trace w) ++ [ClassifyRequest (imageFiles snap)]
    /\ pendingQuestion (st w1) = Some question
    /\ showClassificationDialog (st w1) = true
    /\ classifications (st w1) = firstResult :: others
    /\ requests (trace w2) = requests (trace w1)
    /\ timers (trace w2) = timers (trace w1) ++ [(ask, 100)]
    /\ selectedPlant (st w2) = Some plantLabel
    /\ pendingQuestion (st w2) = None
    /\ showClassificationDialog (st w2) = false
    /\ forall w' : world,
        requests (trace (snd (run_sync (fire (st w1) ask) w')))
        = requests (trace w') ++ [QARequest (Some plantLabel) question (sessionId (st w1))].
Proof.
  intros snap w status firstResult others a plantLabel dialogId Himg Htext Hok Hlabel
         question r w1 w2 ask.
  subst question.
  apply String.eqb_neq in Hlabel.
  assert (Hsend : requests (trace w1) = requests (trace w) ++ [ClassifyRequest (imageFiles snap)]
                  /\ pendingQuestion (st w1) = Some (trim (inputMessage snap))
                  /\ showClassificationDialog (st w1) = true
                  /\ classifications (st w1) = firstResult :: others).
  { subst w1 r.
    unfold finished, started, handler_prog, handleSendMessage.
    rewrite Htext.
    destruct (imageFiles snap) as [| f files] eqn:Hfiles; [contradiction |].
    cbn [List.length Nat.eqb negb andb orb].
    skip_reset snap w w0.
    assert (Hreq : requests (trace w0) = requests (trace w))
      by apply requests_after_reset.
    clearbody w0.
    unfold handleImageClassification. rewrite Hfiles. cbn [List.length Nat.eqb].
    rewrite Htext. cbn. rewrite Hok. cbn. rewrite Hlabel. cbn.
    after_finally snap. cbn.
    rewrite !requests_app, Hreq, requests_revoked. cbn. rewrite ?app_nil_r.
    repeat split; reflexivity. }
  destruct Hsend as (Hreq1 & Hpending & Hdialog & Hresults).
  clearbody w1.
  split; [exact Hreq1 |]. split; [exact Hpending |]. split; [exact Hdialog |].
  split; [exact Hresults |].
  subst w2 ask. unfold selected, handlePlantSelection. rewrite Hpending.
  rewrite Htext. unfold run_sync. cbn.
  rewrite !requests_app, !timers_app. cbn. rewrite ?app_nil_r.
  repeat split; try reflexivity.
  intros w'. rewrite !requests_app. cbn. now rewrite ?app_nil_r.
Qed.

Lemma deferred_question_reaches_selection_witness :
  let snap := with_image "  Cách nhận biết?  " in
  let w := world_of snap (ticking 1000) in
  let question := trim (inputMessage snap) in
  let r := Response 200 {| results := Some [ficus]; answer := None |} in
  let w1 := snd (finished (SendMessage snap) w r) in
  let w2 := snd (selected w1 "Ficus religiosa" "dialog_2000") in
  let ask := AskAboutSelectedPlant "dialog_2000" "Ficus religiosa" question in
  requests (trace w1) = requests (trace w) ++ [ClassifyRequest (imageFiles snap)]
  /\ pendingQuestion (st w1) = Some question
  /\ showClassificationDialog (st w1) = true
  /\ classifications (st w1) = [ficus]
  /\ requests (trace w2) = requests (trace w1)
  /\ timers (trace w2) = timers (trace w1) ++ [(ask, 100)]
  /\ selectedPlant (st w2) = Some "Ficus religiosa"
  /\ pendingQuestion (st w2) = None
  /\ showClassificationDialog (st w2) = false
  /\ forall w' : world,
      requests (trace (snd (run_sync (fire (st w1) ask) w')))
      = requests (trace w')
        ++ [QARequest (Some "Ficus religiosa") question (sessionId (st w1))].
Proof.
  intros snap w.
  apply (deferred_question_reaches_selection snap w 200 ficus [] None
           "Ficus religiosa" "dialog_2000").
  - discriminate.
  - vm_compute. reflexivity.
  - reflexivity.
  - discriminate.
Defined.

End ChatbotExtras.

(* ===================================================================== *)
(** ** Further properties of the attached images                          *)
(* ===================================================================== *)

Module ImagesExtras.
Import Chatbot AsyncFacts ImagesFacts.

Arguments decimal : simpl never.
Arguments String.append : simpl never.
Arguments toISOString : simpl never.
Arguments remove_index : simpl never.

(* ------------------------------------------------------------------- *)
(** *** Removing one image                                              *)

Lemma filter_index_from_past {A : Type} (l : list A) :
  forall i index, (index < i)%nat -> filter_index_from i index l = l.
Proof.
  induction l as [| x rest IH]; intros i index Hlt; cbn; [reflexivity |].
  destruct (Nat.eqb_spec i index) as [-> | _]; [lia |].
  f_equal. apply IH. lia.
Qed.

Lemma filter_index_from_split {A : Type} (l : list A) :
  forall i index, (i <= index)%nat ->
    filter_index_from i index l
    = firstn (index - i) l ++ skipn (S (index - i)) l.
Proof.
  induction l as [| x rest IH]; intros i index Hle; cbn.
  - now rewrite firstn_nil.
  - destruct (Nat.eqb_spec i index) as [-> | Hne].
    + rewrite Nat.sub_diag. cbn. apply filter_index_from_past. lia.
    + replace (index - i)%nat with (S (index - S i)) by lia. cbn.
      f_equal. apply IH. lia.
Qed.

Lemma remove_index_split {A : Type} (index : nat) (l : list A) :
  remove_index index l = firstn index l ++ skipn (S index) l.
Proof.
  unfold remove_index. rewrite filter_index_from_split by lia.
  now rewrite Nat.sub_0_r.
Qed.

Lemma length_without_position {A : Type} (index : nat) (l : list A) :
  List.length (firstn index l ++ skipn (S index) l)
  = (if (index <? List.length l)%nat then List.length l - 1 else List.length l)%nat.
Proof.
  rewrite length_app, length_firstn, length_skipn.
  destruct (Nat.ltb_spec index (List.length l)); lia.
Qed.

(** X21: removing the image at [index] removes position [index], and
    only that position, from both arrays of the latest state (nothing when
    the index is past the end); the URL it revokes is the one at [index]
    in the preview list of the render the handler was created in
    ([undefined] when there is none). *)
Theorem removeImage_removes_position :
  forall (snap : state) (index : nat) (w : world),
    let w' := after (RemoveImage snap index) w in
    imageFiles (st w')
    = firstn index (imageFiles (st w)) ++ skipn (S index) (imageFiles (st w))
    /\ imagePreviewUrls (st w')
       = firstn index (imagePreviewUrls (st w)) ++ skipn (S index) (imagePreviewUrls (st w))
    /\ List.length (imageFiles (st w'))
       = (if (index <? List.length (imageFiles (st w)))%nat
          then List.length (imageFiles (st w)) - 1
          else List.length (imageFiles (st w)))%nat
    /\ trace w'
       = trace w ++ [ UrlRevoked (imagePreviewUrls snap !! index);
                      Updated (RemoveImageFile index);
                      Updated (RemoveImagePreviewUrl index) ].
Proof.
  intros snap index w w'. subst w'.
  unfold after, op_prog, removeImage, run_sync. cbn.
  rewrite !remove_index_split.
  repeat split; try reflexivity.
  - apply length_without_position.
  - now rewrite <- !app_assoc.
Qed.

(* ------------------------------------------------------------------- *)
(** *** Selecting files                                                 *)

(** The URLs [URL.createObjectURL] returns are numbered from the number
    of URLs created so far. *)
Lemma createObjectURLs_run files :
  forall w, exists urls,
    run_sync (createObjectURLs files) w
    = (Settled urls,
       {| st := st w; trace := trace w ++ List.map UrlCreated urls;
          clock := clock w; ticks := ticks w;
          created := created w ++ List.combine urls (List.map bytes_id files) |})
    /\ List.length urls = List.length files.
Proof.
  induction files as [| f rest IH]; intros w.
  - exists []. cbn. rewrite !app_nil_r. split; [now destruct w | reflexivity].
  - cbn. unfold run_sync in *. cbn.
    set (w1 := {| st := st w; trace := _; clock := _; ticks := _; created := _ |}).
    destruct (IH w1) as (urls & Hrun & Hlen).
    rewrite (run_sync_bind_settled _ _ _ _ _ _ _ Hrun). cbn.
    exists (("blob:" +++ decimal (Z.of_nat (List.length (created w)))) :: urls).
    split; [| cbn; now rewrite Hlen].
    subst w1. cbn. now rewrite <- !app_assoc.
Qed.

Definition no_image_error : string :=
  "Vui lòng chọn file hình ảnh hợp lệ (JPG, PNG, etc.)".

(** X22: a file selection attaches exactly the selected files whose type
    starts with [image/], in the order selected, after the files already
    attached, with one new object URL per attached file (created from its
    bytes); the other files are dropped silently, except that a non-empty
    selection with no image at all sets the error and attaches nothing. *)
Theorem handleFileSelect_attaches_images :
  forall (files : list file) (w : world),
    let valid := List.filter (fun f => is_image (file_type f)) files in
    let w' := after (FileSelect files) w in
    imageFiles (st w') = imageFiles (st w) ++ valid
    /\ (exists urls,
           List.length urls = List.length valid
           /\ imagePreviewUrls (st w') = imagePreviewUrls (st w) ++ urls
           /\ created w' = created w ++ List.combine urls (List.map bytes_id valid))
    /\ error (st w')
       = (match files, valid with
          | _ :: _, [] => Some no_image_error
          | _, _ => error (st w)
          end)
    /\ messages (st w') = messages (st w).
Proof.
  intros files w valid w'. subst w' valid.
  unfold after, op_prog, handleFileSelect.
  destruct files as [| f0 files0].
  - cbn. rewrite app_nil_r. repeat split; try reflexivity.
    exists []. cbn. now rewrite !app_nil_r.
  - remember (List.filter (fun f => is_image (file_type f)) (f0 :: files0)) as valid
      eqn:Hvalid.
    cbn [List.length Nat.eqb].
    destruct valid as [| v valid0]; cbn [List.length Nat.eqb].
    + cbn. rewrite app_nil_r. repeat split; try reflexivity.
      exists []. cbn. now rewrite !app_nil_r.
    + destruct (createObjectURLs_run (v :: valid0) w) as (urls & Hrun & Hlen).
      unfold run_sync in *.
      rewrite (run_sync_bind_settled _ _ _ _ _ _ _ Hrun). cbn.
      repeat split; try reflexivity.
      exists urls. split; [exact Hlen |]. split; reflexivity.
Qed.

(* ------------------------------------------------------------------- *)
(** *** Pasting images                                                  *)

(** The clipboard items the paste handler works on: none when the paste
    goes into the message input or carries no clipboard data. *)
Definition image_items (event_ : paste_event) : list clipboard_item :=
  if intoMessageInput event_ then []
  else match clipboardItems event_ with
       | None => []
       | Some items => List.filter (fun it => is_image (item_type it)) items
       end.

(** The blobs [getAsFile()] yields. *)
Fixpoint blobs (items : list clipboard_item) : list blob :=
  match items with
  | [] => []
  | item :: rest =>
      match getAsFile item with
      | Some b => b :: blobs rest
      | None => blobs rest
      end
  end.

Definition plain (c : ascii) : Prop := c <> ":"%char /\ c <> "."%char.

(** The name given to a pasted file: [pasted-image-<time>.<extension>],
    where the time has neither colon nor dot and the extension is the
    part of the type after the slash, [png] when there is none. *)
Definition pasted_name (f : file) : Prop :=
  exists time_ : string,
    name f = "pasted-image-" +++ time_ +++ "." +++ extension_of (file_type f)
    /\ Forall plain (list_ascii_of_string time_)
    /\ extension_of (file_type f) <> "".

Lemma dashes_plain (s : string) : Forall plain (list_ascii_of_string (dashes s)).
Proof.
  induction s as [| c s IH]; cbn; constructor; [| exact IH].
  unfold plain.
  destruct (Ascii.eqb_spec c ":") as [-> | H1]; cbn; [split; discriminate |].
  destruct (Ascii.eqb_spec c ".") as [-> | H2]; cbn; [split; discriminate |].
  split; assumption.
Qed.

Lemma extension_of_nonempty (t : string) : extension_of t <> "".
Proof.
  unfold extension_of. destruct (after_slash t) as [e |]; [| discriminate].
  destruct (String.eqb_spec e ""); [discriminate | assumption].
Qed.

Lemma paste_items_run items :
  forall w, exists new w',
    run_sync (paste_items items) w = (Settled new, w')
    /\ st w' = st w
    /\ List.map file_type (fst new) = List.map blob_type (blobs items)
    /\ List.map bytes_id (fst new) = List.map blob_bytes (blobs items)
    /\ List.length (snd new) = List.length (fst new)
    /\ Forall pasted_name (fst new).
Proof.
  induction items as [| item rest IH]; intros w.
  - exists ([], []), w. cbn. repeat split; auto.
  - cbn. destruct (getAsFile item) as [b |]; [| apply IH].
    unfold run_sync in *. cbn.
    set (w1 := {| st := st w; trace := _; clock := _; ticks := _; created := _ |}).
    destruct (IH w1) as (new & w' & Hrun & Hst & Htypes & Hbytes & Hlen & Hnames).
    rewrite (run_sync_bind_settled _ _ _ _ _ _ _ Hrun). cbn.
    eexists _, w'. split; [reflexivity |]. cbn.
    rewrite Htypes, Hbytes, Hlen.
    repeat split; try reflexivity; [exact Hst |].
    constructor; [| exact Hnames].
    eexists. cbn. split; [reflexivity |].
    split; [apply dashes_plain | apply extension_of_nonempty].
Qed.

Arguments blobs : simpl never.

(** X23: the paste handler ignores a paste into the message input, a
    paste without clipboard data and a paste without an item whose type
    starts with [image/]: the state and the trace are then untouched.
    Otherwise it attaches one file per image item that yields a blob, in
    order, after the files already attached, with the type and the bytes
    of the blob and a generated name; it ends with the paste indicator
    off, the hint hidden and the paste error cleared, and reports success
    exactly when a file was attached. *)
Theorem handlePaste_attaches_clipboard_images :
  forall (event_ : paste_event) (w : world),
    let w' := after (Paste event_) w in
    match image_items event_ with
    | [] => w' = w
    | _ :: _ =>
        pasteIndicator (st w') = false
        /\ showPasteHint (st w') = false
        /\ pasteError (st w') = None
        /\ pasteSuccess (st w')
           = (match blobs (image_items event_) with
              | [] => pasteSuccess (st w)
              | _ :: _ => true
              end)
        /\ exists new : list file,
            imageFiles (st w') = imageFiles (st w) ++ new
            /\ List.map file_type new = List.map blob_type (blobs (image_items event_))
            /\ List.map bytes_id new = List.map blob_bytes (blobs (image_items event_))
            /\ Forall pasted_name new
    end.
Proof.
  intros event_ w w'. subst w'.
  unfold after, op_prog, handlePaste, image_items.
  destruct (intoMessageInput event_); [reflexivity |].
  destruct (clipboardItems event_) as [items |]; [| reflexivity].
  remember (List.filter (fun it => is_image (item_type it)) items) as imageItems
    eqn:Himage.
  destruct imageItems as [| item0 items0]; [reflexivity |].
  cbn [List.length Nat.eqb].
  unfold run_sync. cbn.
  set (w1 := {| st := _; trace := _; clock := _; ticks := _; created := _ |}).
  destruct (paste_items_run (item0 :: items0) w1)
    as (new & w2 & Hrun & Hst & Htypes & Hbytes & Hlen & Hnames).
  unfold run_sync in *.
  rewrite (run_sync_bind_settled _ _ _ _ _ _ _ Hrun).
  destruct new as [newFiles newPreviewUrls]. cbn [fst snd] in *.
  rewrite <- Htypes, <- Hbytes.
  destruct newFiles as [| f newFiles]; cbn; rewrite Hst; subst w1; cbn.
  - destruct (blobs (item0 :: items0)); [| discriminate Htypes].
    repeat split. exists []. rewrite app_nil_r. repeat split. constructor.
  - destruct (blobs (item0 :: items0)); [discriminate Htypes |].
    repeat split. exists (f :: newFiles). repeat split. exact Hnames.
Qed.

End ImagesExtras.

(* ===================================================================== *)
(** ** Properties of the image gallery                                    *)
(* ===================================================================== *)

Module GalleryFacts.
Import Gallery.




Lemma rem_small (a n : Z) : 0 <= a < n -> Z.rem a n = a.
Proof. intros H. apply Z.rem_small. exact H. Qed.

Lemma handleNext_spec (imgs : list image) (i : Z) :
  0 <= i < length_of imgs ->
  handleNext imgs i = (if i + 1 =? length_of imgs then 0 else i + 1).
Proof.
  intros H. unfold handleNext.
  destruct (Z.gtb_spec (length_of imgs) 1) as [Hgt | Hle].
  - destruct (Z.eqb_spec (i + 1) (length_of imgs)) as [-> | Hne].
    + apply Z.rem_same. lia.
    + apply rem_small. lia.
  - destruct (Z.eqb_spec (i + 1) (length_of imgs)); lia.
Qed.

Lemma handlePrevious_spec (imgs : list image) (i : Z) :
  0 <= i < length_of imgs ->
  handlePrevious imgs i = (if i =? 0 then length_of imgs - 1 else i - 1).
Proof.
  intros H. unfold handlePrevious.
  destruct (Z.gtb_spec (length_of imgs) 1) as [Hgt | Hle].
  - destruct (Z.eqb_spec i 0) as [-> | Hne].
    + replace (0 - 1 + length_of imgs) with (length_of imgs - 1) by lia.
      apply rem_small. lia.
    + replace (i - 1 + length_of imgs) with (i - 1 + 1 * length_of imgs) by lia.
      rewrite Z.rem_mod_nonneg by lia.
      rewrite Z_mod_plus_full. apply Z.mod_small. lia.
  - destruct (Z.eqb_spec i 0); lia.
Qed.


(** X25: with the index in range, previous undoes next and next undoes
    previous, and pressing next once per image comes back to the image
    shown. *)
Theorem next_and_previous_are_inverse :
  forall (imgs : list image) (i : Z),
    0 <= i < length_of imgs ->
    handlePrevious imgs (handleNext imgs i) = i
    /\ handleNext imgs (handlePrevious imgs i) = i
    /\ Nat.iter (List.length imgs) (handleNext imgs) i = i.
Proof.
  intros imgs i Hi.
  split; [| split].
  - rewrite handleNext_spec by exact Hi.
    destruct (Z.eqb_spec (i + 1) (length_of imgs)) as [Heq | Hne].
    + rewrite handlePrevious_spec by lia. cbn. lia.
    + rewrite handlePrevious_spec by lia.
      destruct (Z.eqb_spec (i + 1) 0); lia.
  - rewrite handlePrevious_spec by exact Hi.
    destruct (Z.eqb_spec i 0) as [Heq | Hne].
    + rewrite handleNext_spec by lia.
      destruct (Z.eqb_spec (length_of imgs - 1 + 1) (length_of imgs)); lia.
    + rewrite handleNext_spec by lia.
      destruct (Z.eqb_spec (i - 1 + 1) (length_of imgs)); lia.
  - assert (Hiter : forall n : nat,
               Nat.iter n (handleNext imgs) i = (i + Z.of_nat n) mod length_of imgs).
    { induction n as [| n IH].
      - cbn. rewrite Z.add_0_r. symmetry. apply Z.mod_small. exact Hi.
      - rewrite Nat.iter_succ, IH.
        assert (Hr : 0 <= (i + Z.of_nat n) mod length_of imgs < length_of imgs)
          by (apply Z.mod_pos_bound; lia).
        rewrite handleNext_spec by exact Hr.
        replace (i + Z.of_nat (S n)) with ((i + Z.of_nat n) + 1) by lia.
        rewrite <- (Zplus_mod_idemp_l (i + Z.of_nat n) 1).
        destruct (Z.eqb_spec ((i + Z.of_nat n) mod length_of imgs + 1) (length_of imgs))
          as [Heq | Hne].
        + rewrite Heq. symmetry. apply Z_mod_same_full.
        + symmetry. apply Z.mod_small. lia. }
    rewrite Hiter. fold (length_of imgs).
    replace (i + length_of imgs) with (i + 1 * length_of imgs) by lia.
    rewrite Z_mod_plus_full. apply Z.mod_small. exact Hi.
Qed.

Definition leaf_photos : list image :=
  [ {| path := Some "a.jpg"; is_primary := false |};
    {| path := Some "b.jpg"; is_primary := true |};
    {| path := Some "c.jpg"; is_primary := false |} ].

Lemma next_and_previous_are_inverse_witness :
  handlePrevious leaf_photos (handleNext leaf_photos 2) = 2
  /\ handleNext leaf_photos (handlePrevious leaf_photos 2) = 2
  /\ Nat.iter (List.length leaf_photos) (handleNext leaf_photos) 2 = 2.
Proof.
  apply (next_and_previous_are_inverse leaf_photos 2).
  unfold length_of. cbn. lia.
Defined.

(* ------------------------------------------------------------------- *)
(** *** Image paths                                                     *)

Lemma prefix_append (p a s : string) :
  String.prefix p a = true -> String.prefix p (a +++ s) = true.
Proof.
  revert a. induction p as [| c p IH]; intros a H.
  - destruct (a +++ s); reflexivity.
  - destruct a as [| d a]; [discriminate H |].
    change (String d a +++ s) with (String d (a +++ s)).
    cbn [String.prefix] in H |- *.
    destruct (ascii_dec c d); [apply IH, H | discriminate H].
Qed.

Lemma prefix_without_slash (pre q : string) :
  String.prefix pre q = true -> includes_slash q = false -> includes_slash pre = false.
Proof.
  revert q. induction pre as [| c pre IH]; intros q H Hq; [reflexivity |].
  destruct q as [| d q]; [discriminate H |].
  cbn [String.prefix] in H. destruct (ascii_dec c d) as [-> |]; [| discriminate H].
  cbn [includes_slash] in Hq |- *. apply orb_false_iff in Hq. destruct Hq as [Hd Hq].
  rewrite Hd. cbn [orb]. apply (IH q H Hq).
Qed.

Definition absolute (url : string) : bool :=
  String.prefix "http://" url || String.prefix "https://" url.

Lemma absolute_append (a s : string) : absolute a = true -> absolute (a +++ s) = true.
Proof.
  unfold absolute. intros H. apply orb_true_iff in H. apply orb_true_iff.
  destruct H as [H | H]; [left | right]; apply prefix_append, H.
Qed.

Lemma absolute_truthy (a : string) : absolute a = true -> truthy_str (Some a) = true.
Proof. destruct a; [discriminate | reflexivity]. Qed.

Lemma absolute_fixed (API_URL a : string) :
  absolute a = true -> getCorrectImagePath API_URL (Some a) = a.
Proof.
  intros H. unfold getCorrectImagePath. rewrite (absolute_truthy a H).
  cbn [negb]. fold (absolute a). now rewrite H.
Qed.

(** X26: where the source of an image comes from.  A complete [http] or
    [https] URL and a name without a slash are used as they are; every
    other path is put under the base URL.  When the base URL is itself a
    complete URL, the function changes nothing when applied to its own
    result, for every path that is not empty. *)
Theorem getCorrectImagePath_is_idempotent :
  forall (API_URL p : string),
    absolute API_URL = true ->
    p <> "" ->
    getCorrectImagePath API_URL (Some (getCorrectImagePath API_URL (Some p)))
    = getCorrectImagePath API_URL (Some p)
    /\ (absolute p = true -> getCorrectImagePath API_URL (Some p) = p)
    /\ (includes_slash p = false -> getCorrectImagePath API_URL (Some p) = p).
Proof.
  intros API_URL p Habs Hp.
  assert (Htruthy : truthy_str (Some p) = true).
  { cbn. destruct (String.eqb_spec p ""); [contradiction | reflexivity]. }
  split; [| split].
  - assert (Hr : getCorrectImagePath API_URL (Some p)
                 = if absolute p then p
                   else if String.prefix "/plant-images/" p then API_URL +++ p
                   else if includes_slash p
                        then API_URL +++ "/plant-images/" +++ strip_slashes p
                        else p).
    { unfold getCorrectImagePath. rewrite Htruthy. reflexivity. }
    destruct (absolute p) eqn:Hp_abs;
      [rewrite Hr; now apply absolute_fixed |].
    destruct (String.prefix "/plant-images/" p) eqn:Hpre;
      [rewrite Hr; apply absolute_fixed, absolute_append, Habs |].
    destruct (includes_slash p) eqn:Hslash;
      [rewrite Hr; apply absolute_fixed, absolute_append, Habs |].
    rewrite Hr. exact Hr.
  - apply absolute_fixed.
  - intros Hslash. unfold getCorrectImagePath. rewrite Htruthy. cbn [negb].
    assert (Hno : forall pre, includes_slash pre = true -> String.prefix pre p = false).
    { intros pre Hpre. destruct (String.prefix pre p) eqn:H; [| reflexivity].
      rewrite (prefix_without_slash pre p H Hslash) in Hpre. discriminate Hpre. }
    rewrite !Hno by reflexivity. rewrite Hslash. reflexivity.
Qed.

Lemma getCorrectImagePath_is_idempotent_witness :
  getCorrectImagePath "https://plants.example"
    (Some (getCorrectImagePath "https://plants.example" (Some "//img/ficus.jpg")))
  = getCorrectImagePath "https://plants.example" (Some "//img/ficus.jpg")
  /\ (absolute "//img/ficus.jpg" = true ->
      getCorrectImagePath "https://plants.example" (Some "//img/ficus.jpg")
      = "//img/ficus.jpg")
  /\ (includes_slash "//img/ficus.jpg" = false ->
      getCorrectImagePath "https://plants.example" (Some "//img/ficus.jpg")
      = "//img/ficus.jpg").
Proof.
  apply (getCorrectImagePath_is_idempotent "https://plants.example" "//img/ficus.jpg").
  - reflexivity.
  - discriminate.
Defined.

End GalleryFacts.
